(** * Misinfo-Detector: the research agent's orchestration and scoring logic

    A shallow embedding of
      - [backend/app/services/agentic_controller.py]  (planner, evidence
        collector, evidence normalizer, the per-task step of [run]),
      - [backend/app/services/credibility.py]         (credibility engine),
      - [backend/app/services/research_agent.py]      ([ResearchAgent.analyze]),
      - [backend/app/routers/detect.py]               ([agentic_detect]),
    followed by the properties of the specification stated over it.

    Modelling conventions.
      - A Python [str] is a [list ascii]; a character is a code point below
        256.  A [str] field that the source reads with [d.get(k) or ...] or
        [d.get(k, '')] is a [pystr] whose empty value stands for a missing,
        [None] or empty entry (Python treats the three alike there).
      - A Python [float] is a real number: arithmetic is exact, [math.log1p x]
        is [ln (1 + x)] and [round(x, 3)] rounds to the nearest multiple of
        [1/1000], ties to even.
      - A Python exception is a value of [exn]; code that can raise returns
        a [result]; [try/except Exception] is [try_except].
      - Capabilities the code receives from outside (the language model, the
        search tool, the scraper, the graph builder) are functions passed
        in; each may raise. *)

From Stdlib Require Import List Ascii String Arith Bool ZArith Lia.
From Stdlib Require Import Permutation Sorted DecimalString.
From Stdlib Require Import Reals Lra.
Import ListNotations.

Set Implicit Arguments.
Set Warnings "-register-all".

(** ** Exceptions *)

Inductive exn : Type :=
| TypeError
| AttributeError
| IndexError
| ValueError
| JSONDecodeError
| RuntimeError (msg : list ascii)
| HTTPException (status_code : nat) (detail : list ascii).

Inductive result (A : Type) : Type :=
| Ok (a : A)
| Raise (e : exn).

Arguments Ok {A} a.
Arguments Raise {A} e.

Definition bind {A B : Type} (m : result A) (k : A -> result B) : result B :=
  match m with
  | Ok a => k a
  | Raise e => Raise e
  end.

(** [try: m except Exception as e: h e] *)
Definition try_except {A : Type} (m : result A) (h : exn -> result A) : result A :=
  match m with
  | Ok a => Ok a
  | Raise e => h e
  end.

Declare Scope py_scope.
Delimit Scope py_scope with py.
Notation "x <- m ;; k" := (bind m (fun x => k))
  (at level 61, m at next level, right associativity) : py_scope.
Open Scope py_scope.

(** ** Python strings *)

Module PyStr.

Definition pystr : Type := list ascii.

Definition str (s : string) : pystr := list_ascii_of_string s.

Fixpoint eqb (a b : pystr) : bool :=
  match a, b with
  | [], [] => true
  | x :: a', y :: b' => Ascii.eqb x y && eqb a' b'
  | _, _ => false
  end.

(** truth value of a string: [bool(s)] *)
Definition nonempty (s : pystr) : bool :=
  match s with
  | [] => false
  | _ :: _ => true
  end.

(** [a or b] on strings *)
Definition py_or (a b : pystr) : pystr := if nonempty a then a else b.

(** [str.isspace] for one character: TAB..CR, FS..US, SPACE, NEL, NBSP *)
Definition isspace (c : ascii) : bool :=
  let n := nat_of_ascii c in
  ((9 <=? n) && (n <=? 13)) || ((28 <=? n) && (n <=? 32))
  || (n =? 133) || (n =? 160).

Definition flush (cur : pystr) : list pystr :=
  match cur with
  | [] => []
  | _ :: _ => [rev cur]
  end.

(** [t.split()]: the maximal runs of non-space characters; [cur] holds the
    run being read, last character first *)
Fixpoint split_ws_from (cur : pystr) (t : pystr) : list pystr :=
  match t with
  | [] => flush cur
  | c :: t' =>
      if isspace c then flush cur ++ split_ws_from [] t'
      else split_ws_from (c :: cur) t'
  end.

Definition split_ws (t : pystr) : list pystr := split_ws_from [] t.

(** [sep.join(words)] *)
Fixpoint join (sep : pystr) (words : list pystr) : pystr :=
  match words with
  | [] => []
  | [w] => w
  | w :: ws => w ++ sep ++ join sep ws
  end.

Definition is_char (c x : ascii) : bool := Ascii.eqb x c.

(** [s.rsplit(sep, 1)[0]] for a one-character [sep]: what stands before the
    last [sep], or all of [s] when [sep] does not occur *)
Fixpoint rsplit1_head (sep : ascii) (s : pystr) : pystr :=
  match s with
  | [] => []
  | c :: s' =>
      if existsb (is_char sep) s' then c :: rsplit1_head sep s'
      else if is_char sep c then []
      else c :: s'
  end.

(** [s.split(sep)] for a one-character [sep] *)
Fixpoint split_on_from (sep : ascii) (cur : pystr) (s : pystr) : list pystr :=
  match s with
  | [] => [rev cur]
  | c :: s' =>
      if is_char sep c then rev cur :: split_on_from sep [] s'
      else split_on_from sep (c :: cur) s'
  end.

Definition split_on (sep : ascii) (s : pystr) : list pystr :=
  split_on_from sep [] s.

Fixpoint startswith (p s : pystr) : bool :=
  match p, s with
  | [], _ => true
  | _ :: _, [] => false
  | a :: p', b :: s' => Ascii.eqb a b && startswith p' s'
  end.

(** [needle in hay] *)
Fixpoint contains (needle hay : pystr) : bool :=
  startswith needle hay ||
  match hay with
  | [] => false
  | _ :: hay' => contains needle hay'
  end.

(** [str.lower] on code points below 256: A..Z and the Latin-1 capitals *)
Definition lower_char (c : ascii) : ascii :=
  let n := nat_of_ascii c in
  if ((65 <=? n) && (n <=? 90))
     || ((192 <=? n) && (n <=? 222) && negb (n =? 215))
  then ascii_of_nat (n + 32) else c.

Definition lower (s : pystr) : pystr := map lower_char s.

Fixpoint lstrip (s : pystr) : pystr :=
  match s with
  | [] => []
  | c :: s' => if isspace c then lstrip s' else s
  end.

Definition rstrip (s : pystr) : pystr := rev (lstrip (rev s)).

(** [s.strip()] *)
Definition strip (s : pystr) : pystr := rstrip (lstrip s).

(** [s.count(c)] for a one-character [c] *)
Definition count (c : ascii) (s : pystr) : nat :=
  List.length (filter (is_char c) s).

(** decimal rendering of a non-negative integer, as an f-string prints it *)
Definition of_nat (n : nat) : pystr :=
  str (NilEmpty.string_of_uint (Nat.to_uint n)).

(** [t.encode("utf-8")], as byte values *)
Definition utf8 (s : pystr) : list Z :=
  flat_map (fun c =>
    let n := Z.of_nat (nat_of_ascii c) in
    if (n <? 128)%Z then [n]
    else [Z.lor 192 (Z.shiftr n 6); Z.lor 128 (Z.land n 63)]) s.

End PyStr.

Import PyStr.

(** An insertion-ordered Python [dict] with string keys. *)

Module Dict.

Definition dict (V : Type) : Type := list (pystr * V).

Fixpoint get {V : Type} (k : pystr) (d : dict V) : option V :=
  match d with
  | [] => None
  | (k', v) :: d' => if PyStr.eqb k k' then Some v else get k d'
  end.

(** [d[k] = v]: a present key keeps its position, a new key goes last *)
Fixpoint set {V : Type} (k : pystr) (v : V) (d : dict V) : dict V :=
  match d with
  | [] => [(k, v)]
  | (k', v') :: d' =>
      if PyStr.eqb k k' then (k', v) :: d' else (k', v') :: set k v d'
  end.

(** [list(d.values())] *)
Definition values {V : Type} (d : dict V) : list V := map snd d.

(** [d.get(k, default)] *)
Definition get_default {V : Type} (k : pystr) (default : V) (d : dict V) : V :=
  match get k d with
  | Some v => v
  | None => default
  end.

(** [d.setdefault(k, default)] *)
Definition setdefault {V : Type} (k : pystr) (default : V) (d : dict V) : dict V :=
  match get k d with
  | Some _ => d
  | None => set k default d
  end.

End Dict.

(** ** SHA-1 ([hashlib.sha1(...).hexdigest()]) *)

Module Sha1.

#[local] Open Scope Z_scope.

Definition mask32 (x : Z) : Z := Z.land x 0xFFFFFFFF.

Definition add32 (x y : Z) : Z := mask32 (x + y).

Definition rotl (n : Z) (x : Z) : Z :=
  mask32 (Z.lor (Z.shiftl x n) (Z.shiftr x (32 - n))).

Definition not32 (x : Z) : Z := Z.lxor x 0xFFFFFFFF.

(** the message followed by 0x80, zero bytes up to 56 modulo 64, and the bit
    length on eight bytes, most significant first *)
Definition pad (msg : list Z) : list Z :=
  let len := Z.of_nat (List.length msg) in
  let zeros := Z.to_nat ((55 - len) mod 64) in
  let bits := 8 * len in
  msg ++ [0x80] ++ repeat 0 zeros
      ++ map (fun i => Z.land (Z.shiftr bits (8 * (7 - Z.of_nat i))) 255) (seq 0 8).

Fixpoint words_of (n : nat) (bytes : list Z) : list Z :=
  match n with
  | O => []
  | S n' =>
      match bytes with
      | b0 :: b1 :: b2 :: b3 :: rest =>
          Z.lor (Z.shiftl b0 24) (Z.lor (Z.shiftl b1 16) (Z.lor (Z.shiftl b2 8) b3))
          :: words_of n' rest
      | _ => []
      end
  end.

Definition word_at (w : list Z) (i : nat) : Z := nth i w 0.

(** message schedule: sixteen words extended to eighty *)
Fixpoint extend (n : nat) (w : list Z) : list Z :=
  match n with
  | O => w
  | S n' =>
      let i := List.length w in
      extend n' (w ++ [rotl 1 (Z.lxor (Z.lxor (word_at w (i - 3)) (word_at w (i - 8)))
                                      (Z.lxor (word_at w (i - 14)) (word_at w (i - 16))))])
  end.

Definition state : Type := (Z * Z * Z * Z * Z)%type.

Definition round (st : state) (iw : nat * Z) : state :=
  let '(a, b, c, d, e) := st in
  let '(i, w) := iw in
  let '(f, k) :=
    if (i <? 20)%nat then (Z.lor (Z.land b c) (Z.land (not32 b) d), 0x5A827999)
    else if (i <? 40)%nat then (Z.lxor (Z.lxor b c) d, 0x6ED9EBA1)
    else if (i <? 60)%nat then
      (Z.lor (Z.lor (Z.land b c) (Z.land b d)) (Z.land c d), 0x8F1BBCDC)
    else (Z.lxor (Z.lxor b c) d, 0xCA62C1D6) in
  let temp := add32 (add32 (add32 (add32 (rotl 5 a) f) e) k) w in
  (temp, a, rotl 30 b, c, d).

Definition compress (h : state) (block : list Z) : state :=
  let w := extend 64 (words_of 16 block) in
  let '(a, b, c, d, e) := fold_left round (combine (seq 0 80) w) h in
  let '(h0, h1, h2, h3, h4) := h in
  (add32 h0 a, add32 h1 b, add32 h2 c, add32 h3 d, add32 h4 e).

Fixpoint blocks (n : nat) (bytes : list Z) (h : state) : state :=
  match n with
  | O => h
  | S n' => blocks n' (skipn 64 bytes) (compress h (firstn 64 bytes))
  end.

Definition digest (msg : list Z) : state :=
  let p := pad msg in
  blocks (List.length p / 64) p
         (0x67452301, 0xEFCDAB89, 0x98BADCFE, 0x10325476, 0xC3D2E1F0).

Definition hex_digit (x : Z) : ascii :=
  nth (Z.to_nat x) (str "0123456789abcdef") "0"%char.

Definition hex32 (w : Z) : pystr :=
  map (fun i => hex_digit (Z.land (Z.shiftr w (4 * (7 - Z.of_nat i))) 15)) (seq 0 8).

Definition hexdigest (msg : list Z) : pystr :=
  let '(h0, h1, h2, h3, h4) := digest msg in
  hex32 h0 ++ hex32 h1 ++ hex32 h2 ++ hex32 h3 ++ hex32 h4.

End Sha1.

(** [_hash_text] *)
Definition _hash_text (t : pystr) : pystr := Sha1.hexdigest (utf8 t).

(** ** Floats *)

Module PyFloat.

#[local] Open Scope R_scope.

(** the integer nearest to [x], a tie going to the even neighbour *)
Definition round_half_even (x : R) : Z :=
  let f := Zfloor x in
  let d := x - IZR f in
  if Rlt_dec d (1 / 2) then f
  else if Rlt_dec (1 / 2) d then (f + 1)%Z
  else if Z.even f then f else (f + 1)%Z.

(** [round(x, ndigits)] *)
Definition py_round (x : R) (ndigits : nat) : R :=
  IZR (round_half_even (x * 10 ^ ndigits)) / 10 ^ ndigits.

(** [math.log1p] *)
Definition log1p (x : R) : R := ln (1 + x).

End PyFloat.

Import PyFloat.

(** ** agentic_controller.py: evidence items *)

(** A search hit: [{"id", "title", "url", "snippet", "domain", "score"}];
    [h_score = None] when the hit has no ["score"] entry. *)
Record hit : Type := mkHit {
  h_id : pystr;
  h_title : pystr;
  h_url : pystr;
  h_snippet : pystr;
  h_domain : pystr;
  h_score : option R
}.

(** What [Scraper.scrape] returns: [{"title", "text"}]. *)
Record page : Type := mkPage {
  p_title : pystr;
  p_text : pystr
}.

(** An evidence item:
    [{"source_id","url","title","snippet","text","domain","score"}], and
    ["relevance"] once scored.  [score] and [relevance] are [None] while the
    entry is missing. *)
Record evidence : Type := mkEvidence {
  source_id : pystr;
  url : pystr;
  title : pystr;
  snippet : pystr;
  text : pystr;
  domain : pystr;
  score : option R;
  relevance : option R
}.

(** [item["score"] = s] *)
Definition set_score (s : R) (e : evidence) : evidence :=
  mkEvidence (source_id e) (url e) (title e) (snippet e) (text e) (domain e)
             (Some s) (relevance e).

(** [item["relevance"] = r] *)
Definition set_relevance (r : R) (e : evidence) : evidence :=
  mkEvidence (source_id e) (url e) (title e) (snippet e) (text e) (domain e)
             (score e) (Some r).

(** [e.get("score", default)] *)
Definition get_score (default : R) (e : evidence) : R :=
  match score e with
  | Some s => s
  | None => default
  end.

(** [x.get("relevance", default)] *)
Definition get_relevance (default : R) (e : evidence) : R :=
  match relevance e with
  | Some r => r
  | None => default
  end.

(** [_norm_text] *)
Definition _norm_text (t : pystr) (length : nat) : pystr :=
  if negb (nonempty t) then []
  else
    let s := join (str " ") (split_ws t) in
    if List.length s <=? length then s
    else rsplit1_head " " (firstn length s) ++ str "...".

(** ** The evidence collector *)

Section Collector.

(** [self.scraper.scrape] *)
Variable scrape : pystr -> result page.

(** [r.get("domain") or (url.split("/")[2] if url else '')] *)
Definition hit_domain (r : hit) (url : pystr) : result pystr :=
  if nonempty (h_domain r) then Ok (h_domain r)
  else if nonempty url then
    match nth_error (split_on "/" url) 2 with
    | Some d => Ok d
    | None => Raise IndexError
    end
  else Ok [].

(** the dict appended to [out] for one hit whose page was scraped *)
Definition evidence_of_hit (r : hit) (url : pystr) (pg : page) : result evidence :=
  let snippet_text :=
    _norm_text (py_or (h_snippet r) (firstn 400 (p_text pg))) 400 in
  d <- hit_domain r url ;;
  Ok (mkEvidence (py_or (h_id r) (_hash_text url))
                 url
                 (py_or (h_title r) (p_title pg))
                 snippet_text
                 (p_text pg)
                 d
                 (Some (match h_score r with Some s => s | None => 1%R end))
                 None).

(** the [for r in results] loop, with its [seen_urls] and [out] *)
Fixpoint collect (results : list hit) (seen_urls : list pystr)
         (out : list evidence) : result (list evidence) :=
  match results with
  | [] => Ok out
  | r :: rest =>
      let url := h_url r in
      if negb (nonempty url) || existsb (PyStr.eqb url) seen_urls
      then collect rest seen_urls out
      else
        let seen_urls := url :: seen_urls in
        match scrape url with
        | Raise _ => collect rest seen_urls out
        | Ok pg =>
            item <- evidence_of_hit r url pg ;;
            collect rest seen_urls (out ++ [item])
        end
  end.

(** [run_task_search_and_scrape], on what [self.search.search] gave *)
Definition run_task_search_and_scrape (searched : result (list hit))
  : result (list evidence) :=
  results <- searched ;;
  collect results [] [].

End Collector.

(** ** The evidence normalizer *)

(** [e.get("url") or e.get("source_id") or _hash_text(e.get("snippet", ''))] *)
Definition identity_key (e : evidence) : pystr :=
  py_or (url e) (py_or (source_id e) (_hash_text (snippet e))).

(** one turn of the dedup loop *)
Definition dedup_step (dedup : Dict.dict evidence) (e : evidence)
  : Dict.dict evidence :=
  let key := identity_key e in
  match Dict.get key dedup with
  | None => Dict.set key e dedup
  | Some existing =>
      let dedup1 :=
        if List.length (text existing) <? List.length (text e)
        then Dict.set key e dedup else dedup in
      let kept := Dict.get_default key existing dedup1 in
      Dict.set key (set_score (Rmax (get_score 0 existing) (get_score 0 e)) kept)
               dedup1
  end.

Definition dedup_pass (evidence_list : list evidence) : Dict.dict evidence :=
  fold_left dedup_step evidence_list [].

Definition trusted_domains : list pystr :=
  [str "bbc."; str "reuters."; str "nytimes."; str "theguardian."; str "apnews"].

Definition dom_score (domain : pystr) : R :=
  if existsb (fun k => contains k domain) trusted_domains then 0.95 else 0.5.

(** [min(1.0, math.log1p(length)/math.log1p(4000))] with
    [length = max(1, len(text))] *)
Definition length_factor (text : pystr) : R :=
  let length := Nat.max 1 (List.length text) in
  Rmin 1 (log1p (INR length) / log1p 4000).

(** The length factor in the words of the specification:
    [min(1.0, log(1+len(text)) / log(1+4000))]. *)
Definition spec_length_factor (text : pystr) : R :=
  Rmin 1 (log1p (INR (List.length text)) / log1p 4000).

Definition relevance_of (item : evidence) : R :=
  py_round (dom_score (domain item) * get_score 1 item
            * (0.6 * length_factor (text item) + 0.4)) 3.

Definition score_item (item : evidence) : evidence :=
  set_relevance (relevance_of item) item.

(** [normalized.sort(key=..., reverse=True)]: a stable sort, larger keys
    first; [x] came before everything in [l] *)
Fixpoint insert_desc (x : evidence) (l : list evidence) : list evidence :=
  match l with
  | [] => [x]
  | y :: l' =>
      if Rlt_dec (get_relevance 0 x) (get_relevance 0 y)
      then y :: insert_desc x l'
      else x :: l
  end.

Fixpoint sort_desc (l : list evidence) : list evidence :=
  match l with
  | [] => []
  | x :: l' => insert_desc x (sort_desc l')
  end.

(** [normalize_and_score_evidence] *)
Definition normalize_and_score_evidence (evidence_list : list evidence)
  : list evidence :=
  let normalized := Dict.values (dedup_pass evidence_list) in
  sort_desc (map score_item normalized).

(** ** credibility.py *)

(** An article: [{"url", "title", "text"}]. *)
Record article : Type := mkArticle {
  a_url : pystr;
  a_title : pystr;
  a_text : pystr
}.

(** A stance: [{"support", "stance", "note"}]; [support = None] when the
    dict has no ["support"] entry. *)
Record stance : Type := mkStance {
  support : option R;
  stance_label : pystr;
  note : pystr
}.

(** A knowledge graph [{"nodes": [...], "links": [...]}]; node and link
    entries that are absent are [None]. *)
Record kg_node : Type := mkNode {
  n_id : option pystr;
  n_label : option pystr;
  n_text : option pystr
}.

Record kg_link : Type := mkLink {
  l_source : option pystr;
  l_target : option pystr
}.

Record kg : Type := mkKg {
  nodes : list kg_node;
  links : list kg_link
}.

(** [networkx.Graph] restricted to what the engine uses: nodes in insertion
    order, undirected edges without repetition *)
Module Nx.

Record Graph : Type := mkGraph {
  g_nodes : list pystr;
  g_edges : list (pystr * pystr)
}.

Definition empty : Graph := mkGraph [] [].

Definition has_node (n : pystr) (G : Graph) : bool :=
  existsb (PyStr.eqb n) (g_nodes G).

Definition add_node (n : pystr) (G : Graph) : Graph :=
  if has_node n G then G else mkGraph (g_nodes G ++ [n]) (g_edges G).

Definition same_edge (s t : pystr) (e : pystr * pystr) : bool :=
  (PyStr.eqb s (fst e) && PyStr.eqb t (snd e))
  || (PyStr.eqb s (snd e) && PyStr.eqb t (fst e)).

Definition add_edge (s t : pystr) (G : Graph) : Graph :=
  let G' := add_node t (add_node s G) in
  if existsb (same_edge s t) (g_edges G') then G'
  else mkGraph (g_nodes G') (g_edges G' ++ [(s, t)]).

Definition number_of_nodes (G : Graph) : nat := List.length (g_nodes G).

(** a self-loop counts twice *)
Definition degree (G : Graph) (n : pystr) : nat :=
  fold_right (fun e acc =>
      (if PyStr.eqb n (fst e) then 1 else 0)
      + (if PyStr.eqb n (snd e) then 1 else 0) + acc)%nat
    0%nat (g_edges G).

(** the values of [degree_centrality(G)], in node order *)
Definition degree_centrality (G : Graph) : list R :=
  if number_of_nodes G <=? 1 then map (fun _ => 1%R) (g_nodes G)
  else
    let s := (1 / (INR (number_of_nodes G) - 1))%R in
    map (fun n => (INR (degree G n) * s)%R) (g_nodes G).

End Nx.

Module CredibilityEngine.

#[local] Open Scope R_scope.

(** [a or b] where an entry may be absent *)
Definition opt_or (a b : option pystr) : option pystr :=
  match a with
  | Some (_ :: _) => a
  | _ => b
  end.

Definition trusted : list pystr :=
  [str "bbc."; str "reuters."; str "nytimes."; str "theguardian.";
   str "washingtonpost."; str "cnn."; str "aljazeera."; str "apnews."].

Definition academic : list pystr :=
  [str "ieee."; str "springer."; str "nature."; str "sciencedirect.";
   str "acm."; str "nih.gov"].

Definition local : list pystr :=
  [str "thehindu"; str "timesofindia"; str "indianexpress"; str "lallantop"].

Definition _domain_reliability_score (url : pystr) : R :=
  if negb (nonempty url) then 0.45
  else
    let u := lower url in
    if existsb (fun t => contains t u) trusted then 0.95
    else if existsb (fun a => contains a u) academic then 0.85
    else if existsb (fun l => contains l u) local then 0.7
    else 0.5.

Definition _content_score (text : pystr) : R :=
  if negb (nonempty text) then 0.2
  else
    let ln := Rmin 1 (log1p (INR (List.length text)) / log1p 5000) in
    let sents := (count "." text + count "!" text + count "?" text)%nat in
    let density := Rmin 1 (INR sents / Rmax 1 (INR (List.length text) / 200)) in
    py_round (0.5 * ln + 0.5 * density) 3.

(** [for n in kg_data.get("nodes", [])]: [G.add_node(None)] raises *)
Fixpoint add_nodes (ns : list kg_node) (G : Nx.Graph) : result Nx.Graph :=
  match ns with
  | [] => Ok G
  | n :: ns' =>
      match opt_or (n_id n) (opt_or (n_label n) (n_text n)) with
      | Some nid => add_nodes ns' (Nx.add_node nid G)
      | None => Raise ValueError
      end
  end.

(** [for e in kg_data.get("links", [])] *)
Fixpoint add_links (es : list kg_link) (G : Nx.Graph) : Nx.Graph :=
  match es with
  | [] => G
  | e :: es' =>
      match l_source e, l_target e with
      | Some s, Some t =>
          if nonempty s && nonempty t then add_links es' (Nx.add_edge s t G)
          else add_links es' G
      | _, _ => add_links es' G
      end
  end.

Definition sum (l : list R) : R := fold_right Rplus 0 l.

Section Engine.

(** whether [import networkx] succeeded *)
Variable _has_nx : bool.

(** the body of the [try] block of [_kg_centrality_score] *)
Definition centrality_of (g : kg) : result R :=
  G0 <- add_nodes (nodes g) Nx.empty ;;
  let G := add_links (links g) G0 in
  if Nx.number_of_nodes G <? 2 then Ok 0.45
  else
    let central := Nx.degree_centrality G in
    let avg := sum central / INR (List.length central) in
    Ok (py_round (Rmin 0.95 (avg * 1.5)) 3).

Definition _kg_centrality_score (kg_data : option kg) : R :=
  match kg_data with
  | None => 0.5
  | Some g =>
      if negb _has_nx then 0.5
      else
        match centrality_of g with
        | Ok r => r
        | Raise _ => 0.5   (* except Exception: return 0.5 *)
        end
  end.

Definition _bias_penalty (bias_note : pystr) : R :=
  if negb (nonempty bias_note) then 0
  else
    let low := lower bias_note in
    if contains (str "sensational") low || contains (str "opinionated") low
       || contains (str "highly biased") low
    then 0.18
    else if contains (str "slightly biased") low then 0.06
    else 0.

(** the weighted sum [raw] of [score] *)
Definition raw (article : article) (kg_data : option kg)
           (stance : option stance) : R :=
  let url := a_url article in
  let text := strip (a_text article) in
  let domain_score := _domain_reliability_score url in
  let content_score := _content_score text in
  let support_score :=
    match stance with
    | Some st => match support st with Some s => s | None => 0.5 end
    | None => 0.5
    end in
  let centrality_score :=
    match kg_data with
    | Some _ => _kg_centrality_score kg_data
    | None => 0.5
    end in
  0.30 * domain_score + 0.25 * content_score + 0.30 * support_score
  + 0.15 * centrality_score.

(** [raw - bias_penalty], the value that [score] clamps *)
Definition pre_clamp (article : article) (kg_data : option kg)
           (stance : option stance) (bias_note : pystr) : R :=
  raw article kg_data stance - _bias_penalty bias_note.

(** [CredibilityEngine.score]; [stance = None] when the argument is not a
    dict *)
Definition score (article : article) (kg_data : option kg)
           (stance : option stance) (bias_note : pystr) : R :=
  let score := Rmax 0 (Rmin 1 (pre_clamp article kg_data stance bias_note)) in
  py_round score 3.

End Engine.

End CredibilityEngine.

(** ** JSON values and [json.loads] *)

Module Json.

(** What [json.loads] builds: [None], [bool], [int], [float] (kept as the
    literal read), [str], [list], [dict]. *)
Inductive json : Type :=
| JNull
| JBool (b : bool)
| JInt (z : Z)
| JFloat (literal : pystr)
| JStr (s : pystr)
| JArr (items : list json)
| JObj (fields : Dict.dict json).

(** [bool(v)]; a float is false when its literal has no significant digit
    (a literal too small to be represented, which Python reads as [0.0],
    is not told apart) *)
Definition truthy (v : json) : bool :=
  match v with
  | JNull => false
  | JBool b => b
  | JInt z => negb (z =? 0)%Z
  | JFloat lit =>
      existsb (fun c => let n := nat_of_ascii c in (49 <=? n) && (n <=? 57)
                        || Ascii.eqb c "N" || Ascii.eqb c "I")
              (rsplit1_head "E" (rsplit1_head "e" lit))
  | JStr s => nonempty s
  | JArr l => match l with [] => false | _ :: _ => true end
  | JObj f => match f with [] => false | _ :: _ => true end
  end.

(** the double-quote character *)
Definition dquote : ascii := ascii_of_nat 34.

Definition is_ws (c : ascii) : bool :=
  Ascii.eqb c " " || (nat_of_ascii c =? 9) || (nat_of_ascii c =? 10)
  || (nat_of_ascii c =? 13).

Fixpoint skip_ws (s : pystr) : pystr :=
  match s with
  | c :: s' => if is_ws c then skip_ws s' else s
  | [] => []
  end.

Definition is_digit (c : ascii) : bool :=
  let n := nat_of_ascii c in (48 <=? n) && (n <=? 57).

Fixpoint span_digits (s : pystr) : pystr * pystr :=
  match s with
  | c :: s' =>
      if is_digit c then let '(d, r) := span_digits s' in (c :: d, r)
      else ([], s)
  | [] => ([], [])
  end.

Definition digits_value (d : pystr) : Z :=
  fold_left (fun acc c => (10 * acc + Z.of_nat (nat_of_ascii c - 48))%Z) d 0%Z.

Definition hex_value (c : ascii) : option nat :=
  let n := nat_of_ascii c in
  if (48 <=? n) && (n <=? 57) then Some (n - 48)
  else if (65 <=? n) && (n <=? 70) then Some (n - 55)
  else if (97 <=? n) && (n <=? 102) then Some (n - 87)
  else None.

(** the characters of a string literal, after its opening quote; a [\u]
    escape above 255 is outside the character model and is refused *)
Fixpoint string_body (s : pystr) (acc : pystr) : option (pystr * pystr) :=
  match s with
  | [] => None
  | c :: s' =>
      if Ascii.eqb c dquote then Some (rev acc, s')
      else if Ascii.eqb c "\" then
        match s' with
        | e :: s'' =>
            let simple (x : ascii) := string_body s'' (x :: acc) in
            if Ascii.eqb e dquote then simple dquote
            else if Ascii.eqb e "\" then simple "\"%char
            else if Ascii.eqb e "/" then simple "/"%char
            else if Ascii.eqb e "b" then simple (ascii_of_nat 8)
            else if Ascii.eqb e "f" then simple (ascii_of_nat 12)
            else if Ascii.eqb e "n" then simple (ascii_of_nat 10)
            else if Ascii.eqb e "r" then simple (ascii_of_nat 13)
            else if Ascii.eqb e "t" then simple (ascii_of_nat 9)
            else if Ascii.eqb e "u" then
              match s'' with
              | a :: b :: c' :: d :: s3 =>
                  match hex_value a, hex_value b, hex_value c', hex_value d with
                  | Some 0, Some 0, Some x, Some y =>
                      string_body s3 (ascii_of_nat (16 * x + y) :: acc)
                  | _, _, _, _ => None
                  end
              | _ => None
              end
            else None
        | [] => None
        end
      else if nat_of_ascii c <? 32 then None
      else string_body s' (c :: acc)
  end.

(** a number literal: an optional minus sign, an integer part without a
    leading zero (or a single zero), an optional fraction, an optional
    exponent *)
Definition number (s : pystr) : option (json * pystr) :=
  let '(sign, s1) :=
    match s with
    | c :: s' => if Ascii.eqb c "-" then ([c], s') else ([], s)
    | [] => ([], s)
    end in
  let '(int, s2) := span_digits s1 in
  let int_part :=
    match int with
    | [] => None
    | [_] => Some (int, s2)
    | c :: _ =>
        (* a leading zero ends the integer part *)
        if Ascii.eqb c "0" then Some ([c], tl int ++ s2) else Some (int, s2)
    end in
  match int_part with
  | None => None
  | Some (int, s2) =>
      let '(frac, s3) :=
        match s2 with
        | c :: s' =>
            if Ascii.eqb c "." then
              match span_digits s' with
              | ([], _) => ([], s2)
              | (d, r) => (c :: d, r)
              end
            else ([], s2)
        | [] => ([], s2)
        end in
      let '(exp, s4) :=
        match s3 with
        | c :: s' =>
            if Ascii.eqb c "e" || Ascii.eqb c "E" then
              let '(sg, s'') :=
                match s' with
                | x :: r => if Ascii.eqb x "+" || Ascii.eqb x "-"
                            then ([x], r) else ([], s')
                | [] => ([], s')
                end in
              match span_digits s'' with
              | ([], _) => ([], s3)
              | (d, r) => (c :: sg ++ d, r)
              end
            else ([], s3)
        | [] => ([], s3)
        end in
      match frac, exp with
      | [], [] =>
          let v := digits_value int in
          Some (JInt (match sign with [] => v | _ => (- v)%Z end), s4)
      | _, _ => Some (JFloat (sign ++ int ++ frac ++ exp), s4)
      end
  end.

Definition strip_prefix (p s : pystr) : option pystr :=
  if startswith p s then Some (skipn (List.length p) s) else None.

(** a JSON value at the head of [s] and what follows it; every call
    either consumes a character or is followed by one that does, so a fuel
    of twice the length of the text and two is never exhausted *)
Fixpoint value (fuel : nat) (s : pystr) : option (json * pystr) :=
  match fuel with
  | O => None
  | S fuel' =>
      match skip_ws s with
      | [] => None
      | c :: r =>
          if Ascii.eqb c "[" then
            match skip_ws r with
            | c' :: r' =>
                if Ascii.eqb c' "]" then Some (JArr [], r')
                else elements fuel' r []
            | [] => None
            end
          else if Ascii.eqb c "{" then
            match skip_ws r with
            | c' :: r' =>
                if Ascii.eqb c' "}" then Some (JObj [], r')
                else members fuel' r []
            | [] => None
            end
          else if Ascii.eqb c dquote then
            match string_body r [] with
            | Some (x, r') => Some (JStr x, r')
            | None => None
            end
          else
            let s0 := c :: r in
            match strip_prefix (str "true") s0, strip_prefix (str "false") s0,
                  strip_prefix (str "null") s0, strip_prefix (str "NaN") s0,
                  strip_prefix (str "Infinity") s0,
                  strip_prefix (str "-Infinity") s0 with
            | Some r', _, _, _, _, _ => Some (JBool true, r')
            | _, Some r', _, _, _, _ => Some (JBool false, r')
            | _, _, Some r', _, _, _ => Some (JNull, r')
            | _, _, _, Some r', _, _ => Some (JFloat (str "NaN"), r')
            | _, _, _, _, Some r', _ => Some (JFloat (str "Infinity"), r')
            | _, _, _, _, _, Some r' => Some (JFloat (str "-Infinity"), r')
            | _, _, _, _, _, _ => number s0
            end
      end
  end
with elements (fuel : nat) (s : pystr) (acc : list json)
  : option (json * pystr) :=
  match fuel with
  | O => None
  | S fuel' =>
      match value fuel' s with
      | None => None
      | Some (v, r) =>
          match skip_ws r with
          | c :: r' =>
              if Ascii.eqb c "," then elements fuel' r' (v :: acc)
              else if Ascii.eqb c "]" then Some (JArr (rev (v :: acc)), r')
              else None
          | [] => None
          end
      end
  end
with members (fuel : nat) (s : pystr) (acc : Dict.dict json)
  : option (json * pystr) :=
  match fuel with
  | O => None
  | S fuel' =>
      match skip_ws s with
      | q :: r0 =>
          if Ascii.eqb q dquote then
            match string_body r0 [] with
            | None => None
            | Some (k, r1) =>
                match skip_ws r1 with
                | c :: r2 =>
                    if Ascii.eqb c ":" then
                      match value fuel' r2 with
                      | None => None
                      | Some (v, r3) =>
                          let acc' := Dict.set k v acc in
                          match skip_ws r3 with
                          | c' :: r4 =>
                              if Ascii.eqb c' "," then members fuel' r4 acc'
                              else if Ascii.eqb c' "}" then Some (JObj acc', r4)
                              else None
                          | [] => None
                          end
                      end
                    else None
                | [] => None
                end
            end
          else None
      | [] => None
      end
  end.

(** [json.loads]: one value, then only white space; a failure is a
    [JSONDecodeError] *)
Definition loads (s : pystr) : result json :=
  match value (2 * List.length s + 2) s with
  | Some (v, r) =>
      match skip_ws r with
      | [] => Ok v
      | _ :: _ => Raise JSONDecodeError
      end
  | None => Raise JSONDecodeError
  end.

End Json.

Import Json.

(** ** Regular-expression searches of the planner *)

Fixpoint from_first (c : ascii) (s : pystr) : option pystr :=
  match s with
  | [] => None
  | x :: s' => if Ascii.eqb x c then Some s else from_first c s'
  end.

Fixpoint through_last (c : ascii) (s : pystr) : option pystr :=
  match s with
  | [] => None
  | x :: s' =>
      match through_last c s' with
      | Some r => Some (x :: r)
      | None => if Ascii.eqb x c then Some [x] else None
      end
  end.

(** [m = re.search(r"\[.*\]", raw, flags=re.S)] and [m.group(0)]: from the
    first opening bracket through the last closing bracket after it *)
Definition re_search_array (raw : pystr) : option pystr :=
  match from_first "[" raw with
  | Some (o :: rest) =>
      match through_last "]" rest with
      | Some r => Some (o :: r)
      | None => None
      end
  | _ => None
  end.

(** ** The language-model capability ([LLMAgent]) *)

(** [available] and [client] are the attributes the callers test;
    [summarize text max_tokens] and [analyze_claims claim snippets] are the
    two methods they call; [client], when present, is the chat-completion
    call of the bias probe, from the user message to the reply's content. *)
Record LLMAgent : Type := mkLLM {
  available : bool;
  client : option (pystr -> result pystr);
  summarize : pystr -> nat -> result pystr;
  analyze_claims : pystr -> list pystr -> result stance
}.

(** ** The task planner *)

Definition newline : ascii := ascii_of_nat 10.

(** a task [{"id", "role", "prompt", "requires_search"}] of the built-in plans *)
Definition task (id role prompt : pystr) (requires_search : bool) : json :=
  JObj [(str "id", JStr id); (str "role", JStr role);
        (str "prompt", JStr prompt);
        (str "requires_search", JBool requires_search)].

(** the plan returned when the language model is not available *)
Definition unavailable_plan (query : pystr) : list json :=
  [task (str "t1") (str "background")
        (str "Background: define and scope '" ++ query ++ str "'") true;
   task (str "t2") (str "evidence")
        (str "Evidence: find key studies or news pieces for '" ++ query ++ str "'")
        true;
   task (str "t3") (str "implications")
        (str "Implications & open questions for '" ++ query ++ str "'") false].

(** the plan returned when the model's answer cannot be used *)
Definition fallback_plan (query : pystr) : list json :=
  [task (str "t1") (str "background")
        (str "Background: define and scope '" ++ query ++ str "'") true;
   task (str "t2") (str "evidence")
        (str "Evidence: find key studies or news pieces for '" ++ query ++ str "'")
        true;
   task (str "t3") (str "implications")
        (str "Implications & recommendations for '" ++ query ++ str "'") false].

(** the four [t.setdefault] calls on the [i]-th element of the plan; an
    element that is not a dict has no [setdefault] *)
Definition backfill (query : pystr) (i : nat) (t : json) : result json :=
  match t with
  | JObj f =>
      let f := Dict.setdefault (str "id") (JStr (str "t" ++ of_nat (i + 1))) f in
      let f := Dict.setdefault (str "role") (JStr (str "evidence")) f in
      let f := Dict.setdefault (str "prompt")
                 (Dict.get_default (str "prompt")
                    (JStr (str "Investigate: " ++ query)) f) f in
      let f := Dict.setdefault (str "requires_search")
                 (JBool (truthy (Dict.get_default (str "requires_search")
                                   (JBool true) f))) f in
      Ok (JObj f)
  | _ => Raise AttributeError
  end.

(** [for i, t in enumerate(plan)] from index [i] on *)
Fixpoint backfill_all (query : pystr) (i : nat) (plan : list json)
  : result (list json) :=
  match plan with
  | [] => Ok []
  | t :: rest =>
      t' <- backfill query i t ;;
      rest' <- backfill_all query (S i) rest ;;
      Ok (t' :: rest')
  end.

(** the loop over whatever [json.loads] gave, and the [return plan] after
    it: a list has its elements completed in place; a dict is walked by its
    keys and a string by its characters, none of which is a dict; anything
    else cannot be iterated *)
Definition ensure_fields (query : pystr) (plan : json) : result json :=
  match plan with
  | JArr l => l' <- backfill_all query 0 l ;; Ok (JArr l')
  | JObj f => _ <- backfill_all query 0 (map (fun kv => JStr (fst kv)) f) ;; Ok plan
  | JStr s => _ <- backfill_all query 0 (map (fun c => JStr [c]) s) ;; Ok plan
  | _ => Raise TypeError
  end.

Definition planner_system : pystr :=
  str "You are a research planner. Given a one-line research query, return a JSON array of 3-6 task objects with keys: id, role (background,evidence,contradiction,implications), prompt, requires_search (true/false).".

(** the prompt sent to the model: [system + "\n\n" + user] *)
Definition planner_prompt (query : pystr) : pystr :=
  let user := str "Query: " ++ query ++ [newline; newline]
              ++ str "Return JSON only." in
  planner_system ++ [newline; newline] ++ user.

(** the [try] block of [plan_tasks]: [Some plan] when it reaches
    [return plan], [None] when it falls through *)
Definition planner_try (llm : LLMAgent) (query : pystr) : result (option json) :=
  raw <- summarize llm (planner_prompt query) 300 ;;
  match re_search_array raw with
  | Some m =>
      plan <- Json.loads m ;;
      plan <- ensure_fields query plan ;;
      Ok (Some plan)
  | None => Ok None
  end.

(** [AgenticResearchAgent.plan_tasks] *)
Definition plan_tasks (llm : LLMAgent) (query : pystr) : result json :=
  if negb (available llm) then Ok (JArr (unavailable_plan query))
  else
    returned <- try_except (planner_try llm query) (fun _ => Ok None) ;;
    match returned with
    | Some plan => Ok plan
    | None => Ok (JArr (fallback_plan query))
    end.

(** ** research_agent.py *)

(** The values [ResearchAgent.analyze] stores in the dict it returns. *)
Inductive pyval : Type :=
| VStr (s : pystr)
| VStrList (l : list pystr)
| VFloat (x : R)
| VGraph (g : kg)
| VStance (s : stance).

Module ResearchAgent.

#[local] Open Scope R_scope.

Definition is_end_punct (c : ascii) : bool :=
  Ascii.eqb c "." || Ascii.eqb c "!" || Ascii.eqb c "?".

(** [re.split(r'(?<=[.!?])\s+', t)]: [cur] is the piece being read, last
    character first; [prev_end] tells that the character just read ends a
    sentence; [skipping] that a separator is being consumed *)
Fixpoint sent_split_from (cur : pystr) (prev_end skipping : bool) (t : pystr)
  : list pystr :=
  match t with
  | [] => [rev cur]
  | c :: t' =>
      if isspace c then
        if skipping then sent_split_from cur false true t'
        else if prev_end then rev cur :: sent_split_from [] false true t'
        else sent_split_from (c :: cur) false false t'
      else sent_split_from (c :: cur) (is_end_punct c) false t'
  end.

Definition sent_split (t : pystr) : list pystr :=
  sent_split_from [] false false t.

Definition _make_evidence_snippets (text : pystr) (max_snips : nat)
  : list pystr :=
  if negb (nonempty text) then []
  else
    let sents := sent_split (strip text) in
    let snips :=
      firstn max_snips
             (filter (fun s => 30 <? List.length (strip s))%nat sents) in
    match snips with
    | [] => [firstn 300 (strip text)]
    | _ :: _ => snips
    end.

Definition trusted : list pystr :=
  [str "bbc."; str "reuters."; str "nytimes."; str "theguardian.";
   str "washingtonpost."; str "cnn."; str "aljazeera."].

Definition academic : list pystr :=
  [str "ieee."; str "springer."; str "nature."; str "sciencedirect.";
   str "acm."].

Definition _domain_reliability_score (url : pystr) : R :=
  if negb (nonempty url) then 0.5
  else
    let url := lower url in
    if existsb (fun t => contains t url) trusted then 0.9
    else if existsb (fun a => contains a url) academic then 0.6
    else 0.5.

Definition bias_prompt : pystr :=
  str "Return a one-sentence assessment of the article's overall tone and potential bias (e.g., neutral, slightly biased, opinionated, sensational). Keep response short.".

Definition excited : list pystr :=
  [str "shocking"; str "must read"; str "unbelievable"; str "you won't believe"].

(** the ["Snippet {i+1}: {s[:240]}"] entries, from index [i] on *)
Fixpoint snippet_lines (i : nat) (snips : list pystr) : list pystr :=
  match snips with
  | [] => []
  | s :: rest =>
      (str "Snippet " ++ of_nat (i + 1) ++ str ": " ++ firstn 240 s)
      :: snippet_lines (S i) rest
  end.

Section Analyze.

(** [self.llm] *)
Variable llm : LLMAgent.

(** [build_graph] *)
Variable build_graph : pystr -> result kg.

(** [ResearchAgent.analyze] *)
Definition analyze (article : article) : result (Dict.dict pyval) :=
  let text := strip (a_text article) in
  let title := a_title article in
  let evidence_snips := _make_evidence_snippets text 8 in
  summary <- (if nonempty text then summarize llm text 300
              else Ok (str "(no text to summarize)")) ;;
  let claim :=
    py_or title (if nonempty text then hd [] (split_on "." text) else []) in
  stance_result <-
    (if nonempty claim then analyze_claims llm claim evidence_snips
     else Ok (mkStance (Some 0.5) (str "mixed") (str "no claim"))) ;;
  let domain_score := _domain_reliability_score (a_url article) in
  let length_score :=
    if nonempty text then Rmin 0.95 (INR (List.length text) / 5000 + 0.1)
    else 0.3 in
  let bias_note :=
    match client llm with
    | Some create =>
        match create (bias_prompt ++ [newline; newline] ++ firstn 3000 text) with
        | Ok content => strip content
        | Raise _ => str "(bias detection unavailable)"
        end
    | None =>
        if existsb (fun ex => contains ex (lower text)) excited
        then str "sensational" else str "neutral"
    end in
  let support_score :=
    match support stance_result with Some s => s | None => 0.5 end in
  let combined :=
    0.5 * length_score + 0.3 * domain_score + 0.2 * support_score in
  let credibility_score := py_round (Rmax 0 (Rmin 1 combined)) 3 in
  kg <- build_graph text ;;
  let evidence :=
    [str "Article length: " ++ of_nat (List.length text);
     str "Title: " ++ title]
    ++ snippet_lines 0 (firstn 6 evidence_snips) in
  let contradictions :=
    if PyStr.eqb (stance_label stance_result) (str "contradicts")
    then [str "LLM found evidence that contradicts the main claim."]
    else [] in
  Ok [(str "summary", VStr summary);
      (str "evidence", VStrList evidence);
      (str "contradictions", VStrList contradictions);
      (str "credibility_score", VFloat (py_round (credibility_score * 1) 3));
      (str "knowledge_graph", VGraph kg);
      (str "stance", VStance stance_result);
      (str "bias_note", VStr bias_note)].

End Analyze.

End ResearchAgent.

(** ** The per-task step of [AgenticResearchAgent.run] *)

(** One entry of [task_results]: [{"task": task, "evidence": evidence_objs}]. *)
Record task_result : Type := mkTaskResult {
  tr_task : json;
  tr_evidence : list evidence
}.

(** [task.get(k)], [None] being [JNull]; only a dict has [get] *)
Definition task_get (k : pystr) (default : json) (task : json) : result json :=
  match task with
  | JObj f => Ok (Dict.get_default k default f)
  | _ => Raise AttributeError
  end.

(** [(v or '')] as the text [analyze] strips: a false value gives the empty string, a
    string itself, anything else has no [strip] *)
Definition text_of (v : json) : result pystr :=
  if negb (truthy v) then Ok []
  else
    match v with
    | JStr s => Ok s
    | _ => Raise AttributeError
    end.

(** a value stored in a string field of an evidence item *)
Definition field_of (v : json) : pystr :=
  match v with
  | JStr s => s
  | _ => []
  end.

(** [short.get("snippets", [])[:n]] as the sequence the loop walks: a list
    gives its items, a string its characters, nothing else can be sliced *)
Definition snippets_of (short : Dict.dict pyval) (n : nat) : result (list pystr) :=
  match Dict.get (str "snippets") short with
  | None => Ok []
  | Some (VStrList l) => Ok (firstn n l)
  | Some (VStr s) => Ok (map (fun c => [c]) (firstn n s))
  | Some _ => Raise TypeError
  end.

Section Run.

(** [self.llm] of the research agent, [build_graph], [self.search.search]
    (from the prompt and [n] to the hits), [self.scraper.scrape] *)
Variable llm : LLMAgent.
Variable build_graph : pystr -> result kg.
Variable search : json -> nat -> result (list hit).
Variable scrape : pystr -> result page.

(** how an f-string prints a value, for [f"internal-{task.get('id')}-{i}"] *)
Variable format : json -> pystr.

(** the evidence objects built from the snippets, from index [i] on *)
Fixpoint internal_evidence (task_id prompt : json) (i : nat)
         (snippets : list pystr) : list evidence :=
  match snippets with
  | [] => []
  | sn :: rest =>
      mkEvidence (str "internal-" ++ format task_id ++ str "-" ++ of_nat i)
                 [] (field_of prompt) (_norm_text sn 400) sn (str "internal")
                 (Some 0.8%R) None
      :: internal_evidence task_id prompt (S i) rest
  end.

(** the body of [for task in plan] up to [task_results.append] *)
Definition run_task (query : pystr) (max_task_results search_per_task : nat)
           (task : json) : result task_result :=
  requires_search <- task_get (str "requires_search") (JBool true) task ;;
  if truthy requires_search then
    prompt <- task_get (str "prompt") JNull task ;;
    raw_hits <- run_task_search_and_scrape scrape (search prompt search_per_task) ;;
    Ok (mkTaskResult task (normalize_and_score_evidence raw_hits))
  else
    prompt <- task_get (str "prompt") (JStr []) task ;;
    text <- text_of prompt ;;
    short <- ResearchAgent.analyze llm build_graph (mkArticle [] query text) ;;
    snippets <- snippets_of short max_task_results ;;
    task_id <- task_get (str "id") JNull task ;;
    title <- task_get (str "prompt") JNull task ;;
    Ok (mkTaskResult task (internal_evidence task_id title 0 snippets)).

End Run.

(** ** routers/detect.py: [POST /agentic_detect] *)

(** [AgenticRequest]: both fields default to [None]. *)
Record AgenticRequest : Type := mkRequest {
  req_query : option pystr;
  req_url : option pystr
}.

(** [bool(x)] for an optional string *)
Definition given (x : option pystr) : bool :=
  match x with
  | Some s => nonempty s
  | None => false
  end.

Section Router.

(** What [AgenticResearchAgent.run] returns, and [run] itself: the router
    only copies entries of its result into the response. *)
Variable run_output : Type.
Variable run : pystr -> result run_output.

(** [Scraper.scrape], the language model of [ResearchAgent()],
    [build_graph], and whether networkx could be imported. *)
Variable scrape : pystr -> result page.
Variable llm : LLMAgent.
Variable build_graph : pystr -> result kg.
Variable _has_nx : bool.

(** [str(e)] *)
Variable exn_text : exn -> pystr.

(** The body of a successful response. *)
Inductive response : Type :=
| UrlArticleAnalysis (url title : pystr)
    (summary evidence stance bias_note : option pyval)
    (knowledge_graph : kg) (credibility_score : R)
| DeepResearch (query : pystr) (result : run_output).

(** the [try] block of [agentic_detect] *)
Definition agentic_detect_try (req : AgenticRequest) : result response :=
  if given (req_url req) then
    let url := match req_url req with Some u => u | None => [] end in
    scraped <- scrape url ;;
    let article := mkArticle url (p_title scraped) (p_text scraped) in
    research <- ResearchAgent.analyze llm build_graph article ;;
    (* [research.get("knowledge_graph") or build_graph(...)]: the graph that
       [analyze] stored is a non-empty dict *)
    kg <- match Dict.get (str "knowledge_graph") research with
          | Some (VGraph g) => Ok g
          | _ => build_graph (a_text article)
          end ;;
    let stance :=
      match Dict.get (str "stance") research with
      | Some (VStance s) => s
      | _ => mkStance None [] []
      end in
    let bias_note :=
      match Dict.get (str "bias_note") research with
      | Some (VStr s) => s
      | _ => []
      end in
    let score :=
      CredibilityEngine.score _has_nx article (Some kg) (Some stance) bias_note in
    Ok (UrlArticleAnalysis url (a_title article)
          (Dict.get (str "summary") research)
          (Dict.get (str "evidence") research)
          (Dict.get (str "stance") research)
          (Dict.get (str "bias_note") research)
          kg score)
  else if given (req_query req) then
    let query := match req_query req with Some q => q | None => [] end in
    result <- run query ;;
    Ok (DeepResearch query result)
  else
    Raise (HTTPException 400 (str "Provide either 'url' or 'query'.")).

(** [agentic_detect]: the [try] block under its [except Exception as e] *)
Definition agentic_detect (req : AgenticRequest) : result response :=
  try_except (agentic_detect_try req)
    (fun e => Raise (HTTPException 500
                       (str "Agentic detect failed: " ++ exn_text e))).

(** the status of the HTTP response the framework sends: 200 for a returned
    body, the exception's own status for an [HTTPException], 500 for any
    other exception *)
Definition http_status (r : result response) : nat :=
  match r with
  | Ok _ => 200
  | Raise (HTTPException status_code _) => status_code
  | Raise _ => 500
  end.

End Router.

(** ** Predicates used by the properties *)

Section Predicates.

#[local] Open Scope R_scope.

(** A word of [t.split()]: non-empty and free of white space. *)
Definition word (w : pystr) : Prop :=
  w <> [] /\ forallb (fun c => negb (isspace c)) w = true.

(** The text a snippet is cut from, once its white space is collapsed. *)
Definition collapsed (t : pystr) : pystr := join (str " ") (split_ws t).

(** The snippet of [e] is what [_norm_text] makes of the text [t] with a
    budget of 400 characters. *)
Definition snippet_from (t : pystr) (e : evidence) : Prop :=
  Forall word (split_ws t)
  /\ ((List.length (collapsed t) <= 400)%nat -> snippet e = collapsed t)
  /\ ((400 < List.length (collapsed t))%nat ->
      snippet e = rsplit1_head " " (firstn 400 (collapsed t)) ++ str "...")
  /\ (List.length (snippet e) <= 403)%nat.

(** What the dedup loop stores under the key of [e], given what was there. *)
Definition merged (before : option evidence) (e : evidence) : evidence :=
  match before with
  | None => e
  | Some existing =>
      set_score (Rmax (get_score 0 existing) (get_score 0 e))
                (if (List.length (text existing) <? List.length (text e))%nat
                 then e else existing)
  end.

(** [v] is [x], but for its score. *)
Definition same_but_score (v x : evidence) : Prop :=
  v = x \/ exists s : R, v = set_score s x.

(** What the loop has stored under key [k] after reading [seen]. *)
Definition group_facts (seen : list evidence) (k : pystr) (v : evidence) : Prop :=
  identity_key v = k
  /\ (exists x, In x seen /\ identity_key x = k /\ same_but_score v x)
  /\ (exists y, In y seen /\ identity_key y = k
                /\ get_score 0 v = get_score 0 y)
  /\ (forall x, In x seen -> identity_key x = k ->
                (List.length (text x) <= List.length (text v))%nat
                /\ get_score 0 x <= get_score 0 v).

Definition dedup_inv (seen : list evidence) (d : Dict.dict evidence) : Prop :=
  NoDup (map fst d)
  /\ (forall k v, Dict.get k d = Some v -> group_facts seen k v)
  /\ (forall x, In x seen -> Dict.get (identity_key x) d <> None).

(** No item is followed by one of larger relevance. *)
Definition descending : list evidence -> Prop :=
  Sorted (fun a b => get_relevance 0 b <= get_relevance 0 a).

(** A task that has the four fields of a task. *)
Definition complete_task (t : json) : Prop :=
  exists f : Dict.dict json,
    t = JObj f
    /\ Dict.get (str "id") f <> None
    /\ Dict.get (str "role") f <> None
    /\ Dict.get (str "prompt") f <> None
    /\ Dict.get (str "requires_search") f <> None.

(** [tasks] is the array the language model gave for [query], each element
    completed by [backfill]. *)
Definition llm_plan (llm : LLMAgent) (query : pystr) (tasks : list json) : Prop :=
  exists (raw m : pystr) (parsed : list json),
    summarize llm (planner_prompt query) 300 = Ok raw
    /\ re_search_array raw = Some m
    /\ Json.loads m = Ok (JArr parsed)
    /\ backfill_all query 0 parsed = Ok tasks
    /\ List.length tasks = List.length parsed.

(** ** Sample inputs *)

(** A scraper that finds an empty page everywhere. *)
Definition blank_scraper (u : pystr) : result page := Ok (mkPage [] []).

(** A hit whose snippet is one word of 401 letters, and the item collected
    for it. *)
Definition long_word_hit : hit :=
  mkHit (str "h1") (str "T") (str "https://example.org/a") (repeat "a"%char 401)
        (str "example.org") None.

Definition long_word_item : evidence :=
  mkEvidence (str "h1") (str "https://example.org/a") (str "T")
             (repeat "a"%char 400 ++ str "...") [] (str "example.org")
             (Some 1) None.

(** Two raw items for one page: a short and a long rendering. *)
Definition short_item : evidence :=
  mkEvidence (str "s1") (str "https://example.org/a") (str "A") (str "short")
             (repeat "x"%char 50) (str "example.org") (Some 0.4) None.

Definition long_item : evidence :=
  mkEvidence (str "s2") (str "https://example.org/a") (str "B") (str "long")
             (repeat "y"%char 500) (str "example.org") (Some 0.9) None.

(** An item as a search tool may score it: 10 on its own scale. *)
Definition overscored_item : evidence :=
  mkEvidence (str "s1") (str "https://example.org/a") (str "A") (str "short")
             [] (str "example.org") (Some 10) None.

(** An article of a trusted outlet with a short text, and a neutral stance. *)
Definition sample_article : article :=
  mkArticle (str "https://www.bbc.com/news/x") (str "Title")
            (str "One sentence. Another sentence.").

Definition sample_stance : stance := mkStance (Some 0.5) (str "mixed") [].

(** A language model that is not configured: [summarize] and
    [analyze_claims] answer with their mock values. *)
Definition offline_llm : LLMAgent :=
  mkLLM false None
        (fun text _ => Ok (str "(mock) " ++ text))
        (fun _ _ => Ok (mkStance (Some 0.5) (str "mixed") (str "(heuristic fallback)"))).

(** A language model that answers every prompt with [raw]. *)
Definition llm_answering (raw : pystr) : LLMAgent :=
  mkLLM true None (fun _ _ => Ok raw) (fun _ _ => Raise (RuntimeError [])).

(** A graph builder that finds no entity. *)
Definition empty_graph (t : pystr) : result kg := Ok (mkKg [] []).

(** A search tool that finds nothing. *)
Definition no_hits (prompt : json) (n : nat) : result (list hit) := Ok [].

End Predicates.

(** * Further parts of the repository

    The wrapper logic of [backend/app/services/llm_agent.py], the scraper
    ([scraper.py]), the [/detect] endpoint, the entity extraction and the
    graph builder ([knowledge_graph.py]), the brief and the [run] method
    of the controller, and the contradiction detector
    ([contradiction_detector.py]), with the same conventions. *)

From Stdlib Require DecimalNat.

(** ** llm_agent.py: the wrapper's own logic *)

Module LLM.

#[local] Open Scope R_scope.

(** [_safe_truncate] *)
Definition _safe_truncate (text : pystr) (max_chars : nat) : pystr :=
  if negb (nonempty text) then []
  else if (List.length text <=? max_chars)%nat then text
  else rsplit1_head " " (firstn max_chars text) ++ str "...".

Definition summarize_system : pystr :=
  str "You are a concise multilingual summarization assistant. Produce a 2-4 sentence factual summary in the same language unless target language is explicitly requested. Keep output factual and avoid adding novel claims.".

Definition supporting_words : list pystr :=
  [str "study"; str "evidence"; str "found"; str "shows"; str "reported"].

Definition contradicting_words : list pystr :=
  [str "no evidence"; str "not"; str "contradict"; str "refute"; str "denies"].

(** the [if not self.available] branch of [analyze_claims]: the heuristic
    on the snippets (the claim is stripped and then not used) *)
Definition analyze_claims_heuristic (claim : pystr) (snippets : list pystr)
  : stance :=
  let lc := lower (join (str " ") snippets) in
  let score := 0.5 in
  let score :=
    if existsb (fun w => contains w lc) supporting_words
    then score + 0.2 else score in
  let score :=
    if existsb (fun w => contains w lc) contradicting_words
    then score - 0.2 else score in
  let stance :=
    if Rle_dec 0.55 score then str "supports"
    else if Rle_dec score 0.45 then str "contradicts"
    else str "mixed" in
  mkStance (Some (py_round (Rmax 0 (Rmin 1 score)) 2)) stance
           (str "(heuristic fallback)").

Section Wrapper.

(** [self.available] *)
Variable available : bool.

(** [self._call_model], from the system message, the user message and
    [max_tokens] to the reply *)
Variable _call_model : pystr -> pystr -> nat -> result pystr.

(** [LLMAgent.summarize] *)
Definition summarize (text : pystr) (max_tokens : nat)
           (target_language : option pystr) : result pystr :=
  let text := strip text in
  if negb (nonempty text) then Ok (str "(mock) No content to summarize.")
  else if negb available
  then Ok (str "(mock) " ++ _safe_truncate text max_tokens)
  else
    let user_prompt :=
      match target_language with
      | Some (c :: l) =>
          str "Summarize the following text concisely (2-4 sentences) in "
          ++ (c :: l) ++ str ":" ++ [newline; newline]
          ++ _safe_truncate text (120 * 100)
      | _ =>
          str "Summarize the following text concisely (2-4 sentences). Keep the original language:"
          ++ [newline; newline] ++ _safe_truncate text (120 * 100)
      end in
    try_except
      (_call_model summarize_system user_prompt max_tokens)
      (fun _ => Ok (str "(mock fallback due to LLM error) "
                    ++ _safe_truncate text max_tokens)).

End Wrapper.

(** An [LLMAgent] made of [summarize] above, for a given [available],
    [client] and [_call_model]; [claims] stands for its [analyze_claims]. *)
Definition agent (available : bool) (client : option (pystr -> result pystr))
           (_call_model : pystr -> pystr -> nat -> result pystr)
           (claims : pystr -> list pystr -> result stance) : LLMAgent :=
  mkLLM available client
        (fun text max_tokens => summarize available _call_model text max_tokens None)
        claims.

(** [LLMAgent()] when no client could be set up: [available] is false,
    [client] is [None], [_call_model] raises *)
Definition unavailable_agent : LLMAgent :=
  agent false None
        (fun _ _ _ => Raise (RuntimeError (str "LLM client not available")))
        (fun claim snippets => Ok (analyze_claims_heuristic claim snippets)).

End LLM.

(** ** scraper.py *)

(** What the scraper reads off a fetched page: the string of its title
    element when it has one ([None] when the page has no title element; an
    element without a string is read as the empty string), the texts of its
    paragraphs, and the text of the whole document. *)
Record soup : Type := mkSoup {
  soup_title : option pystr;
  soup_paragraphs : list pystr;
  soup_text : pystr
}.

Section Scraper.

(** [requests.get] followed by [BeautifulSoup]; either may raise *)
Variable fetch : pystr -> result soup.

(** [Scraper.scrape] *)
Definition scrape_page (url : pystr) : result page :=
  try_except
    (s <- fetch url ;;
     let title := match soup_title s with Some t => t | None => url end in
     let text := py_or (join (str " ") (soup_paragraphs s)) (soup_text s) in
     Ok (mkPage title text))
    (fun _ => Ok (mkPage url [])).

End Scraper.

(** ** routers/detect.py: [POST /detect] *)

Section Detect.

Variable scrape : pystr -> result page.
Variable llm : LLMAgent.
Variable build_graph : pystr -> result kg.
Variable _has_nx : bool.
Variable exn_text : exn -> pystr.

(** The body of a successful response of [/detect]. *)
Record detection : Type := mkDetection {
  d_url : pystr;
  d_title : pystr;
  d_text : pystr;
  d_summary : option pyval;
  d_evidence : pyval;
  d_contradictions : pyval;
  d_credibility_score : R;
  d_knowledge_graph : kg;
  d_stance : pyval;
  d_bias_note : pyval
}.

(** the [try] block of [detect] *)
Definition detect_try (url : pystr) : result detection :=
  scraped <- scrape url ;;
  let article := mkArticle url (p_title scraped) (p_text scraped) in
  analysis <- ResearchAgent.analyze llm build_graph article ;;
  kg <- match Dict.get (str "knowledge_graph") analysis with
        | Some (VGraph g) => Ok g
        | _ => build_graph (a_text article)
        end ;;
  let stance :=
    match Dict.get (str "stance") analysis with
    | Some (VStance s) => s
    | _ => mkStance None [] []
    end in
  let bias_note :=
    match Dict.get (str "bias_note") analysis with
    | Some (VStr s) => s
    | _ => []
    end in
  let score :=
    CredibilityEngine.score _has_nx article (Some kg) (Some stance) bias_note in
  Ok (mkDetection url (a_title article) (a_text article)
        (Dict.get (str "summary") analysis)
        (Dict.get_default (str "evidence") (VStrList []) analysis)
        (Dict.get_default (str "contradictions") (VStrList []) analysis)
        score kg
        (Dict.get_default (str "stance") (VStance (mkStance None [] []))
                          analysis)
        (Dict.get_default (str "bias_note") (VStr []) analysis)).

(** [detect] *)
Definition detect (url : pystr) : result detection :=
  try_except (detect_try url)
    (fun e => Raise (HTTPException 500
                       (str "Classic detect failed: " ++ exn_text e))).

End Detect.

(** ** knowledge_graph.py *)

Module KnowledgeGraph.

#[local] Open Scope R_scope.

(** An entity [{"text", "label"}]. *)
Record entity : Type := mkEntity {
  e_text : pystr;
  e_label : pystr
}.

(** A node [{"id", "label", "group"}], with ["score"] once it is attached,
    and a link [{"source", "target", "weight"}]. *)
Record node : Type := mkGraphNode {
  node_id : pystr;
  node_label : pystr;
  node_group : pystr;
  node_score : option R
}.

Record link : Type := mkGraphLink {
  link_source : pystr;
  link_target : pystr;
  link_weight : nat
}.

(** What [build_graph] returns: [{"nodes": nodes, "links": links}]. *)
Record graph : Type := mkBuilt {
  graph_nodes : list node;
  graph_links : list link
}.

(** [c.isupper()] and [c.islower()] for a code point below 256 *)
Definition isupper_char (c : ascii) : bool :=
  let n := nat_of_ascii c in
  ((65 <=? n) && (n <=? 90))%nat
  || ((192 <=? n) && (n <=? 222) && negb (n =? 215))%nat.

Definition islower_char (c : ascii) : bool :=
  let n := nat_of_ascii c in
  ((97 <=? n) && (n <=? 122))%nat
  || (n =? 170)%nat || (n =? 181)%nat || (n =? 186)%nat
  || ((223 <=? n) && (n <=? 255) && negb (n =? 247))%nat.

(** [s.istitle()]: an uppercase character only after an uncased one, a
    lowercase character only after a cased one, and a cased character
    somewhere *)
Fixpoint istitle_from (previous_is_cased cased : bool) (s : pystr) : bool :=
  match s with
  | [] => cased
  | c :: s' =>
      if isupper_char c then
        if previous_is_cased then false else istitle_from true true s'
      else if islower_char c then
        if previous_is_cased then istitle_from true true s' else false
      else istitle_from false cased s'
  end.

Definition istitle (s : pystr) : bool := istitle_from false false s.

(** [a < b] on strings *)
Fixpoint str_lt (a b : pystr) : bool :=
  match a, b with
  | _, [] => false
  | [], _ :: _ => true
  | x :: a', y :: b' =>
      (nat_of_ascii x <? nat_of_ascii y)%nat
      || ((nat_of_ascii x =? nat_of_ascii y)%nat && str_lt a' b')
  end.

(** the loop over [doc.ents], entity texts and labels as spaCy gives them,
    with its [ents] and [seen_texts] *)
Fixpoint spacy_loop (max_entities : nat) (doc_ents : list (pystr * pystr))
         (ents : list entity) (seen_texts : list pystr) : list entity :=
  match doc_ents with
  | [] => ents
  | (t, label_) :: rest =>
      let txt := strip t in
      let fresh := nonempty txt && negb (existsb (PyStr.eqb txt) seen_texts) in
      let ents := if fresh then ents ++ [mkEntity txt label_] else ents in
      let seen_texts := if fresh then txt :: seen_texts else seen_texts in
      if (max_entities <=? List.length ents)%nat then ents
      else spacy_loop max_entities rest ents seen_texts
  end.

(** the loop [for i in range(len(tokens) - 1)] of the fallback, on the
    tokens from index [i] on *)
Fixpoint heuristic_loop (max_entities : nat) (tokens : list pystr)
         (ents : list entity) : list entity :=
  match tokens with
  | [] => ents
  | t :: rest =>
      match rest with
      | [] => ents
      | t' :: _ =>
          let ents :=
            if istitle t then
              let cand := if istitle t' then t ++ str " " ++ t' else t in
              if existsb (PyStr.eqb cand) (map e_text ents) then ents
              else ents ++ [mkEntity cand (str "PROB")]
            else ents in
          if (max_entities <=? List.length ents)%nat then ents
          else heuristic_loop max_entities rest ents
      end
  end.

(** a key that a dict does not have *)
Definition KeyError : exn := RuntimeError (str "KeyError").

(** [id_for[k]] *)
Definition item (k : pystr) (id_for : Dict.dict pystr) : result pystr :=
  match Dict.get k id_for with
  | Some v => Ok v
  | None => Raise KeyError
  end.

(** the [for i, e in enumerate(ents)] loop from index [i] on, with its
    [id_for] and [nodes] *)
Fixpoint number_nodes (i : nat) (ents : list entity)
         (id_for : Dict.dict pystr) (nodes : list node)
  : Dict.dict pystr * list node :=
  match ents with
  | [] => (id_for, nodes)
  | e :: rest =>
      let nid := str "n" ++ of_nat i in
      number_nodes (S i) rest
                   (Dict.set (e_text e) nid id_for)
                   (nodes ++ [mkGraphNode nid (e_text e) (e_label e) None])
  end.

(** the dict [co], keyed by pairs of ids *)
Definition counts : Type := list ((pystr * pystr) * nat).

Definition key_eqb (p q : pystr * pystr) : bool :=
  PyStr.eqb (fst p) (fst q) && PyStr.eqb (snd p) (snd q).

Fixpoint co_get (k : pystr * pystr) (co : counts) : option nat :=
  match co with
  | [] => None
  | (k', w) :: co' => if key_eqb k k' then Some w else co_get k co'
  end.

Fixpoint co_set (k : pystr * pystr) (w : nat) (co : counts) : counts :=
  match co with
  | [] => [(k, w)]
  | (k', w') :: co' =>
      if key_eqb k k' then (k', w) :: co' else (k', w') :: co_set k w co'
  end.

Section Pairs.

Variable id_for : Dict.dict pystr.

(** [for j in range(i+1, len(found))], [x] being [found[i]] *)
Fixpoint pair_row (x : pystr) (later : list pystr) (co : counts)
  : result counts :=
  match later with
  | [] => Ok co
  | y :: rest =>
      a <- item x id_for ;;
      b <- item y id_for ;;
      let key := if str_lt b a then (b, a) else (a, b) in
      let w := match co_get key co with Some w => w | None => 0%nat end in
      pair_row x rest (co_set key (w + 1)%nat co)
  end.

(** [for i in range(len(found))] *)
Fixpoint pair_rows (found : list pystr) (co : counts) : result counts :=
  match found with
  | [] => Ok co
  | x :: rest =>
      co <- pair_row x rest co ;;
      pair_rows rest co
  end.

(** [for s in sent_sep] *)
Fixpoint sentences (texts : list pystr) (sent_sep : list pystr) (co : counts)
  : result counts :=
  match sent_sep with
  | [] => Ok co
  | s :: rest =>
      let found := filter (fun t => contains t s) texts in
      co <- pair_rows found co ;;
      sentences texts rest co
  end.

End Pairs.

Section Builder.

(** [nlp]: the spaCy pipeline when one could be loaded, from a text to the
    texts and labels of [doc.ents]; [nx]: whether networkx was imported *)
Variable nlp : option (pystr -> result (list (pystr * pystr))).
Variable nx : bool.

(** [extract_entities] *)
Definition extract_entities (text : pystr) (max_entities : nat)
  : list entity :=
  if negb (nonempty text) then []
  else
    let fallback := heuristic_loop max_entities (split_ws text) [] in
    match nlp with
    | Some pipeline =>
        match pipeline (firstn (200 * 100) text) with
        | Ok doc_ents => spacy_loop max_entities doc_ents [] []
        | Raise _ => fallback
        end
    | None => fallback
    end.

(** the graph [G] that [build_graph] gives to networkx *)
Definition nx_graph (nodes : list node) (links : list link) : Nx.Graph :=
  fold_left (fun G l => Nx.add_edge (link_source l) (link_target l) G) links
            (fold_left (fun G n => Nx.add_node (node_id n) G) nodes Nx.empty).

(** [central.get(nid, 0)] *)
Definition central_get (G : Nx.Graph) (nid : pystr) : R :=
  match Dict.get nid (combine (Nx.g_nodes G) (Nx.degree_centrality G)) with
  | Some c => c
  | None => 0
  end.

(** [build_graph] *)
Definition build_graph (text : pystr) : result graph :=
  let ents := extract_entities text 60 in
  match ents with
  | [] => Ok (mkBuilt [] [])
  | _ :: _ =>
      let '(id_for, nodes) := number_nodes 0 ents [] [] in
      let sent_sep :=
        filter nonempty (map strip (split_on "." text)) in
      co <- sentences id_for (map e_text ents) sent_sep [] ;;
      let links :=
        map (fun kw => mkGraphLink (fst (fst kw)) (snd (fst kw)) (snd kw)) co in
      let nodes :=
        if nx && match nodes with [] => false | _ :: _ => true end then
          let G := nx_graph nodes links in
          map (fun n => mkGraphNode (node_id n) (node_label n) (node_group n)
                          (Some (py_round (central_get G (node_id n)) 3)))
              nodes
        else nodes in
      Ok (mkBuilt nodes links)
  end.

End Builder.

(** The graph as its readers take it: the credibility engine looks at the
    id, label and text of a node and at the source and target of a link. *)
Definition as_kg (g : graph) : kg :=
  mkKg (map (fun n => mkNode (Some (node_id n)) (Some (node_label n)) None)
            (graph_nodes g))
       (map (fun l => mkLink (Some (link_source l)) (Some (link_target l)))
            (graph_links g)).

End KnowledgeGraph.

(** ** agentic_controller.py: the brief and [run] *)

(** [m = re.search(r"\{.*\}", raw, flags=re.S)] and [m.group(0)]: from the
    first opening brace through the last closing brace after it *)
Definition re_search_object (raw : pystr) : option pystr :=
  match from_first "{" raw with
  | Some (o :: rest) =>
      match through_last "}" rest with
      | Some r => Some (o :: r)
      | None => None
      end
  | _ => None
  end.

(** A citation [{"id", "url", "title", "score"}] and a section
    [{"order", "content"}] of a brief. *)
Record citation : Type := mkCitation {
  c_id : pystr;
  c_url : pystr;
  c_title : pystr;
  c_score : R
}.

Record brief_section : Type := mkSection {
  order : nat;
  content : pystr
}.

(** What [synthesize_brief] returns: the object the model wrote, with the
    citations and the graph that [setdefault] added where the object had
    no such entry; or the brief made without the model. *)
Inductive brief : Type :=
| ModelBrief (out : Dict.dict json)
             (citations : option (list citation))
             (knowledge_graph : option kg)
| FallbackBrief (sections : list brief_section)
                (conclusion : pystr)
                (contradictions_and_uncertainities : list pystr)
                (citations : list citation)
                (knowledge_graph : kg).

(** An evidence item with its ["credibility"] entry, [None] when the item
    has none, and a task result whose items carry it. *)
Record rated : Type := mkRated {
  rated_item : evidence;
  credibility : option R
}.

Record rated_result : Type := mkRatedResult {
  rr_task : json;
  rr_evidence : list rated
}.

(** What [run] returns. *)
Record run_result : Type := mkRun {
  run_query : pystr;
  run_plan : json;
  run_task_results : list rated_result;
  run_brief : brief;
  top_level_credibility : R;
  timestamp : R
}.

Definition synthesis_system : pystr :=
  str "You are an expert research synthesizer. Given a research query, evidence citations (with source tags) and short notes, produce a JSON object with keys: sections (array of {order:int, content:str}), conclusion:str, contradictions_and_uncertainities:[...], citations:[{id,url,title,score}].".

Definition citation_of (s : evidence) : citation :=
  mkCitation (source_id s) (url s) (title s) (get_relevance 0 s).

(** [f"[{s.get('source_id')}] {s.get('snippet')}"] *)
Definition evidence_text (s : evidence) : pystr :=
  str "[" ++ source_id s ++ str "] " ++ snippet s.

(** the sequence [for task in plan] walks *)
Definition iter_plan (plan : json) : result (list json) :=
  match plan with
  | JArr l => Ok l
  | JObj f => Ok (map (fun kv => JStr (fst kv)) f)
  | JStr s => Ok (map (fun c => JStr [c]) s)
  | _ => Raise TypeError
  end.

Section Controller.

#[local] Open Scope R_scope.

(** [self.llm], the language model of [self.research_agent],
    [build_graph], [self.search.search], [self.scraper.scrape], how an
    f-string prints a value, whether networkx could be imported,
    [self.max_search_results] and [time.time()] *)
Variable llm : LLMAgent.
Variable research_llm : LLMAgent.
Variable build_graph : pystr -> result kg.
Variable search : json -> nat -> result (list hit).
Variable scrape : pystr -> result page.
Variable format : json -> pystr.
Variable _has_nx : bool.
Variable max_search_results : nat.
Variable now : R.

(** [self.cred_engine.score] of the pseudo-article for a brief in which
    the model wrote a graph or a stance of its own: these are JSON values
    of any shape, which the engine reads field by field *)
Variable model_brief_credibility : Dict.dict json -> article -> result R.

(** the fallback sections, [order] being the number of the next one *)
Fixpoint sections_from (order : nat) (task_results : list task_result)
  : result (list brief_section) :=
  match task_results with
  | [] => Ok []
  | tr :: rest =>
      role <- task_get (str "role") (JStr (str "task")) (tr_task tr) ;;
      prompt <- task_get (str "prompt") JNull (tr_task tr) ;;
      let content :=
        str "Task: " ++ format role ++ str " - " ++ format prompt
        ++ [newline] ++ str "Findings:" ++ [newline] in
      let content :=
        fold_left
          (fun content s =>
             content ++ str "- " ++ firstn 240 (snippet s) ++ str " (source: "
             ++ domain s ++ str ")" ++ [newline])
          (firstn 3 (tr_evidence tr)) content in
      rest' <- sections_from (S order) rest ;;
      Ok (mkSection order content :: rest')
  end.

(** the [try] block of [synthesize_brief]: [Some out] when it reaches
    [return out], [None] when it falls through *)
Definition synthesis_try (query combined_text : pystr)
           (citations : list citation) (kg : kg) : result (option brief) :=
  let user := str "Query: " ++ query ++ [newline; newline]
              ++ str "Evidence excerpts:" ++ [newline] ++ combined_text
              ++ [newline; newline] ++ str "Return JSON only." in
  raw <- summarize llm (synthesis_system ++ [newline; newline] ++ user) 700 ;;
  match re_search_object raw with
  | Some m =>
      out <- Json.loads m ;;
      match out with
      | JObj f =>
          Ok (Some (ModelBrief f
                      (match Dict.get (str "citations") f with
                       | Some _ => None
                       | None => Some citations
                       end)
                      (match Dict.get (str "knowledge_graph") f with
                       | Some _ => None
                       | None => Some kg
                       end)))
      | _ => Raise AttributeError
      end
  | None => Ok None
  end.

(** [synthesize_brief] *)
Definition synthesize_brief (query : pystr) (task_results : list task_result)
  : result brief :=
  let all := flat_map tr_evidence task_results in
  let citations := map citation_of all in
  let evidence_texts := map evidence_text all in
  let combined_text := join [newline; newline] (firstn 12 evidence_texts) in
  kg <- build_graph
          (join [newline; newline]
                (flat_map (fun tr => map text (firstn 3 (tr_evidence tr)))
                          task_results)) ;;
  written <-
    (if available llm then
       try_except (synthesis_try query combined_text citations kg)
                  (fun _ => Ok None)
     else Ok None) ;;
  match written with
  | Some out => Ok out
  | None =>
      sections <- sections_from 1 task_results ;;
      Ok (FallbackBrief sections
                        (str "(auto) Brief conclusion for: " ++ query)
                        [] citations kg)
  end.

(** the [for task in plan] loop *)
Fixpoint run_tasks (query : pystr) (max_task_results search_per_task : nat)
         (plan : list json) : result (list task_result) :=
  match plan with
  | [] => Ok []
  | task :: rest =>
      tr <- run_task research_llm build_graph search scrape format query
                     max_task_results search_per_task task ;;
      rest' <- run_tasks query max_task_results search_per_task rest ;;
      Ok (tr :: rest')
  end.

(** [s["credibility"]] for an item among the first twelve *)
Definition credibility_of (s : evidence) : R :=
  CredibilityEngine.score _has_nx (mkArticle (url s) (title s) (text s)) None
                          (Some (mkStance (Some 0.5) [] [])) [].

(** the loop over [flattened[:12]], seen from the task results whose items
    it updates; [budget] is the number of items still to be rated *)
Fixpoint rate_items (budget : nat) (items : list evidence)
  : list rated * nat :=
  match items with
  | [] => ([], budget)
  | s :: rest =>
      match budget with
      | O =>
          let '(rest', b) := rate_items O rest in
          (mkRated s None :: rest', b)
      | S budget' =>
          let '(rest', b) := rate_items budget' rest in
          (mkRated s (Some (credibility_of s)) :: rest', b)
      end
  end.

Fixpoint rate_results (budget : nat) (task_results : list task_result)
  : list rated_result :=
  match task_results with
  | [] => []
  | tr :: rest =>
      let '(items, budget') := rate_items budget (tr_evidence tr) in
      mkRatedResult (tr_task tr) items :: rate_results budget' rest
  end.

(** [top_cred]: the graph is [final.get("knowledge_graph")] and the stance
    [final.get("stance")] when that is true, [{"support": 0.5}] otherwise *)
Definition top_credibility (final : brief) (pseudo_article : article)
  : result R :=
  let default := Some (mkStance (Some 0.5) [] []) in
  match final with
  | FallbackBrief _ _ _ _ kg =>
      Ok (CredibilityEngine.score _has_nx pseudo_article (Some kg) default [])
  | ModelBrief out _ (Some kg) =>
      if truthy (Dict.get_default (str "stance") JNull out)
      then model_brief_credibility out pseudo_article
      else Ok (CredibilityEngine.score _has_nx pseudo_article (Some kg)
                                       default [])
  | ModelBrief out _ None => model_brief_credibility out pseudo_article
  end.

(** [AgenticResearchAgent.run] *)
Definition run (query : pystr) (max_task_results : nat)
           (search_per_task : option nat) : result run_result :=
  let search_per_task :=
    match search_per_task with
    | Some (S n) => S n
    | _ => max_search_results
    end in
  plan <- plan_tasks llm query ;;
  tasks <- iter_plan plan ;;
  task_results <- run_tasks query max_task_results search_per_task tasks ;;
  let flattened := flat_map tr_evidence task_results in
  final <- synthesize_brief query task_results ;;
  let pseudo_article :=
    mkArticle [] query
              (join [newline; newline] (map text (firstn 8 flattened))) in
  top_cred <- top_credibility final pseudo_article ;;
  Ok (mkRun query plan (rate_results 12 task_results) final top_cred now).

End Controller.

(** [SearchToolInterface.search]: the search tool an agent has when none
    is given to it *)
Definition default_search (query : json) (n : nat) : result (list hit) := Ok [].

(** ** contradiction_detector.py *)

Module ContradictionDetector.

Section Detector.

#[local] Open Scope R_scope.

(** the vectors, and [cosine_similarity([a], [b])[0][0]] *)
Variable vector : Type.
Variable cosine_similarity : vector -> vector -> R.

(** the loop of [detect], from index [idx] on *)
Fixpoint detect_from (idx : nat) (main_text_vec : vector)
         (evidence_vecs : list vector) (threshold : R) : list (nat * R) :=
  match evidence_vecs with
  | [] => []
  | ev :: rest =>
      let sim := cosine_similarity main_text_vec ev in
      if Rlt_dec sim threshold
      then (idx, sim) :: detect_from (S idx) main_text_vec rest threshold
      else detect_from (S idx) main_text_vec rest threshold
  end.

(** [ContradictionDetector.detect] *)
Definition detect (main_text_vec : vector) (evidence_vecs : list vector)
           (threshold : R) : list (nat * R) :=
  detect_from 0 main_text_vec evidence_vecs threshold.

End Detector.

End ContradictionDetector.

(** ** Predicates used by the further properties *)

Section MorePredicates.

#[local] Open Scope R_scope.

(** The hits the collector tries to scrape: those whose url is not empty
    and was not met before, [seen] holding the urls already met. *)
Fixpoint first_occurrences (results : list hit) (seen : list pystr) : list hit :=
  match results with
  | [] => []
  | r :: rest =>
      if negb (nonempty (h_url r)) || existsb (PyStr.eqb (h_url r)) seen
      then first_occurrences rest seen
      else r :: first_occurrences rest (h_url r :: seen)
  end.

(** Whether the scraper returns for the url of a hit. *)
Definition scraped (scrape : pystr -> result page) (r : hit) : bool :=
  match scrape (h_url r) with
  | Ok _ => true
  | Raise _ => false
  end.

(** Whether the domain of a hit can be told: it has one, or its url has a
    third component between slashes. *)
Definition has_domain (r : hit) : Prop :=
  nonempty (h_domain r) = true \/ (2 <= count "/" (h_url r))%nat.

(** The items of [l] whose relevance is [x], in the order of [l]. *)
Definition with_relevance (x : R) (l : list evidence) : list evidence :=
  filter (fun e => if Req_dec_T (get_relevance 0 e) x then true else false) l.

End MorePredicates.

(** The name under which the centrality score adds a node to the graph:
    its id, else its label, else its text. *)
Definition node_name (n : kg_node) : option pystr :=
  CredibilityEngine.opt_or (n_id n)
    (CredibilityEngine.opt_or (n_label n) (n_text n)).

(** A stance with the given support. *)
Definition stance_with (s : R) : stance := mkStance (Some s) [] [].

(** A model call that always fails. *)
Definition failing_model (e : exn) (system user : pystr) (max_tokens : nat)
  : result pystr := Raise e.

(** What the two endpoints say of an article: url, title, summary,
    evidence, stance, bias note, graph and credibility score. *)
Definition article_view : Type :=
  (pystr * pystr * option pyval * option pyval * option pyval * option pyval
   * kg * R)%type.

Definition view_of_detection (d : detection) : article_view :=
  (d_url d, d_title d, d_summary d, Some (d_evidence d), Some (d_stance d),
   Some (d_bias_note d), d_knowledge_graph d, d_credibility_score d).

Definition view_of_response {run_output : Type} (r : response run_output)
  : option article_view :=
  match r with
  | UrlArticleAnalysis _ url title summary evidence stance bias_note kg score =>
      Some (url, title, summary, evidence, stance, bias_note, kg, score)
  | DeepResearch _ _ => None
  end.

(** [f] applied to what [r] returns. *)
Definition result_map {A B : Type} (f : A -> B) (r : result A) : result B :=
  match r with
  | Ok a => Ok (f a)
  | Raise e => Raise e
  end.

(** Whether a computation raised. *)
Definition raised {A : Type} (r : result A) : bool :=
  match r with
  | Ok _ => false
  | Raise _ => true
  end.

(** The status of the HTTP response for what an endpoint did: 200 for a
    returned body, the status of an [HTTPException], 500 for any other
    exception. *)
Definition status_of {A : Type} (r : result A) : nat :=
  match r with
  | Ok _ => 200
  | Raise (HTTPException status_code _) => status_code
  | Raise _ => 500
  end.

(** A page fetch that always fails. *)
Definition unreachable (e : exn) (url : pystr) : result soup := Raise e.

(** The graph builder seen as a total function. *)
Definition graph_of (g : pystr -> kg) (t : pystr) : result kg := Ok (g t).

(** The value [plan_tasks] gives to a field that a planned task lacks,
    for the task at index [i] of the plan. *)
Definition task_default (query : pystr) (i : nat) (k : pystr) : option json :=
  if PyStr.eqb k (str "id") then Some (JStr (str "t" ++ of_nat (i + 1)))
  else if PyStr.eqb k (str "role") then Some (JStr (str "evidence"))
  else if PyStr.eqb k (str "prompt")
       then Some (JStr (str "Investigate: " ++ query))
  else if PyStr.eqb k (str "requires_search") then Some (JBool true)
  else None.

(** Whether a JSON value is an object. *)
Definition is_object (t : json) : bool :=
  match t with
  | JObj _ => true
  | _ => false
  end.

(** The fields of a JSON object, none for another value. *)
Definition fields_of (t : json) : Dict.dict json :=
  match t with
  | JObj f => f
  | _ => []
  end.

(** [tasks] is [plan] with the missing fields of each task filled in,
    the first task being at index [i]. *)
Fixpoint filled (query : pystr) (i : nat) (plan tasks : list json) : Prop :=
  match plan, tasks with
  | [], [] => True
  | t :: plan', t' :: tasks' =>
      is_object t' = true
      /\ (forall k, Dict.get k (fields_of t')
                    = match Dict.get k (fields_of t) with
                      | Some v => Some v
                      | None => task_default query i k
                      end)
      /\ filled query (S i) plan' tasks'
  | _, _ => False
  end.

Import KnowledgeGraph.

(** What the two loops of [extract_entities] keep true of [ents]. *)
Definition entities_ok (max_entities : nat) (ents : list entity) : Prop :=
  NoDup (map e_text ents)
  /\ Forall (fun e => e_text e <> []) ents
  /\ List.length ents <= Nat.max 1 max_entities.

(** The id [build_graph] gives to the entity at index [i]. *)
Definition id_of_index (i : nat) : pystr := str "n" ++ of_nat i.

(** The two ends of a link. *)
Definition ends (l : link) : pystr * pystr := (link_source l, link_target l).

(** A key of the co-occurrence counts, or a link, between two different
    ids of [ids], the smaller first. *)
Definition ordered_pair (ids : list pystr) (k : pystr * pystr) : Prop :=
  In (fst k) ids /\ In (snd k) ids /\ fst k <> snd k
  /\ str_lt (snd k) (fst k) = false.

(** What the loops of [build_graph] keep true of [co]. *)
Definition co_ok (ids : list pystr) (co : counts) : Prop :=
  NoDup (map fst co)
  /\ Forall (fun kw => ordered_pair ids (fst kw) /\ 1 <= snd kw) co.

(** Links that make a simple undirected graph on [ids]: no two links
    with the same ends, each link between two different ids of [ids], the
    smaller first, with a weight of at least one. *)
Definition simple_links (ids : list pystr) (links : list link) : Prop :=
  NoDup (map ends links)
  /\ Forall (fun l => ordered_pair ids (ends l) /\ 1 <= link_weight l) links.

(** The density of a simple undirected graph with [n] nodes and [m]
    links: the share of the pairs of nodes that are linked. *)
Definition density (n m : nat) : R :=
  (2 * INR m / (INR n * (INR n - 1)))%R.

(** [build_graph] as [ResearchAgent.analyze] and [synthesize_brief] call
    it, the graph read as the credibility engine reads it. *)
Definition graph_builder
           (nlp : option (pystr -> result (list (pystr * pystr)))) (nx : bool)
           (text : pystr) : result kg :=
  result_map as_kg (build_graph nlp nx text).

(** A section of the brief for a task without findings. *)
Definition plain_section (order : nat) (role prompt : pystr) : brief_section :=
  mkSection order
            (str "Task: " ++ role ++ str " - " ++ prompt ++ [newline]
             ++ str "Findings:" ++ [newline]).

(** The brief made without a model when no task found evidence. *)
Definition empty_brief (query : pystr) : brief :=
  FallbackBrief
    [plain_section 1 (str "background")
       (str "Background: define and scope '" ++ query ++ str "'");
     plain_section 2 (str "evidence")
       (str "Evidence: find key studies or news pieces for '" ++ query
        ++ str "'");
     plain_section 3 (str "implications")
       (str "Implications & open questions for '" ++ query ++ str "'")]
    (str "(auto) Brief conclusion for: " ++ query) [] [] (mkKg [] []).

(** The credibility entries of the items of rated task results, in order,
    and the items themselves. *)
Definition ratings (l : list rated_result) : list (option R) :=
  map credibility (flat_map rr_evidence l).

Definition rated_items (l : list rated_result) : list evidence :=
  map rated_item (flat_map rr_evidence l).

(** * Properties *)

(** ** The embedded functions on small inputs *)

Example sha1_of_empty :
  _hash_text [] = str "da39a3ee5e6b4b0d3255bfef95601890afd80709".
Proof. vm_compute. reflexivity. Qed.

Example sha1_of_abc :
  _hash_text (str "abc") = str "a9993e364706816aba3e25717850c26c9cd0d89d".
Proof. vm_compute. reflexivity. Qed.

Example sha1_of_two_blocks :
  _hash_text (str "abcdbcdecdefdefgefghfghighijhijkijkljklmklmnlmnomnopnopq")
  = str "84983e441c3bd26ebaae4aa1f95129e5e54670f1".
Proof. vm_compute. reflexivity. Qed.

Example split_ws_example :
  split_ws (str "  the quick   brown fox ")
  = [str "the"; str "quick"; str "brown"; str "fox"].
Proof. reflexivity. Qed.

Example _norm_text_collapses :
  _norm_text (str "  the quick   brown fox ") 400 = str "the quick brown fox".
Proof. reflexivity. Qed.

Example _norm_text_cuts_at_space :
  _norm_text (str "the quick brown fox") 12 = str "the quick...".
Proof. reflexivity. Qed.

Example _norm_text_cuts_a_word :
  _norm_text (str "abcdefghij") 4 = str "abcd...".
Proof. reflexivity. Qed.

Example split_on_slash :
  nth_error (split_on "/" (str "https://www.bbc.com/news/x")) 2
  = Some (str "www.bbc.com").
Proof. reflexivity. Qed.

Example loads_empty_array : Json.loads (str "[]") = Ok (JArr []).
Proof. reflexivity. Qed.

Example loads_values :
  Json.loads (str " [1, -20, 3.5e2, true, null, {}, [0]] ")
  = Ok (JArr [JInt 1; JInt (-20); JFloat (str "3.5e2"); JBool true; JNull;
              JObj []; JArr [JInt 0]]).
Proof. vm_compute. reflexivity. Qed.

Example loads_trailing_comma : Json.loads (str "[1,]") = Raise JSONDecodeError.
Proof. vm_compute. reflexivity. Qed.

Example loads_extra_data : Json.loads (str "[0] and more") = Raise JSONDecodeError.
Proof. vm_compute. reflexivity. Qed.

Example re_search_array_greedy :
  re_search_array (str "Plan: [1, [2]] or ] so") = Some (str "[1, [2]] or ]").
Proof. reflexivity. Qed.

Example re_search_array_none : re_search_array (str "no ] here [ x") = None.
Proof. reflexivity. Qed.

Example sent_split_example :
  ResearchAgent.sent_split (str "One here.  Two there? Three!Four. five  six")
  = [str "One here."; str "Two there?"; str "Three!Four."; str "five  six"].
Proof. reflexivity. Qed.

Example domain_tier_trusted :
  CredibilityEngine._domain_reliability_score (str "https://www.bbc.com/news/x")
  = 0.95%R.
Proof. reflexivity. Qed.

Example domain_tier_unknown :
  CredibilityEngine._domain_reliability_score (str "https://randomblog.example")
  = 0.5%R.
Proof. reflexivity. Qed.

Example domain_tier_empty :
  CredibilityEngine._domain_reliability_score [] = 0.45%R.
Proof. reflexivity. Qed.

Example bias_penalty_slight :
  CredibilityEngine._bias_penalty (str "Slightly biased, mostly factual.")
  = 0.06%R.
Proof. reflexivity. Qed.

Example triangle_centrality :
  CredibilityEngine.centrality_of
    (mkKg [mkNode (Some (str "n0")) None None;
           mkNode (Some (str "n1")) None None;
           mkNode None (Some (str "n2")) None]
          [mkLink (Some (str "n0")) (Some (str "n1"));
           mkLink (Some (str "n1")) (Some (str "n0"));
           mkLink (Some (str "n1")) (Some (str "n2"))])
  = Ok (py_round (Rmin 0.95
          ((1 * (1 / (3 - 1)) + (2 * (1 / (3 - 1)) + (1 * (1 / (3 - 1)) + 0)))
           / 3 * 1.5)) 3)%R.
Proof.
  unfold CredibilityEngine.centrality_of. cbn -[py_round Rmin Rmult Rdiv Rplus Rminus INR].
  repeat f_equal; simpl; lra.
Qed.

Example unnamed_node_raises :
  CredibilityEngine._kg_centrality_score true
    (Some (mkKg [mkNode (Some []) None None] [])) = 0.5%R.
Proof. reflexivity. Qed.



(** ** Strings *)

Lemma eqb_eq (a b : pystr) : PyStr.eqb a b = true <-> a = b.
Proof.
  revert b; induction a as [|x a IH]; intros [|y b]; simpl; split;
    try discriminate; try reflexivity.
  - intros H. apply andb_prop in H as [Hx Hab].
    apply Ascii.eqb_eq in Hx. apply IH in Hab. congruence.
  - intros H. injection H as -> ->.
    rewrite Ascii.eqb_refl. simpl. apply IH. reflexivity.
Qed.

Lemma eqb_refl (a : pystr) : PyStr.eqb a a = true.
Proof. apply eqb_eq. reflexivity. Qed.

Lemma eqb_neq (a b : pystr) : PyStr.eqb a b = false <-> a <> b.
Proof.
  split.
  - intros H E. apply eqb_eq in E. congruence.
  - intros H. destruct (PyStr.eqb a b) eqn:E; [|reflexivity].
    apply eqb_eq in E. contradiction.
Qed.

Lemma rsplit1_head_length (sep : ascii) (s : pystr) :
  List.length (rsplit1_head sep s) <= List.length s.
Proof.
  induction s as [|c s IH]; simpl; [lia|].
  destruct (existsb (is_char sep) s); simpl; [lia|].
  destruct (is_char sep c); simpl; lia.
Qed.

Lemma rsplit1_head_prefix (sep : ascii) (s : pystr) :
  exists rest, s = rsplit1_head sep s ++ rest.
Proof.
  induction s as [|c s [rest IH]]; simpl.
  - exists []. reflexivity.
  - destruct (existsb (is_char sep) s).
    + exists rest. simpl. congruence.
    + destruct (is_char sep c).
      * exists (c :: s). reflexivity.
      * exists []. rewrite app_nil_r. reflexivity.
Qed.

(** Without a separator in [s], [rsplit] leaves [s] whole. *)
Lemma rsplit1_head_none (sep : ascii) (s : pystr) :
  existsb (is_char sep) s = false -> rsplit1_head sep s = s.
Proof.
  destruct s as [|c s]; simpl; [reflexivity|].
  intros H. apply orb_false_elim in H as [Hc Hs].
  rewrite Hs, Hc. reflexivity.
Qed.

(** With a separator in [s], the head ends just before the last one. *)
Lemma rsplit1_head_some (sep : ascii) (s : pystr) :
  existsb (is_char sep) s = true ->
  exists tail, s = rsplit1_head sep s ++ sep :: tail
               /\ existsb (is_char sep) tail = false.
Proof.
  induction s as [|c s IH]; simpl; [discriminate|].
  destruct (existsb (is_char sep) s) eqn:Hs.
  - intros _. destruct (IH eq_refl) as [tail [E Ht]].
    exists tail. split; [simpl; congruence | exact Ht].
  - rewrite orb_false_r. intros Hc. rewrite Hc.
    exists s. split; [|exact Hs].
    unfold is_char in Hc. apply Ascii.eqb_eq in Hc. subst. reflexivity.
Qed.

Lemma forallb_rev {A : Type} (f : A -> bool) (l : list A) :
  forallb f (rev l) = forallb f l.
Proof.
  induction l as [|x l IH]; simpl; [reflexivity|].
  rewrite forallb_app, IH. simpl. rewrite andb_true_r. apply andb_comm.
Qed.

Lemma flush_words (cur : pystr) :
  forallb (fun c => negb (isspace c)) cur = true -> Forall word (flush cur).
Proof.
  destruct cur as [|c cur]; simpl; intros H; constructor; [|constructor].
  split.
  - intros E. apply (f_equal (@List.length ascii)) in E.
    rewrite length_app in E. simpl in E. lia.
  - rewrite forallb_app, forallb_rev. simpl.
    apply andb_prop in H as [Hc Hcur]. rewrite Hc, Hcur. reflexivity.
Qed.

Lemma split_ws_from_words (t cur : pystr) :
  forallb (fun c => negb (isspace c)) cur = true ->
  Forall word (split_ws_from cur t).
Proof.
  revert cur; induction t as [|c t IH]; intros cur H; simpl.
  - apply flush_words. exact H.
  - destruct (isspace c) eqn:Hc.
    + apply Forall_app. split; [apply flush_words; exact H|].
      apply IH. reflexivity.
    + apply IH. simpl. rewrite Hc. exact H.
Qed.

(** [t.split()] yields non-empty words free of white space. *)
Lemma split_ws_words (t : pystr) : Forall word (split_ws t).
Proof. apply split_ws_from_words. reflexivity. Qed.

(** ** The snippet of a collected hit *)

Lemma _norm_text_unfold (t : pystr) (n : nat) :
  let s := join (str " ") (split_ws t) in
  _norm_text t n =
  if List.length s <=? n then s
  else rsplit1_head " " (firstn n s) ++ str "...".
Proof.
  unfold _norm_text. destruct t as [|c t]; simpl; reflexivity.
Qed.

Lemma _norm_text_length (t : pystr) (n : nat) :
  List.length (_norm_text t n) <= n + 3.
Proof.
  rewrite _norm_text_unfold. cbv zeta.
  destruct (List.length (join (str " ") (split_ws t)) <=? n) eqn:E.
  - apply Nat.leb_le in E. lia.
  - rewrite length_app.
    pose proof (rsplit1_head_length " " (firstn n (join (str " ") (split_ws t)))) as H.
    rewrite length_firstn in H.
    change (List.length (str "...")) with 3. lia.
Qed.

Lemma evidence_of_hit_snippet (r : hit) (u : pystr) (pg : page) (item : evidence) :
  evidence_of_hit r u pg = Ok item ->
  snippet item = _norm_text (py_or (h_snippet r) (firstn 400 (p_text pg))) 400.
Proof.
  unfold evidence_of_hit. destruct (hit_domain r u); simpl; [|discriminate].
  intros H. injection H as <-. reflexivity.
Qed.

Section CollectorFacts.

Variable scrape : pystr -> result page.
Variable P : evidence -> Prop.

Lemma collect_Forall (results : list hit) :
  (forall r pg item,
     In r results -> scrape (h_url r) = Ok pg ->
     evidence_of_hit r (h_url r) pg = Ok item -> P item) ->
  forall seen out res,
    Forall P out -> collect scrape results seen out = Ok res -> Forall P res.
Proof.
  induction results as [|r rest IH]; intros Hitem seen out res Hout; simpl.
  - intros H. injection H as <-. exact Hout.
  - assert (Hrest : forall r' pg item,
              In r' rest -> scrape (h_url r') = Ok pg ->
              evidence_of_hit r' (h_url r') pg = Ok item -> P item).
    { intros r' pg item Hin. apply Hitem. right. exact Hin. }
    destruct (negb (nonempty (h_url r)) || existsb (PyStr.eqb (h_url r)) seen).
    + apply IH; assumption.
    + destruct (scrape (h_url r)) as [pg|e] eqn:Es; [|apply IH; assumption].
      destruct (evidence_of_hit r (h_url r) pg) as [item|e] eqn:E; simpl;
        [|discriminate].
      apply IH; [exact Hrest|]. apply Forall_app. split; [exact Hout|].
      constructor; [|constructor].
      apply (Hitem r pg item); [left; reflexivity | exact Es | exact E].
Qed.

End CollectorFacts.

(** C8 (as amended): every evidence item the collector produces carries a
    snippet of at most 403 characters.  The snippet is cut from the hit's
    own snippet, or else from the first 400 characters of the scraped
    page: it is that text with each run of white space collapsed to one
    space; when the collapsed text is longer than 400 characters the
    snippet is its first 400 characters, cut before the last space among
    them when there is one, followed by the three-character ellipsis. *)
Theorem collected_snippet_bound :
  forall (scrape : pystr -> result page) (results : list hit)
         (out : list evidence) (e : evidence),
    run_task_search_and_scrape scrape (Ok results) = Ok out ->
    In e out ->
    exists (r : hit) (pg : page),
      In r results /\ scrape (h_url r) = Ok pg
      /\ snippet_from (py_or (h_snippet r) (firstn 400 (p_text pg))) e.
Proof.
  intros scrape results out e Hrun Hin.
  unfold run_task_search_and_scrape in Hrun. simpl in Hrun.
  set (P := fun e : evidence =>
              exists (r : hit) (pg : page),
                In r results /\ scrape (h_url r) = Ok pg
                /\ snippet_from (py_or (h_snippet r) (firstn 400 (p_text pg))) e).
  assert (Hall : Forall P out).
  { apply (@collect_Forall scrape P results) with (seen := []) (out := []);
      [|constructor|exact Hrun].
    intros r pg item Hr Hs Hitem. apply evidence_of_hit_snippet in Hitem.
    exists r, pg. split; [exact Hr|]. split; [exact Hs|].
    unfold snippet_from, collapsed. rewrite Hitem.
    split; [apply split_ws_words|].
    rewrite _norm_text_unfold. cbv zeta.
    repeat split.
    - intros H. apply Nat.leb_le in H. rewrite H. reflexivity.
    - intros H. apply Nat.leb_gt in H. rewrite H. reflexivity.
    - rewrite <- _norm_text_unfold. apply (_norm_text_length _ 400). }
  rewrite Forall_forall in Hall. apply Hall. exact Hin.
Qed.

Lemma long_word_collected :
  run_task_search_and_scrape blank_scraper (Ok [long_word_hit])
  = Ok [long_word_item].
Proof. vm_compute. reflexivity. Qed.

Lemma collected_snippet_bound_witness :
  exists (r : hit) (pg : page),
    In r [long_word_hit] /\ blank_scraper (h_url r) = Ok pg
    /\ snippet_from (py_or (h_snippet r) (firstn 400 (p_text pg)))
                    long_word_item.
Proof.
  apply (@collected_snippet_bound blank_scraper [long_word_hit]
           [long_word_item] long_word_item).
  - vm_compute. reflexivity.
  - simpl. left. reflexivity.
Defined.

(** C8 (as stated) fails: a hit whose snippet is a single word of 401
    letters is collected with a snippet of 403 characters. *)
Lemma snippet_exceeds_400 :
  exists e : evidence,
    run_task_search_and_scrape blank_scraper (Ok [long_word_hit]) = Ok [e]
    /\ List.length (snippet e) = 403.
Proof.
  exists long_word_item. split.
  - vm_compute. reflexivity.
  - vm_compute. reflexivity.
Qed.

(** ** Rounding *)

Section Rounding.

#[local] Open Scope R_scope.

Lemma round_half_even_cases (x : R) :
  round_half_even x = Zfloor x \/ round_half_even x = (Zfloor x + 1)%Z.
Proof.
  unfold round_half_even.
  destruct (Rlt_dec _ _); [left; reflexivity|].
  destruct (Rlt_dec _ _); [right; reflexivity|].
  destruct (Z.even _); [left|right]; reflexivity.
Qed.

(** The rounded value is within one half of the argument. *)
Lemma round_half_even_near (x : R) :
  x - 1 / 2 <= IZR (round_half_even x) <= x + 1 / 2.
Proof.
  pose proof (Zfloor_bound x) as [Hlo Hhi].
  unfold round_half_even.
  destruct (Rlt_dec _ _) as [H1|H1]; [lra|].
  destruct (Rlt_dec _ _) as [H2|H2]; [rewrite plus_IZR; lra|].
  destruct (Z.even _); [lra | rewrite plus_IZR; lra].
Qed.

Lemma round_half_even_IZR (z : Z) : round_half_even (IZR z) = z.
Proof.
  unfold round_half_even. rewrite ZfloorZ.
  destruct (Rlt_dec _ _) as [H|H]; [reflexivity | lra].
Qed.

Lemma round_half_even_mono (x y : R) :
  x <= y -> (round_half_even x <= round_half_even y)%Z.
Proof.
  intros Hxy.
  pose proof (Zfloor_le x y Hxy) as Hf.
  pose proof (Zfloor_bound x) as [Hxl Hxh].
  pose proof (Zfloor_bound y) as [Hyl Hyh].
  destruct (Z.eq_dec (Zfloor x) (Zfloor y)) as [E|E].
  - unfold round_half_even. rewrite E in *.
    destruct (Rlt_dec (x - _) _); destruct (Rlt_dec (y - _) _);
      try destruct (Rlt_dec (1 / 2) (x - _));
      try destruct (Rlt_dec (1 / 2) (y - _));
      try destruct (Z.even (Zfloor y)); try lia; exfalso; lra.
  - destruct (round_half_even_cases x) as [-> | ->];
      destruct (round_half_even_cases y) as [-> | ->]; lia.
Qed.

Lemma pow10_pos (n : nat) : 0 < 10 ^ n.
Proof. apply pow_lt. lra. Qed.

Lemma py_round_mono (x y : R) (n : nat) :
  x <= y -> py_round x n <= py_round y n.
Proof.
  intros H. unfold py_round. pose proof (pow10_pos n) as Hp.
  apply Rmult_le_compat_r; [left; apply Rinv_0_lt_compat; exact Hp|].
  apply IZR_le, round_half_even_mono.
  apply Rmult_le_compat_r; [lra | exact H].
Qed.

(** A multiple of [10^-n] is left as it is. *)
Lemma py_round_exact (z : Z) (n : nat) :
  py_round (IZR z / 10 ^ n) n = IZR z / 10 ^ n.
Proof.
  unfold py_round. pose proof (pow10_pos n) as Hp.
  replace (IZR z / 10 ^ n * 10 ^ n) with (IZR z) by (field; lra).
  rewrite round_half_even_IZR. reflexivity.
Qed.

Lemma py_round_near (x : R) (n : nat) :
  x - / (2 * 10 ^ n) <= py_round x n <= x + / (2 * 10 ^ n).
Proof.
  unfold py_round. pose proof (pow10_pos n) as Hp.
  pose proof (round_half_even_near (x * 10 ^ n)) as [Hlo Hhi].
  assert (Hi : 0 < / 10 ^ n) by (apply Rinv_0_lt_compat; exact Hp).
  split.
  - replace (x - / (2 * 10 ^ n)) with ((x * 10 ^ n - 1 / 2) * / 10 ^ n)
      by (field; lra).
    apply Rmult_le_compat_r; lra.
  - replace (x + / (2 * 10 ^ n)) with ((x * 10 ^ n + 1 / 2) * / 10 ^ n)
      by (field; lra).
    apply Rmult_le_compat_r; lra.
Qed.

Lemma py_round_0 (n : nat) : py_round 0 n = 0.
Proof.
  replace 0 with (IZR 0 / 10 ^ n) at 1 by (pose proof (pow10_pos n); field; lra).
  rewrite py_round_exact. pose proof (pow10_pos n). field. lra.
Qed.

Lemma py_round_1 (n : nat) : py_round 1 n = 1.
Proof.
  unfold py_round. rewrite Rmult_1_l, pow_IZR, round_half_even_IZR.
  rewrite <- pow_IZR. pose proof (pow10_pos n). field. lra.
Qed.

(** Rounding keeps a value of the unit interval inside it. *)
Lemma py_round_unit (x : R) (n : nat) :
  0 <= x <= 1 -> 0 <= py_round x n <= 1.
Proof.
  intros [H0 H1]. split.
  - rewrite <- (py_round_0 n). apply py_round_mono. exact H0.
  - rewrite <- (py_round_1 n). apply py_round_mono. exact H1.
Qed.

(** ** Logarithms *)

Lemma log1p_pos (x : R) : 0 < x -> 0 < log1p x.
Proof.
  intros H. unfold log1p. rewrite <- ln_1. apply ln_increasing; lra.
Qed.

Lemma log1p_nonneg (x : R) : 0 <= x -> 0 <= log1p x.
Proof.
  intros [H|H].
  - left. apply log1p_pos. exact H.
  - subst. unfold log1p. rewrite Rplus_0_r, ln_1. lra.
Qed.

Lemma log1p_0 : log1p 0 = 0.
Proof. unfold log1p. rewrite Rplus_0_r. apply ln_1. Qed.

Lemma log1p_lt (x y : R) : 0 <= x -> x < y -> log1p x < log1p y.
Proof. intros Hx Hxy. unfold log1p. apply ln_increasing; lra. Qed.

(** [min(1, log1p(n)/log1p(c))] lies in the unit interval. *)
Lemma saturating_unit (n : nat) (c : R) :
  0 < c -> 0 <= Rmin 1 (log1p (INR n) / log1p c) <= 1.
Proof.
  intros Hc. split; [|apply Rmin_l].
  apply Rmin_glb; [lra|].
  apply Rmult_le_pos; [apply log1p_nonneg, pos_INR|].
  left. apply Rinv_0_lt_compat, log1p_pos. exact Hc.
Qed.

End Rounding.

(** ** The length factor of the relevance formula *)

Section LengthFactor.

#[local] Open Scope R_scope.

Lemma length_factor_unfold (text : pystr) :
  length_factor text
  = Rmin 1 (log1p (INR (Nat.max 1 (List.length text))) / log1p 4000).
Proof. reflexivity. Qed.

Lemma length_factor_nonempty (text : pystr) :
  text <> [] -> length_factor text = spec_length_factor text.
Proof.
  intros H. unfold length_factor, spec_length_factor.
  destruct text as [|c t]; [contradiction|].
  replace (Nat.max 1 (List.length (c :: t))) with (List.length (c :: t))
    by (simpl; lia).
  reflexivity.
Qed.

Lemma length_factor_empty : length_factor [] = log1p 1 / log1p 4000.
Proof.
  unfold length_factor. simpl Nat.max. simpl INR.
  apply Rmin_right.
  assert (H4 : 0 < log1p 4000) by (apply log1p_pos; lra).
  assert (H : log1p 1 < log1p 4000) by (apply log1p_lt; lra).
  apply Rmult_le_reg_r with (log1p 4000); [exact H4|].
  unfold Rdiv. rewrite Rmult_assoc, Rinv_l; lra.
Qed.

Lemma length_factor_pos (text : pystr) : 0 < length_factor text <= 1.
Proof.
  unfold length_factor. split; [|apply Rmin_l].
  apply Rmin_glb_lt; [lra|].
  apply Rmult_lt_0_compat.
  - apply log1p_pos. apply lt_0_INR. lia.
  - apply Rinv_0_lt_compat, log1p_pos. lra.
Qed.

(** C4 (as amended): the length factor of the relevance formula is
    [min(1, log(1 + max(1, len(text))) / log(1 + 4000))].  For a non-empty
    text this is [min(1, log(1 + len(text)) / log(1 + 4000))]; an empty text
    is counted as one character and contributes [log 2 / log 4001], which
    is positive.  This is the factor [relevance_of] multiplies in. *)
Theorem length_factor_formula :
  forall item : evidence,
    relevance_of item
    = py_round (dom_score (domain item) * get_score 1 item
                * (0.6 * length_factor (text item) + 0.4)) 3
    /\ length_factor (text item)
       = match text item with
         | [] => log1p 1 / log1p 4000
         | _ :: _ => spec_length_factor (text item)
         end
    /\ 0 < length_factor (text item) <= 1.
Proof.
  intros item. split; [reflexivity|]. split.
  - destruct (text item) as [|c t].
    + apply length_factor_empty.
    + apply length_factor_nonempty. discriminate.
  - apply length_factor_pos.
Qed.

(** C4 (as stated) fails on the empty text: the formula of the
    specification gives 0 there, the code a positive factor. *)
Lemma empty_text_length_factor :
  spec_length_factor [] = 0
  /\ length_factor [] <> 0
  /\ length_factor [] <> spec_length_factor [].
Proof.
  assert (E : spec_length_factor [] = 0).
  { unfold spec_length_factor. simpl INR. rewrite log1p_0.
    unfold Rdiv. rewrite Rmult_0_l. apply Rmin_right. lra. }
  pose proof (length_factor_pos []) as [Hp _].
  split; [exact E|]. split; [lra|]. rewrite E. lra.
Qed.

End LengthFactor.

(** ** Dictionaries *)

Section DictFacts.

Variable V : Type.
Implicit Types (k : pystr) (v : V) (d : Dict.dict V).

Lemma get_set_same k v d : Dict.get k (Dict.set k v d) = Some v.
Proof.
  induction d as [|[k' v'] d IH]; simpl.
  - rewrite eqb_refl. reflexivity.
  - destruct (PyStr.eqb k k') eqn:E; simpl; rewrite E; [reflexivity | exact IH].
Qed.

Lemma get_set_other k k' v d :
  k' <> k -> Dict.get k' (Dict.set k v d) = Dict.get k' d.
Proof.
  intros Hne. induction d as [|[k0 v0] d IH]; simpl.
  - apply eqb_neq in Hne. rewrite Hne. reflexivity.
  - destruct (PyStr.eqb k k0) eqn:E; simpl.
    + apply eqb_eq in E. subst k0.
      apply eqb_neq in Hne. rewrite Hne. reflexivity.
    + destruct (PyStr.eqb k' k0); [reflexivity | exact IH].
Qed.

Lemma get_None_keys k d : Dict.get k d = None <-> ~ In k (map fst d).
Proof.
  induction d as [|[k' v'] d IH]; simpl.
  - tauto.
  - destruct (PyStr.eqb k k') eqn:E.
    + apply eqb_eq in E. subst. split; [discriminate | tauto].
    + apply eqb_neq in E. rewrite IH. split.
      * intros H [H1 | H1]; [congruence | tauto].
      * tauto.
Qed.

Lemma get_Some_In k v d : Dict.get k d = Some v -> In (k, v) d.
Proof.
  induction d as [|[k' v'] d IH]; simpl; [discriminate|].
  destruct (PyStr.eqb k k') eqn:E.
  - apply eqb_eq in E. subst. intros H. injection H as ->. left. reflexivity.
  - intros H. right. apply IH. exact H.
Qed.

Lemma In_get_Some k v d :
  NoDup (map fst d) -> In (k, v) d -> Dict.get k d = Some v.
Proof.
  induction d as [|[k' v'] d IH]; simpl; [tauto|].
  intros Hnd [H | H].
  - injection H as -> ->. rewrite eqb_refl. reflexivity.
  - inversion Hnd as [|? ? Hnotin Hnd']; subst.
    destruct (PyStr.eqb k k') eqn:E.
    + apply eqb_eq in E. subst. exfalso. apply Hnotin.
      apply (in_map fst) in H. exact H.
    + apply IH; assumption.
Qed.

Lemma set_absent k v d : Dict.get k d = None -> Dict.set k v d = d ++ [(k, v)].
Proof.
  induction d as [|[k' v'] d IH]; simpl; [reflexivity|].
  destruct (PyStr.eqb k k'); [discriminate|].
  intros H. rewrite IH by exact H. reflexivity.
Qed.

Lemma set_present_keys k v d :
  Dict.get k d <> None -> map fst (Dict.set k v d) = map fst d.
Proof.
  induction d as [|[k' v'] d IH]; simpl; [congruence|].
  destruct (PyStr.eqb k k'); simpl; [reflexivity|].
  intros H. rewrite IH by exact H. reflexivity.
Qed.

End DictFacts.

(** ** The dedup loop *)

Section Dedup.

#[local] Open Scope R_scope.

Lemma identity_key_set_score (s : R) (e : evidence) :
  identity_key (set_score s e) = identity_key e.
Proof. reflexivity. Qed.

Lemma identity_key_score_item (e : evidence) :
  identity_key (score_item e) = identity_key e.
Proof. reflexivity. Qed.

Lemma dedup_step_get_same (d : Dict.dict evidence) (e : evidence) :
  Dict.get (identity_key e) (dedup_step d e)
  = Some (merged (Dict.get (identity_key e) d) e).
Proof.
  unfold dedup_step, merged.
  destruct (Dict.get (identity_key e) d) as [existing|] eqn:G.
  - rewrite get_set_same. do 2 f_equal.
    unfold Dict.get_default.
    destruct (List.length (text existing) <? List.length (text e))%nat.
    + rewrite get_set_same. reflexivity.
    + rewrite G. reflexivity.
  - apply get_set_same.
Qed.

Lemma dedup_step_get_other (d : Dict.dict evidence) (e : evidence) (k : pystr) :
  k <> identity_key e -> Dict.get k (dedup_step d e) = Dict.get k d.
Proof.
  intros Hne. unfold dedup_step.
  destruct (Dict.get (identity_key e) d) as [existing|] eqn:G.
  - rewrite get_set_other by exact Hne.
    destruct (List.length (text existing) <? List.length (text e))%nat.
    + apply get_set_other. exact Hne.
    + reflexivity.
  - apply get_set_other. exact Hne.
Qed.

Lemma dedup_step_keys (d : Dict.dict evidence) (e : evidence) :
  map fst (dedup_step d e)
  = match Dict.get (identity_key e) d with
    | Some _ => map fst d
    | None => map fst d ++ [identity_key e]
    end.
Proof.
  unfold dedup_step.
  destruct (Dict.get (identity_key e) d) as [existing|] eqn:G.
  - destruct (List.length (text existing) <? List.length (text e))%nat.
    + rewrite set_present_keys by (rewrite get_set_same; discriminate).
      apply set_present_keys. congruence.
    + apply set_present_keys. congruence.
  - rewrite set_absent by exact G. rewrite map_app. reflexivity.
Qed.

Lemma group_facts_weaken (seen : list evidence) (e : evidence) (k : pystr)
      (v : evidence) :
  k <> identity_key e -> group_facts seen k v -> group_facts (seen ++ [e]) k v.
Proof.
  intros Hne (Hk & (x & Hx & Hxk & Hxs) & (y & Hy & Hyk & Hys) & Hall).
  split; [exact Hk|]. split; [|split].
  - exists x. rewrite in_app_iff. tauto.
  - exists y. rewrite in_app_iff. tauto.
  - intros z Hz Hzk. apply in_app_or in Hz as [Hz | [Hz | []]].
    + apply Hall; assumption.
    + subst z. congruence.
Qed.

Lemma group_facts_first (seen : list evidence) (e : evidence) :
  (forall x, In x seen -> identity_key x <> identity_key e) ->
  group_facts (seen ++ [e]) (identity_key e) e.
Proof.
  intros Hnew. split; [reflexivity|]. split; [|split].
  - exists e. rewrite in_app_iff. simpl. unfold same_but_score. tauto.
  - exists e. rewrite in_app_iff. simpl. tauto.
  - intros z Hz Hzk. apply in_app_or in Hz as [Hz | [Hz | []]].
    + exfalso. apply (Hnew z Hz Hzk).
    + subst z. split; [lia | lra].
Qed.

Lemma group_facts_merge (seen : list evidence) (e existing : evidence) :
  group_facts seen (identity_key e) existing ->
  group_facts (seen ++ [e]) (identity_key e) (merged (Some existing) e).
Proof.
  intros (Hk & (x & Hx & Hxk & Hxs) & (y & Hy & Hyk & Hys) & Hall).
  unfold merged.
  set (m := Rmax (get_score 0 existing) (get_score 0 e)).
  assert (Hm1 : get_score 0 existing <= m) by apply Rmax_l.
  assert (Hm2 : get_score 0 e <= m) by apply Rmax_r.
  assert (Hm : exists y', In y' (seen ++ [e]) /\ identity_key y' = identity_key e
                          /\ m = get_score 0 y').
  { unfold m, Rmax. destruct (Rle_dec _ _).
    - exists e. rewrite in_app_iff. simpl. tauto.
    - exists y. rewrite in_app_iff. simpl. split; [tauto|]. split; [exact Hyk|].
      exact Hys. }
  clearbody m.
  assert (Hall' : forall z, In z (seen ++ [e]) -> identity_key z = identity_key e ->
                    (List.length (text z)
                     <= Nat.max (List.length (text existing)) (List.length (text e)))%nat
                    /\ get_score 0 z <= m).
  { intros z Hz Hzk. apply in_app_or in Hz as [Hz | [Hz | []]].
    - destruct (Hall z Hz Hzk) as [H1 H2]. split; [lia | lra].
    - subst z. split; [lia | lra]. }
  destruct (List.length (text existing) <? List.length (text e))%nat eqn:L.
  - apply Nat.ltb_lt in L. split; [reflexivity|]. split; [|split].
    + exists e. rewrite in_app_iff. simpl. unfold same_but_score.
      repeat split; eauto.
    + exact Hm.
    + intros z Hz Hzk. destruct (Hall' z Hz Hzk) as [H1 H2].
      split; [simpl; lia | exact H2].
  - apply Nat.ltb_ge in L. split; [exact Hk|]. split; [|split].
    + exists x. rewrite in_app_iff. split; [tauto|]. split; [exact Hxk|].
      right. destruct Hxs as [-> | [s ->]]; eexists; reflexivity.
    + exact Hm.
    + intros z Hz Hzk. destruct (Hall' z Hz Hzk) as [H1 H2].
      split; [simpl; lia | exact H2].
Qed.

Lemma dedup_step_inv (seen : list evidence) (d : Dict.dict evidence)
      (e : evidence) :
  dedup_inv seen d -> dedup_inv (seen ++ [e]) (dedup_step d e).
Proof.
  intros (Hnd & Hget & Hseen). split; [|split].
  - rewrite dedup_step_keys.
    destruct (Dict.get (identity_key e) d) eqn:G; [exact Hnd|].
    apply NoDup_app; [exact Hnd | repeat constructor; simpl; tauto |].
    intros k Hk [<- | []]. apply get_None_keys in G. contradiction.
  - intros k v Hv.
    destruct (list_eq_dec ascii_dec k (identity_key e)) as [-> | Hne].
    + rewrite dedup_step_get_same in Hv. injection Hv as <-.
      destruct (Dict.get (identity_key e) d) as [existing|] eqn:G.
      * apply group_facts_merge. apply Hget. exact G.
      * simpl. apply group_facts_first.
        intros x Hx Hxk. apply (Hseen x Hx). rewrite Hxk. exact G.
    + rewrite dedup_step_get_other in Hv by exact Hne.
      apply group_facts_weaken; [exact Hne|]. apply Hget. exact Hv.
  - intros x Hx.
    destruct (list_eq_dec ascii_dec (identity_key x) (identity_key e))
      as [-> | Hne].
    + rewrite dedup_step_get_same. discriminate.
    + rewrite dedup_step_get_other by exact Hne.
      apply in_app_or in Hx as [Hx | [Hx | []]]; [|subst; contradiction].
      apply Hseen. exact Hx.
Qed.

Lemma dedup_fold_inv (l : list evidence) :
  forall seen d,
    dedup_inv seen d -> dedup_inv (seen ++ l) (fold_left dedup_step l d).
Proof.
  induction l as [|e l IH]; intros seen d H; simpl.
  - rewrite app_nil_r. exact H.
  - replace (seen ++ e :: l) with ((seen ++ [e]) ++ l)
      by (rewrite <- app_assoc; reflexivity).
    apply IH. apply dedup_step_inv. exact H.
Qed.

Lemma dedup_pass_inv (l : list evidence) : dedup_inv l (dedup_pass l).
Proof.
  apply (dedup_fold_inv l (seen := []) (d := [])).
  split; [constructor|]. split.
  - intros k v H. discriminate.
  - intros x [].
Qed.

(** The stored items carry the keys they are stored under. *)
Lemma dedup_pass_value_keys (l : list evidence) :
  map identity_key (Dict.values (dedup_pass l)) = map fst (dedup_pass l).
Proof.
  destruct (dedup_pass_inv l) as (Hnd & Hget & _).
  unfold Dict.values. rewrite map_map. apply map_ext_in.
  intros [k v] Hin. simpl.
  apply In_get_Some in Hin; [|exact Hnd].
  destruct (Hget k v Hin) as [Hk _]. exact Hk.
Qed.

(** On items with distinct keys the loop stores each under its key. *)
Lemma dedup_fold_distinct (l : list evidence) :
  forall d,
    NoDup (map identity_key l) ->
    (forall e, In e l -> Dict.get (identity_key e) d = None) ->
    fold_left dedup_step l d = d ++ map (fun e => (identity_key e, e)) l.
Proof.
  induction l as [|e l IH]; intros d Hnd Hfresh; simpl.
  - rewrite app_nil_r. reflexivity.
  - inversion Hnd as [|? ? Hnotin Hnd']; subst.
    assert (Hstep : dedup_step d e = d ++ [(identity_key e, e)]).
    { unfold dedup_step. rewrite (Hfresh e) by (left; reflexivity).
      apply set_absent. apply Hfresh. left. reflexivity. }
    rewrite Hstep, IH; [rewrite <- app_assoc; reflexivity | exact Hnd' |].
    intros x Hx. apply get_None_keys. rewrite map_app, in_app_iff. simpl.
    intros [H | [H | []]].
    + apply (proj1 (get_None_keys _ _) (Hfresh x (or_intror Hx))). exact H.
    + apply Hnotin. rewrite H. apply in_map. exact Hx.
Qed.

Lemma dedup_pass_distinct (l : list evidence) :
  NoDup (map identity_key l) -> Dict.values (dedup_pass l) = l.
Proof.
  intros Hnd. unfold dedup_pass.
  rewrite dedup_fold_distinct; [|exact Hnd | reflexivity].
  unfold Dict.values. simpl. rewrite map_map. simpl. apply map_id.
Qed.

(** ** The sort *)

Lemma insert_desc_perm (x : evidence) (l : list evidence) :
  Permutation (insert_desc x l) (x :: l).
Proof.
  induction l as [|y l IH]; simpl; [reflexivity|].
  destruct (Rlt_dec _ _); [|reflexivity].
  rewrite IH. apply perm_swap.
Qed.

Lemma sort_desc_perm (l : list evidence) : Permutation (sort_desc l) l.
Proof.
  induction l as [|x l IH]; simpl; [reflexivity|].
  rewrite insert_desc_perm. constructor. exact IH.
Qed.

Lemma insert_desc_descending (x : evidence) (l : list evidence) :
  descending l -> descending (insert_desc x l).
Proof.
  unfold descending. induction l as [|y l IH]; intros Hs; simpl.
  - repeat constructor.
  - inversion Hs as [|? ? Hs' Hhd]; subst.
    destruct (Rlt_dec _ _) as [Hlt | Hge].
    + constructor; [apply IH; exact Hs'|].
      destruct l as [|z l]; simpl.
      * constructor. lra.
      * inversion Hhd; subst.
        destruct (Rlt_dec _ _); constructor; [assumption | lra].
    + constructor; [exact Hs|]. constructor. lra.
Qed.

Lemma sort_desc_descending (l : list evidence) : descending (sort_desc l).
Proof.
  induction l as [|x l IH]; simpl.
  - constructor.
  - apply insert_desc_descending. exact IH.
Qed.

(** The sort is stable: it leaves a list already in order as it is. *)
Lemma sort_desc_fixed (l : list evidence) : descending l -> sort_desc l = l.
Proof.
  unfold descending. induction l as [|x l IH]; intros Hs; simpl; [reflexivity|].
  inversion Hs as [|? ? Hs' Hhd]; subst.
  rewrite IH by exact Hs'.
  destruct l as [|y l]; simpl; [reflexivity|].
  inversion Hhd; subst.
  destruct (Rlt_dec _ _) as [Hlt | Hge]; [lra | reflexivity].
Qed.

(** ** The normalizer *)

Lemma score_item_idem (e : evidence) : score_item (score_item e) = score_item e.
Proof. reflexivity. Qed.

Lemma normalize_perm (l : list evidence) :
  Permutation (normalize_and_score_evidence l)
              (map score_item (Dict.values (dedup_pass l))).
Proof. apply sort_desc_perm. Qed.

Lemma normalize_keys_NoDup (l : list evidence) :
  NoDup (map identity_key (normalize_and_score_evidence l)).
Proof.
  eapply Permutation_NoDup.
  - apply Permutation_sym, Permutation_map, normalize_perm.
  - rewrite map_map.
    rewrite (map_ext _ identity_key identity_key_score_item).
    rewrite dedup_pass_value_keys. apply dedup_pass_inv.
Qed.

(** Every output item is a stored item with its relevance set. *)
Lemma normalize_In (l : list evidence) (it : evidence) :
  In it (normalize_and_score_evidence l) <->
  exists v, it = score_item v
            /\ Dict.get (identity_key v) (dedup_pass l) = Some v.
Proof.
  destruct (dedup_pass_inv l) as (Hnd & Hget & _).
  split.
  - intros Hin.
    apply (Permutation_in _ (normalize_perm l)) in Hin.
    apply in_map_iff in Hin as (v & <- & Hv).
    unfold Dict.values in Hv. apply in_map_iff in Hv as ([k v'] & Hs & Hv).
    simpl in Hs. subst v'.
    apply In_get_Some in Hv; [|exact Hnd].
    exists v. split; [reflexivity|].
    destruct (Hget k v Hv) as [-> _]. exact Hv.
  - intros (v & -> & Hv).
    apply (Permutation_in _ (Permutation_sym (normalize_perm l))).
    apply in_map. unfold Dict.values.
    apply get_Some_In in Hv. apply (in_map snd) in Hv. exact Hv.
Qed.

Lemma normalize_facts (l : list evidence) (it : evidence) :
  In it (normalize_and_score_evidence l) ->
  exists v, it = score_item v /\ group_facts l (identity_key v) v.
Proof.
  intros Hin. apply normalize_In in Hin as (v & -> & Hv).
  exists v. split; [reflexivity|].
  apply (proj1 (proj2 (dedup_pass_inv l))). exact Hv.
Qed.

(** Two items under one key leave one item. *)
Lemma normalize_pair (a b : evidence) :
  identity_key a = identity_key b ->
  normalize_and_score_evidence [a; b] = [score_item (merged (Some a) b)].
Proof.
  intros Hk.
  assert (Hd : dedup_pass [a; b] = [(identity_key a, merged (Some a) b)]).
  { unfold dedup_pass. cbn [fold_left].
    change (dedup_step [] a) with [(identity_key a, a)].
    unfold dedup_step, merged, Dict.get_default. rewrite <- Hk.
    cbn [Dict.get]. rewrite eqb_refl.
    destruct (List.length (text a) <? List.length (text b))%nat;
      cbn [Dict.get Dict.set]; rewrite ?eqb_refl;
      cbn [Dict.get Dict.set]; rewrite ?eqb_refl; reflexivity. }
  unfold normalize_and_score_evidence. rewrite Hd. reflexivity.
Qed.

End Dedup.

Section Normalizer.

#[local] Open Scope R_scope.

Lemma merged_pair_text_score (a b : evidence) (sa sb : R) :
  score a = Some sa -> score b = Some sb ->
  (List.length (text a) <= List.length (text b))%nat \/
  (List.length (text b) < List.length (text a))%nat ->
  let it := score_item (merged (Some a) b) in
  List.length (text it) = Nat.max (List.length (text a)) (List.length (text b))
  /\ score it = Some (Rmax sa sb).
Proof.
  intros Ha Hb _. unfold merged, get_score. rewrite Ha, Hb.
  destruct (List.length (text a) <? List.length (text b))%nat eqn:L; simpl.
  - apply Nat.ltb_lt in L. split; [lia | reflexivity].
  - apply Nat.ltb_ge in L. split; [lia | reflexivity].
Qed.

(** C1: normalization keeps exactly one item per identity key (the url,
    else the source id, else the hash of the snippet).  The survivor of a
    key has the text of one of the items under that key, no item under the
    key has a longer text, and its score (read, as the merge does, as 0 when
    missing) is the largest of theirs.  In particular two items sharing a
    url, with texts of 50 and 500 characters and scores 0.4 and 0.9, merge,
    in either order, into one item with the 500-character text and score
    0.9. *)
Theorem normalize_dedup_merge :
  forall l : list evidence,
    let out := normalize_and_score_evidence l in
    NoDup (map identity_key out)
    /\ (forall x, In x l ->
          exists it, In it out /\ identity_key it = identity_key x)
    /\ (forall it, In it out ->
          (exists x, In x l /\ identity_key x = identity_key it
                     /\ text it = text x)
          /\ (exists y, In y l /\ identity_key y = identity_key it
                        /\ get_score 0 it = get_score 0 y)
          /\ (forall x, In x l -> identity_key x = identity_key it ->
                (List.length (text x) <= List.length (text it))%nat
                /\ get_score 0 x <= get_score 0 it))
    /\ (forall a b : evidence,
          nonempty (url a) = true -> url a = url b ->
          List.length (text a) = 50%nat -> List.length (text b) = 500%nat ->
          score a = Some 0.4 -> score b = Some 0.9 ->
          (exists it, normalize_and_score_evidence [a; b] = [it]
                      /\ List.length (text it) = 500%nat
                      /\ score it = Some 0.9)
          /\ (exists it, normalize_and_score_evidence [b; a] = [it]
                         /\ List.length (text it) = 500%nat
                         /\ score it = Some 0.9)).
Proof.
  intros l out. split; [apply normalize_keys_NoDup|]. split; [|split].
  - intros x Hx.
    destruct (dedup_pass_inv l) as (_ & Hget & Hseen).
    destruct (Dict.get (identity_key x) (dedup_pass l)) as [v|] eqn:G;
      [|exfalso; apply (Hseen x Hx G)].
    destruct (Hget _ _ G) as [Hk _].
    exists (score_item v). split; [|exact Hk].
    apply normalize_In. exists v. split; [reflexivity|].
    rewrite Hk. exact G.
  - intros it Hin.
    apply normalize_facts in Hin
      as (v & -> & Hk & (x & Hx & Hxk & Hxs) & (y & Hy & Hyk & Hys) & Hall).
    rewrite identity_key_score_item. split; [|split].
    + exists x. split; [exact Hx|]. split; [exact Hxk|].
      destruct Hxs as [-> | [s ->]]; reflexivity.
    + exists y. split; [exact Hy|]. split; [exact Hyk|]. exact Hys.
    + exact Hall.
  - intros a b Hu Hab Hla Hlb Hsa Hsb.
    assert (Hk : identity_key a = identity_key b).
    { unfold identity_key, py_or. rewrite <- Hab, Hu. reflexivity. }
    assert (Hmax : Rmax 0.4 0.9 = 0.9) by (apply Rmax_right; lra).
    assert (Hmax' : Rmax 0.9 0.4 = 0.9) by (apply Rmax_left; lra).
    split.
    + exists (score_item (merged (Some a) b)).
      split; [apply normalize_pair; exact Hk|].
      destruct (@merged_pair_text_score a b 0.4 0.9 Hsa Hsb) as [Ht Hs];
        [lia|].
      rewrite Ht, Hs, Hla, Hlb, Hmax. split; reflexivity.
    + exists (score_item (merged (Some b) a)).
      split; [apply normalize_pair; symmetry; exact Hk|].
      destruct (@merged_pair_text_score b a 0.9 0.4 Hsb Hsa) as [Ht Hs];
        [lia|].
      rewrite Ht, Hs, Hla, Hlb, Hmax'. split; reflexivity.
Qed.

Lemma normalize_dedup_merge_witness :
  exists it, normalize_and_score_evidence [short_item; long_item] = [it]
             /\ List.length (text it) = 500%nat /\ score it = Some 0.9.
Proof.
  destruct (normalize_dedup_merge [short_item; long_item]) as (_ & _ & _ & H).
  destruct (H short_item long_item) as [H1 _];
    [reflexivity | reflexivity | reflexivity | reflexivity
     | reflexivity | reflexivity | exact H1].
Defined.

(** C2: normalizing the output of a normalization changes nothing: the
    same items, with the same relevance values, in the same order. *)
Theorem normalize_idempotent :
  forall l : list evidence,
    normalize_and_score_evidence (normalize_and_score_evidence l)
    = normalize_and_score_evidence l.
Proof.
  intros l.
  set (out := normalize_and_score_evidence l).
  unfold normalize_and_score_evidence at 1.
  rewrite dedup_pass_distinct by apply normalize_keys_NoDup.
  assert (Hid : map score_item out = out).
  { rewrite <- (map_id out) at 2. apply map_ext_in.
    intros it Hin. apply normalize_In in Hin as (v & -> & _).
    apply score_item_idem. }
  rewrite Hid. apply sort_desc_fixed. apply sort_desc_descending.
Qed.

Lemma mult_unit (a b : R) : 0 <= a <= 1 -> 0 <= b <= 1 -> 0 <= a * b <= 1.
Proof. intros [Ha0 Ha1] [Hb0 Hb1]. split; nra. Qed.

Lemma dom_score_unit (d : pystr) : 0 <= dom_score d <= 1.
Proof. unfold dom_score. destruct (existsb _ _); lra. Qed.

Lemma relevance_of_unit (v : evidence) :
  0 <= get_score 1 v <= 1 -> 0 <= relevance_of v <= 1.
Proof.
  intros [Hs0 Hs1]. unfold relevance_of. apply py_round_unit.
  pose proof (dom_score_unit (domain v)) as [Hd0 Hd1].
  pose proof (length_factor_pos (text v)) as [Hl0 Hl1].
  assert (Hf : 0 <= 0.6 * length_factor (text v) + 0.4 <= 1) by lra.
  apply mult_unit; [apply mult_unit; lra | lra].
Qed.

(** C3 (as amended): when every score supplied to the normalizer lies in
    [0,1] (an item may also have none), every relevance it computes lies in
    [0,1]. *)
Theorem relevance_in_unit_interval :
  forall l : list evidence,
    (forall e s, In e l -> score e = Some s -> 0 <= s <= 1) ->
    forall it, In it (normalize_and_score_evidence l) ->
               exists r, relevance it = Some r /\ 0 <= r <= 1.
Proof.
  intros l Hscores it Hin.
  apply normalize_facts in Hin as (v & -> & _ & _ & (y & Hy & _ & Hys) & _).
  exists (relevance_of v). split; [reflexivity|].
  apply relevance_of_unit.
  unfold get_score in *. destruct (score v) as [s|]; [|lra].
  destruct (score y) as [s'|] eqn:Ey.
  - subst s. apply (Hscores y s' Hy Ey).
  - lra.
Qed.

Lemma relevance_in_unit_interval_witness :
  exists r, relevance (score_item short_item) = Some r /\ 0 <= r <= 1.
Proof.
  apply (@relevance_in_unit_interval [short_item]).
  - intros e s [<- | []] H; injection H as <-; lra.
  - left. reflexivity.
Defined.

Lemma normalize_single (e : evidence) :
  normalize_and_score_evidence [e] = [score_item e].
Proof. reflexivity. Qed.

(** C3 (as stated) fails: an item scored 10 by the search tool gets a
    relevance of 2 or more. *)
Lemma relevance_exceeds_one :
  exists it r,
    normalize_and_score_evidence [overscored_item] = [it]
    /\ relevance it = Some r /\ 1 < r.
Proof.
  exists (score_item overscored_item), (relevance_of overscored_item).
  split; [apply normalize_single|]. split; [reflexivity|].
  assert (H2 : py_round 2 3 = 2).
  { replace 2 with (IZR 2000 / 10 ^ 3) by (simpl; lra).
    apply py_round_exact. }
  assert (Hd : dom_score (domain overscored_item) = 0.5).
  { unfold dom_score.
    replace (existsb _ trusted_domains) with false by reflexivity.
    reflexivity. }
  unfold relevance_of. rewrite Hd.
  pose proof (length_factor_pos (text overscored_item)) as [Hl _].
  apply Rlt_le_trans with 2; [lra|].
  rewrite <- H2 at 1. apply py_round_mono.
  change (get_score 1 overscored_item) with 10. lra.
Qed.

End Normalizer.

(** ** Substrings and lowering *)

Lemma startswith_app (p s : pystr) : startswith p (p ++ s) = true.
Proof.
  induction p as [|a p IH]; simpl; [reflexivity|].
  rewrite Ascii.eqb_refl. exact IH.
Qed.

Lemma startswith_split (p s : pystr) :
  startswith p s = true -> exists r, s = p ++ r.
Proof.
  revert s; induction p as [|a p IH]; intros s; simpl.
  - intros _. exists s. reflexivity.
  - destruct s as [|b s]; [discriminate|].
    intros H. apply andb_prop in H as [Hab Hp].
    apply Ascii.eqb_eq in Hab. subst b.
    destruct (IH s Hp) as [r ->]. exists r. reflexivity.
Qed.

Lemma contains_startswith (n s : pystr) :
  startswith n s = true -> contains n s = true.
Proof. intros H. destruct s; simpl; rewrite H; reflexivity. Qed.

Lemma contains_app (n a b : pystr) : contains n (a ++ n ++ b) = true.
Proof.
  induction a as [|c a IH].
  - change ([] ++ n ++ b) with (n ++ b).
    apply contains_startswith, startswith_app.
  - simpl. rewrite IH. apply orb_true_r.
Qed.

Lemma contains_split (n s : pystr) :
  contains n s = true -> exists a b, s = a ++ n ++ b.
Proof.
  induction s as [|c s IH]; simpl.
  - rewrite orb_false_r. intros H. apply startswith_split in H as [r ->].
    exists [], r. reflexivity.
  - intros H. apply orb_prop in H as [H | H].
    + apply startswith_split in H as [r ->]. exists [], r. reflexivity.
    + destruct (IH H) as (a & b & ->). exists (c :: a), b. reflexivity.
Qed.

(** A lower-case marker found in a note is found in the lowered note. *)
Lemma contains_lower (n s : pystr) :
  lower n = n -> contains n s = true -> contains n (lower s) = true.
Proof.
  intros Hn H. apply contains_split in H as (a & b & ->).
  unfold lower in *. rewrite !map_app, Hn. apply contains_app.
Qed.

(** ** The credibility engine *)

Section Credibility.

#[local] Open Scope R_scope.

Import CredibilityEngine.

Variable _has_nx : bool.

Lemma domain_score_bounds (u : pystr) :
  0.45 <= _domain_reliability_score u <= 0.95.
Proof.
  unfold _domain_reliability_score.
  destruct (negb (nonempty u)); [lra|].
  repeat (destruct (existsb _ _); [lra|]). lra.
Qed.

Lemma content_score_bounds (t : pystr) : 0 <= _content_score t <= 1.
Proof.
  unfold _content_score. destruct (negb (nonempty t)); [lra|].
  apply py_round_unit.
  pose proof (@saturating_unit (List.length t) 5000 ltac:(lra)) as Hln.
  set (sents := (count "." t + count "!" t + count "?" t)%nat).
  assert (Hd : 0 <= Rmin 1 (INR sents / Rmax 1 (INR (List.length t) / 200)) <= 1).
  { split; [|apply Rmin_l]. apply Rmin_glb; [lra|].
    apply Rmult_le_pos; [apply pos_INR|].
    left. apply Rinv_0_lt_compat.
    apply Rlt_le_trans with 1; [lra | apply Rmax_l]. }
  lra.
Qed.

Lemma sum_nonneg (l : list R) : Forall (fun x => 0 <= x) l -> 0 <= sum l.
Proof.
  induction 1 as [|x l Hx _ IH]; simpl; lra.
Qed.

Lemma degree_centrality_nonneg (G : Nx.Graph) :
  Forall (fun x => 0 <= x) (Nx.degree_centrality G).
Proof.
  unfold Nx.degree_centrality.
  destruct (Nx.number_of_nodes G <=? 1)%nat eqn:E; apply Forall_forall;
    intros x Hx; apply in_map_iff in Hx as (n & <- & _); [lra|].
  apply Nat.leb_gt in E.
  apply Rmult_le_pos; [apply pos_INR|].
  apply Rmult_le_pos; [lra|].
  left. apply Rinv_0_lt_compat.
  apply lt_INR in E. simpl in E. lra.
Qed.

Lemma centrality_of_bounds (g : kg) (r : R) :
  centrality_of g = Ok r -> 0 <= r <= 0.95.
Proof.
  unfold centrality_of. destruct (add_nodes (nodes g) Nx.empty) as [G0|e]; simpl;
    [|discriminate].
  set (G := add_links (links g) G0).
  destruct (Nx.number_of_nodes G <? 2)%nat eqn:E; intros H; injection H as <-;
    [lra|].
  set (avg := sum (Nx.degree_centrality G)
              / INR (List.length (Nx.degree_centrality G))).
  assert (Havg : 0 <= avg).
  { unfold avg. apply Rmult_le_pos.
    - apply sum_nonneg, degree_centrality_nonneg.
    - destruct (List.length (Nx.degree_centrality G)) as [|n].
      + simpl. rewrite Rinv_0. lra.
      + left. apply Rinv_0_lt_compat. apply lt_0_INR. lia. }
  assert (H95 : py_round 0.95 3 = 0.95).
  { replace 0.95 with (IZR 950 / 10 ^ 3) by (simpl; lra).
    apply py_round_exact. }
  split.
  - rewrite <- (py_round_0 3). apply py_round_mono.
    apply Rmin_glb; lra.
  - rewrite <- H95 at 2. apply py_round_mono. apply Rmin_l.
Qed.

Lemma centrality_bounds (kg_data : option kg) :
  0 <= _kg_centrality_score _has_nx kg_data <= 0.95.
Proof.
  unfold _kg_centrality_score. destruct kg_data as [g|]; [|lra].
  destruct (negb _has_nx); [lra|].
  destruct (centrality_of g) as [r|e] eqn:E; [|lra].
  apply centrality_of_bounds in E. exact E.
Qed.

(** The weighted sum lies strictly inside the unit interval. *)
Lemma raw_bounds (a : article) (kg_data : option kg) (st : option stance) :
  (forall s x, st = Some s -> support s = Some x -> 0 <= x <= 1) ->
  0.135 <= raw _has_nx a kg_data st <= 0.9775.
Proof.
  intros Hst. unfold raw.
  pose proof (domain_score_bounds (a_url a)) as Hd.
  pose proof (content_score_bounds (strip (a_text a))) as Hc.
  pose proof (centrality_bounds kg_data) as Hk.
  assert (Hs : 0 <= match st with
                    | Some s => match support s with Some x => x | None => 0.5 end
                    | None => 0.5
                    end <= 1).
  { destruct st as [s|]; [|lra].
    destruct (support s) as [x|] eqn:E; [|lra].
    apply (Hst s x eq_refl E). }
  assert (Hk' : 0 <= match kg_data with
                     | Some _ => _kg_centrality_score _has_nx kg_data
                     | None => 0.5
                     end <= 0.95).
  { destruct kg_data; [exact Hk | lra]. }
  lra.
Qed.

Lemma bias_penalty_empty : _bias_penalty [] = 0.
Proof. reflexivity. Qed.

Lemma bias_penalty_highly_biased (note : pystr) :
  contains (str "highly biased") note = true -> _bias_penalty note = 0.18.
Proof.
  intros H. unfold _bias_penalty.
  destruct note as [|c note]; [discriminate|]. cbn [nonempty negb].
  rewrite (@contains_lower (str "highly biased") (c :: note) eq_refl H).
  rewrite !orb_true_r. reflexivity.
Qed.

(** C5: with the article, the knowledge graph and a stance whose support
    lies in [0,1] held fixed, a bias note containing "highly biased" gives
    a strictly lower score than an empty bias note, and the values before
    clamping differ by exactly 0.18. *)
Theorem highly_biased_lowers_score :
  forall (art : article) (kg_data : option kg) (st : option stance)
         (bias_note : pystr),
    (forall s x, st = Some s -> support s = Some x -> 0 <= x <= 1) ->
    contains (str "highly biased") bias_note = true ->
    score _has_nx art kg_data st bias_note < score _has_nx art kg_data st []
    /\ pre_clamp _has_nx art kg_data st []
       - pre_clamp _has_nx art kg_data st bias_note = 0.18.
Proof.
  intros art kg_data st bias_note Hst Hnote.
  pose proof (raw_bounds art kg_data Hst) as [Hlo Hhi].
  unfold score, pre_clamp.
  rewrite (bias_penalty_highly_biased _ Hnote), bias_penalty_empty.
  set (r := raw _has_nx art kg_data st) in *.
  split; [|lra].
  assert (Hc : Rmax 0 (Rmin 1 (r - 0.18)) <= r - 0.135).
  { unfold Rmax, Rmin. repeat destruct (Rle_dec _ _); lra. }
  assert (Hr : Rmax 0 (Rmin 1 (r - 0)) = r).
  { unfold Rmax, Rmin. repeat destruct (Rle_dec _ _); lra. }
  rewrite Hr.
  pose proof (py_round_near (Rmax 0 (Rmin 1 (r - 0.18))) 3) as [_ Hup].
  pose proof (py_round_near r 3) as [Hdown _].
  assert (Hh : / (2 * 10 ^ 3) = 0.0005) by (simpl; lra).
  rewrite Hh in *. lra.
Qed.

End Credibility.

Section CredibilityExample.

#[local] Open Scope R_scope.

Lemma highly_biased_lowers_score_witness :
  CredibilityEngine.score true sample_article None
    (Some sample_stance) (str "The tone is highly biased.")
  < CredibilityEngine.score true sample_article None
      (Some sample_stance) []
  /\ CredibilityEngine.pre_clamp true sample_article None
       (Some sample_stance) []
     - CredibilityEngine.pre_clamp true sample_article None
         (Some sample_stance)
         (str "The tone is highly biased.")
     = 0.18.
Proof.
  apply (@highly_biased_lowers_score true sample_article None
           (Some sample_stance)
           (str "The tone is highly biased.")).
  - intros s x Hs Hx. injection Hs as <-. simpl in Hx. injection Hx as <-. lra.
  - reflexivity.
Defined.

End CredibilityExample.

(** ** The planner *)

Lemma re_search_array_head (raw m : pystr) :
  re_search_array raw = Some m -> exists r, m = "["%char :: r.
Proof.
  unfold re_search_array.
  assert (Hff : forall s t, from_first "[" s = Some t ->
                            exists r, t = "["%char :: r).
  { induction s as [|x s IH]; simpl; [discriminate|].
    intros t. destruct (Ascii.eqb x "[") eqn:E.
    - intros H. injection H as <-. apply Ascii.eqb_eq in E. subst.
      exists s. reflexivity.
    - apply IH. }
  destruct (from_first "[" raw) as [[|o rest]|] eqn:E; try discriminate.
  destruct (Hff _ _ E) as [r Hr]. injection Hr as -> ->.
  destruct (through_last "]" r); [|discriminate].
  intros H. injection H as <-. eexists. reflexivity.
Qed.

Lemma elements_array (fuel : nat) :
  forall s acc v r, Json.elements fuel s acc = Some (v, r) ->
                    exists l, v = JArr l.
Proof.
  induction fuel as [|fuel IH]; intros s acc v r; simpl; [discriminate|].
  destruct (Json.value fuel s) as [[v0 r0]|]; [|discriminate].
  destruct (skip_ws r0) as [|c r']; [discriminate|].
  destruct (Ascii.eqb c ","); [apply IH|].
  destruct (Ascii.eqb c "]"); [|discriminate].
  intros H. injection H as <- _. eexists. reflexivity.
Qed.

(** A document that opens with a bracket decodes to a list, or not at all. *)
Lemma loads_array (r : pystr) (v : json) :
  Json.loads ("["%char :: r) = Ok v -> exists l, v = JArr l.
Proof.
  unfold Json.loads.
  destruct (Json.value _ _) as [[v0 r0]|] eqn:E; [|discriminate].
  destruct (skip_ws r0); [|discriminate].
  intros H. injection H as <-.
  simpl in E.
  destruct (skip_ws r) as [|c' r']; [discriminate|].
  destruct (Ascii.eqb c' "]").
  - injection E as <- _. eexists. reflexivity.
  - apply elements_array in E. exact E.
Qed.

Lemma setdefault_keeps (k k' : pystr) (v : json) (f : Dict.dict json) :
  Dict.get k' f <> None -> Dict.get k' (Dict.setdefault k v f) <> None.
Proof.
  intros H. unfold Dict.setdefault. destruct (Dict.get k f) eqn:E; [exact H|].
  destruct (list_eq_dec ascii_dec k' k) as [-> | Hne].
  - rewrite get_set_same. discriminate.
  - rewrite get_set_other by exact Hne. exact H.
Qed.

Lemma setdefault_has (k : pystr) (v : json) (f : Dict.dict json) :
  Dict.get k (Dict.setdefault k v f) <> None.
Proof.
  unfold Dict.setdefault. destruct (Dict.get k f) eqn:E.
  - rewrite E. discriminate.
  - rewrite get_set_same. discriminate.
Qed.

Lemma backfill_complete (query : pystr) (i : nat) (t t' : json) :
  backfill query i t = Ok t' -> complete_task t'.
Proof.
  destruct t; simpl; try discriminate.
  intros H. injection H as <-. eexists. split; [reflexivity|].
  repeat split.
  - do 3 apply setdefault_keeps. apply setdefault_has.
  - do 2 apply setdefault_keeps. apply setdefault_has.
  - apply setdefault_keeps. apply setdefault_has.
  - apply setdefault_has.
Qed.

Lemma backfill_all_complete (query : pystr) (plan : list json) :
  forall i tasks,
    backfill_all query i plan = Ok tasks ->
    Forall complete_task tasks /\ List.length tasks = List.length plan.
Proof.
  induction plan as [|t plan IH]; intros i tasks; simpl.
  - intros H. injection H as <-. split; [constructor | reflexivity].
  - destruct (backfill query i t) as [t'|e] eqn:E; simpl; [|discriminate].
    destruct (backfill_all query (S i) plan) as [rest|e] eqn:E'; simpl;
      [|discriminate].
    intros H. injection H as <-.
    destruct (IH _ _ E') as [Hall Hlen].
    apply backfill_complete in E.
    split; [constructor; assumption | simpl; congruence].
Qed.

Lemma task_complete (id role prompt : pystr) (rs : bool) :
  complete_task (task id role prompt rs).
Proof.
  eexists. split; [reflexivity|]. repeat split; discriminate.
Qed.

Lemma unavailable_plan_complete (query : pystr) :
  Forall complete_task (unavailable_plan query).
Proof. repeat constructor; apply task_complete. Qed.

Lemma fallback_plan_complete (query : pystr) :
  Forall complete_task (fallback_plan query).
Proof. repeat constructor; apply task_complete. Qed.

(** C6: without the language model, [plan_tasks] returns exactly three
    tasks, with ids t1, t2, t3 and roles background, evidence,
    implications; the first two require a search and the third does not;
    each prompt quotes the query. *)
Theorem plan_without_llm :
  forall (llm : LLMAgent) (query : pystr),
    available llm = false ->
    exists p1 p2 p3 : pystr,
      plan_tasks llm query
      = Ok (JArr [task (str "t1") (str "background") p1 true;
                  task (str "t2") (str "evidence") p2 true;
                  task (str "t3") (str "implications") p3 false])
      /\ p1 = str "Background: define and scope '" ++ query ++ str "'"
      /\ p2 = str "Evidence: find key studies or news pieces for '"
              ++ query ++ str "'"
      /\ p3 = str "Implications & open questions for '" ++ query ++ str "'"
      /\ contains query p1 = true
      /\ contains query p2 = true
      /\ contains query p3 = true.
Proof.
  intros llm query Hoff.
  do 3 eexists. split; [|split; [reflexivity|split; [reflexivity|split;
    [reflexivity|]]]].
  - unfold plan_tasks. rewrite Hoff. reflexivity.
  - repeat split; apply contains_app.
Qed.

Lemma plan_without_llm_witness :
  exists p1 p2 p3 : pystr,
    plan_tasks offline_llm (str "climate change")
    = Ok (JArr [task (str "t1") (str "background") p1 true;
                task (str "t2") (str "evidence") p2 true;
                task (str "t3") (str "implications") p3 false])
    /\ p1 = str "Background: define and scope '" ++ str "climate change" ++ str "'"
    /\ p2 = str "Evidence: find key studies or news pieces for '"
            ++ str "climate change" ++ str "'"
    /\ p3 = str "Implications & open questions for '" ++ str "climate change"
            ++ str "'"
    /\ contains (str "climate change") p1 = true
    /\ contains (str "climate change") p2 = true
    /\ contains (str "climate change") p3 = true.
Proof.
  apply (@plan_without_llm offline_llm (str "climate change")).
  reflexivity.
Defined.

(** C7 (as amended): whatever the language model does, [plan_tasks] does
    not raise and returns a list of complete tasks.  The list is one of
    the two three-task templates when the model is unavailable, raises, or
    answers with text in which no JSON array of objects is found;
    otherwise it is the array the model gave, each element completed with
    the default fields, and it has as many tasks as that array, be it none
    or more than six. *)
Theorem plan_tasks_total :
  forall (llm : LLMAgent) (query : pystr),
    exists tasks : list json,
      plan_tasks llm query = Ok (JArr tasks)
      /\ Forall complete_task tasks
      /\ (tasks = unavailable_plan query
          \/ tasks = fallback_plan query
          \/ llm_plan llm query tasks).
Proof.
  intros llm query. unfold plan_tasks.
  destruct (available llm); simpl.
  2:{ exists (unavailable_plan query).
      split; [reflexivity|]. split; [apply unavailable_plan_complete | tauto]. }
  assert (Hfb : exists tasks : list json,
             Ok (JArr (fallback_plan query)) = Ok (JArr tasks)
             /\ Forall complete_task tasks
             /\ (tasks = unavailable_plan query
                 \/ tasks = fallback_plan query
                 \/ llm_plan llm query tasks)).
  { exists (fallback_plan query).
    split; [reflexivity|]. split; [apply fallback_plan_complete | tauto]. }
  unfold planner_try.
  destruct (summarize llm (planner_prompt query) 300) as [raw|e] eqn:Es;
    simpl; [|exact Hfb].
  destruct (re_search_array raw) as [m|] eqn:Em; simpl; [|exact Hfb].
  destruct (re_search_array_head _ Em) as [r ->].
  destruct (Json.loads ("["%char :: r)) as [v|e] eqn:El; simpl; [|exact Hfb].
  destruct (loads_array _ El) as [parsed ->].
  simpl.
  destruct (backfill_all query 0 parsed) as [tasks|e] eqn:Eb; simpl;
    [|exact Hfb].
  destruct (backfill_all_complete _ _ _ Eb) as [Hall Hlen].
  exists tasks. split; [reflexivity|]. split; [exact Hall|].
  right. right. exists raw, ("["%char :: r), parsed. tauto.
Qed.

(** C7 (as stated) fails: a model that answers with an empty array makes
    [plan_tasks] return a plan without any task, and one that answers with
    seven objects a plan of seven tasks. *)
Lemma llm_plans_out_of_range :
  plan_tasks (llm_answering (str "Here is the plan: []")) (str "climate change")
  = Ok (JArr [])
  /\ exists tasks : list json,
       plan_tasks (llm_answering (str "[{},{},{},{},{},{},{}]"))
                  (str "climate change")
       = Ok (JArr tasks)
       /\ List.length tasks = 7.
Proof.
  split; [vm_compute; reflexivity|].
  eexists. split; [vm_compute; reflexivity | reflexivity].
Qed.

(** ** The research agent and the task step of [run] *)

Section RunFacts.

Variable llm : LLMAgent.
Variable build_graph : pystr -> result kg.
Variable search : json -> nat -> result (list hit).
Variable scrape : pystr -> result page.
Variable format : json -> pystr.

(** The dict [analyze] returns has exactly these seven keys. *)
Lemma analyze_keys (a : article) (short : Dict.dict pyval) :
  ResearchAgent.analyze llm build_graph a = Ok short ->
  map fst short
  = [str "summary"; str "evidence"; str "contradictions";
     str "credibility_score"; str "knowledge_graph"; str "stance";
     str "bias_note"].
Proof.
  unfold ResearchAgent.analyze.
  destruct (if nonempty (strip (a_text a)) then _ else _) as [summary|e];
    simpl; [|discriminate].
  destruct (if nonempty _ then _ else _) as [stance_result|e];
    simpl; [|discriminate].
  destruct (build_graph _) as [g|e]; simpl; [|discriminate].
  intros H. injection H as <-. reflexivity.
Qed.

Lemma analyze_no_snippets (a : article) (short : Dict.dict pyval) :
  ResearchAgent.analyze llm build_graph a = Ok short ->
  Dict.get (str "snippets") short = None.
Proof.
  intros H. apply get_None_keys. rewrite (analyze_keys _ H).
  simpl. intros Hin.
  repeat (destruct Hin as [Hin | Hin]; [discriminate Hin|]). exact Hin.
Qed.

(** The step for a task that asks for no search. *)
Lemma run_task_no_search
      (query : pystr) (max_task_results search_per_task : nat)
      (task requires_search : json) :
  task_get (str "requires_search") (JBool true) task = Ok requires_search ->
  truthy requires_search = false ->
  run_task llm build_graph search scrape format query
           max_task_results search_per_task task
  = (prompt <- task_get (str "prompt") (JStr []) task ;;
     text <- text_of prompt ;;
     _ <- ResearchAgent.analyze llm build_graph (mkArticle [] query text) ;;
     Ok (mkTaskResult task [])).
Proof.
  intros Hget Hfalse.
  unfold run_task. rewrite Hget. simpl. rewrite Hfalse.
  destruct task as [| | | | | |f]; try discriminate. simpl.
  destruct (text_of _) as [text|e]; simpl; [|reflexivity].
  destruct (ResearchAgent.analyze _ _ _) as [short|e] eqn:Ea; simpl;
    [|reflexivity].
  unfold snippets_of. rewrite (analyze_no_snippets _ Ea). reflexivity.
Qed.

(** C10: for a task whose [requires_search] is false, [run] calls
    [ResearchAgent.analyze] and, whenever that returns, records the task
    with an empty evidence list: the dict [analyze] returns has no
    ["snippets"] entry, so the loop that would build internal evidence
    items has nothing to walk. *)
Theorem no_search_task_has_no_evidence :
  forall (query : pystr) (max_task_results search_per_task : nat)
         (task requires_search : json),
    task_get (str "requires_search") (JBool true) task = Ok requires_search ->
    truthy requires_search = false ->
    run_task llm build_graph search scrape format query
             max_task_results search_per_task task
    = (prompt <- task_get (str "prompt") (JStr []) task ;;
       text <- text_of prompt ;;
       _ <- ResearchAgent.analyze llm build_graph (mkArticle [] query text) ;;
       Ok (mkTaskResult task []))
    /\ (forall a short,
          ResearchAgent.analyze llm build_graph a = Ok short ->
          Dict.get (str "snippets") short = None)
    /\ (forall r,
          run_task llm build_graph search scrape format query
                   max_task_results search_per_task task = Ok r ->
          tr_task r = task /\ tr_evidence r = []).
Proof.
  intros query n m task requires_search Hget Hfalse.
  pose proof (run_task_no_search query n m _ Hget Hfalse) as Hrun.
  split; [exact Hrun|]. split; [apply analyze_no_snippets|].
  intros r. rewrite Hrun.
  destruct (task_get (str "prompt") (JStr []) task) as [prompt|e]; simpl;
    [|discriminate].
  destruct (text_of prompt) as [text|e]; simpl; [|discriminate].
  destruct (ResearchAgent.analyze _ _ _) as [short|e]; simpl; [|discriminate].
  intros H. injection H as <-. split; reflexivity.
Qed.

End RunFacts.

Lemma analyze_offline (a : article) :
  exists short, ResearchAgent.analyze offline_llm empty_graph a = Ok short.
Proof.
  unfold ResearchAgent.analyze, offline_llm, empty_graph. cbn [summarize analyze_claims].
  destruct (nonempty (strip (a_text a))); cbn [bind];
    destruct (nonempty _); cbn [bind]; eexists; reflexivity.
Qed.

(** With the model not configured, an empty graph and no search hit, the
    third task of the template is analysed and recorded without evidence. *)
Lemma offline_implications_task :
  let t3 := task (str "t3") (str "implications")
                 (str "Implications & open questions for 'vaccine safety'")
                 false in
  run_task offline_llm empty_graph no_hits blank_scraper (fun _ => [])
           (str "vaccine safety") 4 6 t3
  = Ok (mkTaskResult t3 []).
Proof.
  intros t3.
  rewrite (@run_task_no_search offline_llm empty_graph no_hits blank_scraper
             (fun _ => []) (str "vaccine safety") 4 6 t3 (JBool false)
             eq_refl eq_refl).
  cbn [t3 task task_get Dict.get_default Dict.get bind].
  change (Dict.get_default (str "prompt") (JStr []) _)
    with (JStr (str "Implications & open questions for 'vaccine safety'")).
  cbn [bind text_of truthy nonempty str list_ascii_of_string negb].
  destruct (analyze_offline
              (mkArticle [] (str "vaccine safety")
                 (str "Implications & open questions for 'vaccine safety'")))
    as [short E].
  cbn [str list_ascii_of_string] in E. rewrite E. reflexivity.
Qed.

Lemma no_search_task_has_no_evidence_witness :
  let t3 := task (str "t3") (str "implications")
                 (str "Implications & open questions for 'vaccine safety'")
                 false in
  run_task offline_llm empty_graph no_hits blank_scraper (fun _ => [])
           (str "vaccine safety") 4 6 t3
  = (prompt <- task_get (str "prompt") (JStr []) t3 ;;
     text <- text_of prompt ;;
     _ <- ResearchAgent.analyze offline_llm empty_graph
            (mkArticle [] (str "vaccine safety") text) ;;
     Ok (mkTaskResult t3 []))
  /\ (forall a short,
        ResearchAgent.analyze offline_llm empty_graph a = Ok short ->
        Dict.get (str "snippets") short = None)
  /\ (forall r,
        run_task offline_llm empty_graph no_hits blank_scraper (fun _ => [])
                 (str "vaccine safety") 4 6 t3 = Ok r ->
        tr_task r = t3 /\ tr_evidence r = []).
Proof.
  apply (@no_search_task_has_no_evidence offline_llm empty_graph no_hits
           blank_scraper (fun _ => []) (str "vaccine safety") 4 6
           (task (str "t3") (str "implications")
                 (str "Implications & open questions for 'vaccine safety'")
                 false)
           (JBool false)).
  - reflexivity.
  - reflexivity.
Defined.

(** ** The endpoint *)

Section RouterFacts.

Variable run_output : Type.
Variable run : pystr -> result run_output.
Variable scrape : pystr -> result page.
Variable llm : LLMAgent.
Variable build_graph : pystr -> result kg.
Variable _has_nx : bool.
Variable exn_text : exn -> pystr.

Lemma agentic_detect_without_fields (req : AgenticRequest) :
  given (req_url req) = false ->
  given (req_query req) = false ->
  agentic_detect run scrape llm build_graph _has_nx exn_text req
  = Raise (HTTPException 500
             (str "Agentic detect failed: "
              ++ exn_text (HTTPException 400
                             (str "Provide either 'url' or 'query'.")))).
Proof.
  intros Hu Hq. unfold agentic_detect, agentic_detect_try.
  rewrite Hu, Hq. reflexivity.
Qed.

(** C9 (the code at the failing input): a request with neither a query
    nor a url raises the 400 error inside the [try] block, where the
    handler for every exception catches it and raises a 500 error in its
    place; the response has status 500. *)
Theorem agentic_detect_neither_is_500 :
  http_status (agentic_detect run scrape llm build_graph _has_nx exn_text
                              (mkRequest None None)) = 500
  /\ http_status (agentic_detect_try run scrape llm build_graph _has_nx
                                     (mkRequest None None)) = 400.
Proof.
  split.
  - rewrite agentic_detect_without_fields by reflexivity. reflexivity.
  - reflexivity.
Qed.

End RouterFacts.

(** ** Further properties: white space, the collector, the normalizer *)

Lemma split_ws_from_word (w rest cur : pystr) :
  forallb (fun c => negb (isspace c)) w = true ->
  split_ws_from cur (w ++ rest) = split_ws_from (rev w ++ cur) rest.
Proof.
  revert cur; induction w as [|c w IH]; intros cur H; simpl; [reflexivity|].
  simpl in H. apply andb_prop in H as [Hc Hw].
  apply negb_true_iff in Hc. rewrite Hc, IH by exact Hw.
  rewrite <- app_assoc. reflexivity.
Qed.

Lemma flush_rev_word (w : pystr) : w <> [] -> flush (rev w) = [w].
Proof.
  intros H. unfold flush. destruct (rev w) as [|c r] eqn:E.
  - apply (f_equal (@rev ascii)) in E. rewrite rev_involutive in E.
    simpl in E. contradiction.
  - rewrite <- E, rev_involutive. reflexivity.
Qed.

(** Splitting the joined words gives the words back. *)
Lemma split_ws_join (ws : list pystr) :
  Forall word ws -> split_ws (join (str " ") ws) = ws.
Proof.
  unfold split_ws. induction 1 as [|w ws [Hne Hw] Hws IH]; [reflexivity|].
  destruct ws as [|w2 ws].
  - pose proof (@split_ws_from_word w [] [] Hw) as E.
    rewrite !app_nil_r in E. simpl. rewrite E.
    apply flush_rev_word. exact Hne.
  - change (join (str " ") (w :: w2 :: ws))
      with (w ++ " "%char :: join (str " ") (w2 :: ws)).
    rewrite split_ws_from_word by exact Hw.
    rewrite app_nil_r.
    change (split_ws_from (rev w) (" "%char :: join (str " ") (w2 :: ws)))
      with (flush (rev w) ++ split_ws_from [] (join (str " ") (w2 :: ws))).
    rewrite flush_rev_word by exact Hne.
    rewrite IH. reflexivity.
Qed.

(** X1: collapsing white space is idempotent: a text that fits the budget
    once its white space is collapsed is left unchanged by a second pass of
    [_norm_text]. *)
Theorem _norm_text_idempotent :
  forall (t : pystr) (n : nat),
    List.length (collapsed t) <= n ->
    _norm_text (_norm_text t n) n = _norm_text t n
    /\ _norm_text t n = collapsed t.
Proof.
  intros t n Hfit.
  assert (H1 : _norm_text t n = collapsed t).
  { rewrite _norm_text_unfold. cbv zeta. fold (collapsed t).
    apply Nat.leb_le in Hfit. rewrite Hfit. reflexivity. }
  split; [|exact H1].
  rewrite H1, _norm_text_unfold. cbv zeta.
  unfold collapsed at 1 2 3. rewrite split_ws_join by apply split_ws_words.
  fold (collapsed t). apply Nat.leb_le in Hfit. rewrite Hfit. reflexivity.
Qed.

Lemma _norm_text_idempotent_witness :
  _norm_text (_norm_text (str "  the quick   brown fox ") 400) 400
  = _norm_text (str "  the quick   brown fox ") 400
  /\ _norm_text (str "  the quick   brown fox ") 400
     = collapsed (str "  the quick   brown fox ").
Proof.
  apply (@_norm_text_idempotent (str "  the quick   brown fox ") 400).
  vm_compute. repeat constructor.
Defined.

(** *** The collector *)

Lemma evidence_of_hit_url (r : hit) (u : pystr) (pg : page) (item : evidence) :
  evidence_of_hit r u pg = Ok item -> url item = u.
Proof.
  unfold evidence_of_hit. destruct (hit_domain r u); simpl; [|discriminate].
  intros H. injection H as <-. reflexivity.
Qed.

Lemma first_occurrences_urls (results : list hit) :
  forall seen,
    NoDup (map h_url (first_occurrences results seen))
    /\ (forall r, In r (first_occurrences results seen) ->
                  In r results /\ nonempty (h_url r) = true
                  /\ ~ In (h_url r) seen).
Proof.
  induction results as [|r rest IH]; intros seen; simpl.
  - split; [constructor | intros r []].
  - destruct (negb (nonempty (h_url r))) eqn:Hne; simpl.
    + destruct (IH seen) as [Hnd Hin]. split; [exact Hnd|].
      intros x Hx. destruct (Hin x Hx) as (H1 & H2 & H3). tauto.
    + destruct (existsb (PyStr.eqb (h_url r)) seen) eqn:Hseen.
      * destruct (IH seen) as [Hnd Hin]. split; [exact Hnd|].
        intros x Hx. destruct (Hin x Hx) as (H1 & H2 & H3). tauto.
      * destruct (IH (h_url r :: seen)) as [Hnd Hin]. split.
        -- simpl. constructor; [|exact Hnd].
           intros Hr. apply in_map_iff in Hr as (x & Hxu & Hx).
           destruct (Hin x Hx) as (_ & _ & H3). apply H3. left.
           symmetry. exact Hxu.
        -- intros x [<- | Hx].
           ++ split; [tauto|]. split; [apply negb_false_iff; exact Hne|].
              intros Hs.
              assert (existsb (PyStr.eqb (h_url r)) seen = true).
              { apply existsb_exists. exists (h_url r).
                split; [exact Hs | apply eqb_refl]. }
              congruence.
           ++ destruct (Hin x Hx) as (H1 & H2 & H3).
              split; [tauto|]. split; [exact H2|].
              intros Hs. apply H3. right. exact Hs.
Qed.

(** Dropping hits keeps their urls distinct. *)
Lemma kept_hits_distinct (keep : hit -> bool) (hits : list hit) :
  NoDup (map h_url hits) -> NoDup (map h_url (filter keep hits)).
Proof.
  induction hits as [|r rest IH]; cbn [filter map]; intros Hnd; [exact Hnd|].
  inversion Hnd as [|? ? Hfresh Hrest]; subst.
  destruct (keep r); [|exact (IH Hrest)].
  cbn [map]. constructor; [|exact (IH Hrest)].
  intros Hin. apply Hfresh.
  apply in_map_iff in Hin as (r' & Hurl & Hkept).
  apply filter_In in Hkept as [Hkept _].
  rewrite <- Hurl. apply in_map. exact Hkept.
Qed.

Lemma collect_urls (scrape : pystr -> result page) (results : list hit) :
  forall seen out res,
    collect scrape results seen out = Ok res ->
    map url res
    = map url out
      ++ map h_url (filter (scraped scrape) (first_occurrences results seen)).
Proof.
  induction results as [|r rest IH]; intros seen out res; simpl.
  - intros H. injection H as <-. rewrite app_nil_r. reflexivity.
  - destruct (negb (nonempty (h_url r)) || existsb (PyStr.eqb (h_url r)) seen);
      [apply IH|].
    simpl. unfold scraped at 1.
    destruct (scrape (h_url r)) as [pg|e]; [|apply IH].
    destruct (evidence_of_hit r (h_url r) pg) as [item|e] eqn:E; simpl;
      [|discriminate].
    intros H. apply IH in H. rewrite H, map_app. simpl.
    rewrite (evidence_of_hit_url _ _ _ E), <- app_assoc. reflexivity.
Qed.

(** X2: when the collector returns, the urls of its items are, in order,
    the urls of the hits that are met first under a non-empty url and whose
    page the scraper returned; they are pairwise distinct and there are no
    more items than hits.  A url whose first scrape failed is not tried
    again, however often it recurs. *)
Theorem collected_urls :
  forall (scrape : pystr -> result page) (results : list hit)
         (out : list evidence),
    run_task_search_and_scrape scrape (Ok results) = Ok out ->
    map url out
    = map h_url (filter (scraped scrape) (first_occurrences results []))
    /\ NoDup (map url out)
    /\ Forall (fun e => nonempty (url e) = true) out
    /\ List.length out <= List.length results.
Proof.
  intros scrape results out Hrun.
  unfold run_task_search_and_scrape in Hrun. simpl in Hrun.
  pose proof (collect_urls _ _ _ _ Hrun) as Hurls. simpl in Hurls.
  destruct (first_occurrences_urls results []) as [Hnd Hin].
  split; [exact Hurls|]. split; [|split].
  - rewrite Hurls. apply kept_hits_distinct. exact Hnd.
  - apply Forall_forall. intros e He.
    apply (in_map url) in He. rewrite Hurls in He.
    apply in_map_iff in He as (r & <- & Hr).
    apply filter_In in Hr as [Hr _]. apply (Hin r Hr).
  - rewrite <- (length_map url out), Hurls, length_map.
    apply NoDup_incl_length.
    + assert (Hnd' : NoDup (filter (scraped scrape) (first_occurrences results []))).
      { apply NoDup_filter.
        apply (NoDup_map_inv h_url). exact Hnd. }
      exact Hnd'.
    + intros r Hr. apply filter_In in Hr as [Hr _]. apply (Hin r Hr).
Qed.

(** A hit of an outlet, met three times, and a scraper that knows only
    one page. *)
Lemma collected_urls_witness :
  map url [long_word_item]
  = map h_url (filter (scraped blank_scraper)
                      (first_occurrences [long_word_hit; long_word_hit] []))
  /\ NoDup (map url [long_word_item])
  /\ Forall (fun e => nonempty (url e) = true) [long_word_item]
  /\ List.length [long_word_item] <= List.length [long_word_hit; long_word_hit].
Proof.
  apply (@collected_urls blank_scraper [long_word_hit; long_word_hit]
           [long_word_item]).
  vm_compute. reflexivity.
Defined.

Lemma split_on_from_length (sep : ascii) (s : pystr) :
  forall cur, List.length (split_on_from sep cur s) = count sep s + 1.
Proof.
  unfold count. induction s as [|c s IH]; intros cur; simpl; [reflexivity|].
  destruct (is_char sep c); simpl; rewrite IH; reflexivity.
Qed.

(** [s.split(sep)] has one piece more than [s] has separators. *)
Lemma split_on_length (sep : ascii) (s : pystr) :
  List.length (split_on sep s) = count sep s + 1.
Proof. apply split_on_from_length. Qed.

Lemma hit_domain_ok (r : hit) :
  has_domain r -> exists d, hit_domain r (h_url r) = Ok d.
Proof.
  intros [H | H]; unfold hit_domain.
  - rewrite H. eexists. reflexivity.
  - destruct (nonempty (h_domain r)); [eexists; reflexivity|].
    destruct (nonempty (h_url r)); [|eexists; reflexivity].
    destruct (nth_error (split_on "/" (h_url r)) 2) as [d|] eqn:E;
      [eexists; reflexivity|].
    apply nth_error_None in E. rewrite split_on_length in E. lia.
Qed.

Lemma hit_domain_raises (r : hit) :
  nonempty (h_url r) = true -> h_domain r = [] ->
  count "/" (h_url r) < 2 ->
  hit_domain r (h_url r) = Raise IndexError.
Proof.
  intros Hu Hd Hc. unfold hit_domain. rewrite Hd, Hu.
  change (nonempty []) with false. cbv iota.
  destruct (nth_error (split_on "/" (h_url r)) 2) as [d|] eqn:E;
    [|reflexivity].
  assert (Hlt : 2 < List.length (split_on "/" (h_url r))).
  { apply nth_error_Some. congruence. }
  rewrite split_on_length in Hlt. lia.
Qed.

Lemma collect_returns (scrape : pystr -> result page) (results : list hit) :
  Forall has_domain results ->
  forall seen out, exists res, collect scrape results seen out = Ok res.
Proof.
  induction 1 as [|r rest Hr _ IH]; intros seen out; simpl.
  - eexists. reflexivity.
  - destruct (negb (nonempty (h_url r)) || existsb (PyStr.eqb (h_url r)) seen);
      [apply IH|].
    destruct (scrape (h_url r)) as [pg|e]; [|apply IH].
    unfold evidence_of_hit. destruct (hit_domain_ok Hr) as [d ->]. simpl.
    apply IH.
Qed.

Lemma evidence_of_hit_raises (r : hit) (u : pystr) (pg : page) (e : exn) :
  evidence_of_hit r u pg = Raise e -> e = IndexError.
Proof.
  unfold evidence_of_hit.
  destruct (hit_domain r u) as [d|x] eqn:E; cbn [bind]; [discriminate|].
  intros H. injection H as <-.
  unfold hit_domain in E.
  destruct (nonempty (h_domain r)); [discriminate|].
  destruct (nonempty u); [|discriminate].
  destruct (nth_error (split_on "/" u) 2); [discriminate|].
  injection E as <-. reflexivity.
Qed.

Lemma collect_raises (scrape : pystr -> result page) (results : list hit) :
  forall seen out e,
    collect scrape results seen out = Raise e -> e = IndexError.
Proof.
  induction results as [|r rest IH]; intros seen out e; cbn [collect];
    [discriminate|].
  destruct (negb (nonempty (h_url r)) || existsb (PyStr.eqb (h_url r)) seen);
    [apply IH|].
  destruct (scrape (h_url r)) as [pg|x]; [|apply IH].
  destruct (evidence_of_hit r (h_url r) pg) as [item|x] eqn:E; cbn [bind];
    [apply IH|].
  intros H. injection H as <-. apply (evidence_of_hit_raises _ _ _ E).
Qed.

(** X3: a failing scrape never makes the collector fail: the hit is
    skipped.  The collector returns whenever each hit names its domain or
    has a url with at least two slashes, and an [IndexError] is the only
    exception it raises on its own; it raises it for a first hit that is
    scraped, names no domain and whose url has fewer than two slashes. *)
Theorem collector_failures :
  forall (scrape : pystr -> result page) (results : list hit),
    (Forall has_domain results ->
     exists out, run_task_search_and_scrape scrape (Ok results) = Ok out)
    /\ (forall e, run_task_search_and_scrape scrape (Ok results) = Raise e ->
                  e = IndexError)
    /\ (forall r rest pg,
          results = r :: rest ->
          nonempty (h_url r) = true -> scrape (h_url r) = Ok pg ->
          h_domain r = [] -> count "/" (h_url r) < 2 ->
          run_task_search_and_scrape scrape (Ok results) = Raise IndexError).
Proof.
  intros scrape results. split; [|split].
  - intros H. apply collect_returns. exact H.
  - intros e. apply collect_raises.
  - intros r rest pg -> Hu Hs Hd Hc.
    unfold run_task_search_and_scrape. simpl. rewrite Hu, Hs. simpl.
    unfold evidence_of_hit. rewrite (hit_domain_raises r Hu Hd Hc).
    reflexivity.
Qed.

Lemma collector_failures_witness :
  run_task_search_and_scrape blank_scraper
    (Ok [mkHit [] [] (str "example.org/page") [] [] None])
  = Raise IndexError.
Proof.
  destruct (collector_failures blank_scraper
              [mkHit [] [] (str "example.org/page") [] [] None])
    as (_ & _ & H).
  apply (H (mkHit [] [] (str "example.org/page") [] [] None) [] (mkPage [] []));
    [reflexivity | reflexivity | reflexivity | reflexivity | vm_compute; lia].
Defined.

(** *** The normalizer *)

Section NormalizerMore.

#[local] Open Scope R_scope.

Lemma identity_key_url (e : evidence) :
  nonempty (url e) = true -> identity_key e = url e.
Proof. intros H. unfold identity_key, py_or. rewrite H. reflexivity. Qed.

(** X4: the collector and the normalizer compose without loss: the items
    the collector returns have distinct urls, so normalizing them merges
    nothing; the result is a reordering of the same items with their
    relevance set, item for item. *)
Theorem normalize_collected :
  forall (scrape : pystr -> result page) (results : list hit)
         (raw_hits : list evidence),
    run_task_search_and_scrape scrape (Ok results) = Ok raw_hits ->
    Permutation (normalize_and_score_evidence raw_hits)
                (map score_item raw_hits)
    /\ List.length (normalize_and_score_evidence raw_hits)
       = List.length raw_hits.
Proof.
  intros scrape results raw_hits Hrun.
  assert (Hnd : NoDup (map identity_key raw_hits)).
  { unfold run_task_search_and_scrape in Hrun. simpl in Hrun.
    pose proof (collect_urls _ _ _ _ Hrun) as Hurls. simpl in Hurls.
    destruct (first_occurrences_urls results []) as [Hnd Hin].
    assert (Hk : map identity_key raw_hits = map url raw_hits).
    { apply map_ext_in. intros e He. apply identity_key_url.
      apply (in_map url) in He. rewrite Hurls in He.
      apply in_map_iff in He as (r & <- & Hr).
      apply filter_In in Hr as [Hr _]. apply (Hin r Hr). }
    rewrite Hk, Hurls. apply kept_hits_distinct. exact Hnd. }
  assert (Hp : Permutation (normalize_and_score_evidence raw_hits)
                           (map score_item raw_hits)).
  { unfold normalize_and_score_evidence.
    rewrite dedup_pass_distinct by exact Hnd. apply sort_desc_perm. }
  split; [exact Hp|].
  rewrite (Permutation_length Hp). apply length_map.
Qed.

Lemma normalize_collected_witness :
  Permutation (normalize_and_score_evidence [long_word_item])
              (map score_item [long_word_item])
  /\ List.length (normalize_and_score_evidence [long_word_item])
     = List.length [long_word_item].
Proof.
  apply (@normalize_collected blank_scraper [long_word_hit] [long_word_item]).
  vm_compute. reflexivity.
Defined.

Lemma insert_desc_with_relevance (x : R) (e : evidence) (l : list evidence) :
  with_relevance x (insert_desc e l) = with_relevance x (e :: l).
Proof.
  unfold with_relevance. induction l as [|y l IH]; [reflexivity|].
  simpl insert_desc. destruct (Rlt_dec _ _) as [Hlt|Hge]; [|reflexivity].
  simpl in *. rewrite IH.
  destruct (Req_dec_T (get_relevance 0 e) x) as [He|He]; [|reflexivity].
  destruct (Req_dec_T (get_relevance 0 y) x) as [Hy|Hy]; [lra | reflexivity].
Qed.

Lemma sort_desc_with_relevance (x : R) (l : list evidence) :
  with_relevance x (sort_desc l) = with_relevance x l.
Proof.
  induction l as [|e l IH]; [reflexivity|].
  simpl sort_desc. rewrite insert_desc_with_relevance.
  unfold with_relevance in *. simpl. rewrite IH. reflexivity.
Qed.

Lemma normalize_length (l : list evidence) :
  (List.length (normalize_and_score_evidence l) <= List.length l)%nat.
Proof.
  rewrite <- (length_map identity_key (normalize_and_score_evidence l)).
  rewrite <- (length_map identity_key l).
  apply NoDup_incl_length; [apply normalize_keys_NoDup|].
  intros k Hk. apply in_map_iff in Hk as (it & <- & Hit).
  apply normalize_facts in Hit as (v & -> & _ & (x & Hx & Hxk & _) & _).
  rewrite identity_key_score_item, <- Hxk. apply in_map. exact Hx.
Qed.

(** X5: the normalizer returns its items by non-increasing relevance, and
    items of equal relevance in the order in which their keys were first
    met; it never returns more items than it was given, and every item it
    returns has a relevance. *)
Theorem normalize_ordered :
  forall l : list evidence,
    let out := normalize_and_score_evidence l in
    descending out
    /\ (forall x, with_relevance x out
                  = with_relevance x (map score_item (Dict.values (dedup_pass l))))
    /\ (List.length out <= List.length l)%nat
    /\ Forall (fun it => relevance it = Some (relevance_of it)) out.
Proof.
  intros l out. split; [apply sort_desc_descending|]. split; [|split].
  - intros x. apply sort_desc_with_relevance.
  - apply normalize_length.
  - apply Forall_forall. intros it Hit.
    apply normalize_In in Hit as (v & -> & _). reflexivity.
Qed.

End NormalizerMore.

(** ** Further properties: ranking and credibility *)

Section RankingMore.

#[local] Open Scope R_scope.

Lemma log1p_le (x y : R) : 0 <= x -> x <= y -> log1p x <= log1p y.
Proof.
  intros Hx [Hlt | ->]; [|lra]. left. apply log1p_lt; assumption.
Qed.

Lemma length_factor_mono (s t : pystr) :
  (List.length s <= List.length t)%nat -> length_factor s <= length_factor t.
Proof.
  intros H. unfold length_factor.
  apply Rle_min_compat_l.
  assert (H4 : 0 < log1p 4000) by (apply log1p_pos; lra).
  apply Rmult_le_compat_r; [left; apply Rinv_0_lt_compat; exact H4|].
  apply log1p_le; [apply pos_INR|]. apply le_INR. lia.
Qed.

Lemma length_factor_saturated (t : pystr) :
  (4000 <= List.length t)%nat -> length_factor t = 1.
Proof.
  intros H. unfold length_factor. apply Rmin_left.
  assert (H4 : 0 < log1p 4000) by (apply log1p_pos; lra).
  apply Rmult_le_reg_r with (log1p 4000); [exact H4|].
  unfold Rdiv. rewrite Rmult_assoc, Rinv_l, Rmult_1_l, Rmult_1_r by lra.
  apply log1p_le; [lra|].
  replace 4000 with (INR 4000) by (simpl; lra).
  apply le_INR. lia.
Qed.

(** X6: with the domain and a non-negative score held fixed, a longer text
    never ranks lower, and beyond 4000 characters more text brings nothing:
    the length factor is saturated at 1. *)
Theorem relevance_grows_with_text :
  forall a b : evidence,
    domain a = domain b ->
    get_score 1 a = get_score 1 b ->
    0 <= get_score 1 a ->
    (List.length (text a) <= List.length (text b))%nat ->
    relevance_of a <= relevance_of b
    /\ ((4000 <= List.length (text a))%nat ->
        length_factor (text a) = 1 /\ relevance_of a = relevance_of b).
Proof.
  intros a b Hd Hs H0 Hlen.
  pose proof (length_factor_mono _ _ Hlen) as Hlf.
  pose proof (dom_score_unit (domain b)) as [Hd0 _].
  split.
  - unfold relevance_of. rewrite Hd, Hs in *. apply py_round_mono.
    apply Rmult_le_compat_l; [apply Rmult_le_pos; lra | lra].
  - intros H4. split; [apply length_factor_saturated; exact H4|].
    unfold relevance_of.
    rewrite Hd, Hs, !length_factor_saturated by lia. reflexivity.
Qed.

Lemma relevance_grows_with_text_witness :
  relevance_of short_item <= relevance_of (set_score 0.4 long_item)
  /\ ((4000 <= List.length (text short_item))%nat ->
      length_factor (text short_item) = 1
      /\ relevance_of short_item = relevance_of (set_score 0.4 long_item)).
Proof.
  apply (@relevance_grows_with_text short_item (set_score 0.4 long_item)).
  - reflexivity.
  - reflexivity.
  - change (0 <= 0.4). lra.
  - change (50 <= 500)%nat. lia.
Defined.

(** X7: identity keys of different kinds collide: an item without url
    whose source id equals the url of another item is merged with it; and
    two items that have neither url nor source id are merged as soon as
    their snippets are equal, whatever their texts and titles. *)
Theorem identity_keys_collide :
  forall a b : evidence,
    (nonempty (url a) = true -> url b = [] -> source_id b = url a ->
     exists it, normalize_and_score_evidence [a; b] = [it])
    /\ (url a = [] -> source_id a = [] -> url b = [] -> source_id b = [] ->
        snippet a = snippet b ->
        exists it, normalize_and_score_evidence [a; b] = [it]).
Proof.
  intros a b. split.
  - intros Ha Hb Hs. eexists. apply normalize_pair.
    unfold identity_key, py_or. rewrite Ha, Hb, Hs, Ha. reflexivity.
  - intros Ha Hsa Hb Hsb Hsn. eexists. apply normalize_pair.
    unfold identity_key, py_or. rewrite Ha, Hsa, Hb, Hsb, Hsn. reflexivity.
Qed.

Lemma identity_keys_collide_witness :
  exists it,
    normalize_and_score_evidence
      [short_item;
       mkEvidence (str "https://example.org/a") [] (str "Other") (str "else")
                  (str "another page") (str "elsewhere.org") (Some 0.7) None]
    = [it].
Proof.
  destruct (identity_keys_collide short_item
              (mkEvidence (str "https://example.org/a") [] (str "Other")
                 (str "else") (str "another page") (str "elsewhere.org")
                 (Some 0.7) None)) as [H _].
  apply H; reflexivity.
Defined.

End RankingMore.

Lemma lower_char_idem (c : ascii) : lower_char (lower_char c) = lower_char c.
Proof.
  destruct c as [[|] [|] [|] [|] [|] [|] [|] [|]]; reflexivity.
Qed.

Lemma lower_idem (s : pystr) : lower (lower s) = lower s.
Proof.
  unfold lower. rewrite map_map. apply map_ext. apply lower_char_idem.
Qed.

Lemma nonempty_lower (s : pystr) : nonempty (lower s) = nonempty s.
Proof. destruct s; reflexivity. Qed.

Section CredibilityMore.

#[local] Open Scope R_scope.

Import CredibilityEngine.

Variable _has_nx : bool.

Lemma clamp_unit (x : R) : 0 <= Rmax 0 (Rmin 1 x) <= 1.
Proof.
  split; [apply Rmax_l|]. apply Rmax_lub; [lra | apply Rmin_l].
Qed.

Lemma clamp_mono (x y : R) : x <= y -> Rmax 0 (Rmin 1 x) <= Rmax 0 (Rmin 1 y).
Proof.
  intros H. apply Rle_max_compat_l. apply Rle_min_compat_l. exact H.
Qed.

Lemma bias_penalty_range (note : pystr) : 0 <= _bias_penalty note <= 0.18.
Proof.
  unfold _bias_penalty. destruct (negb (nonempty note)); [lra|].
  destruct (_ || _); [lra|]. destruct (contains _ _); lra.
Qed.

(** X8: the credibility score is a number of [0,1] for every article,
    graph, stance and bias note, whatever the support the stance claims;
    and a bias note never raises it: the score is at most the score under
    an empty note, the values before clamping differing by at most 0.18. *)
Theorem score_in_unit_interval :
  forall (art : article) (kg_data : option kg) (st : option stance)
         (bias_note : pystr),
    0 <= score _has_nx art kg_data st bias_note <= 1
    /\ score _has_nx art kg_data st bias_note
       <= score _has_nx art kg_data st []
    /\ 0 <= pre_clamp _has_nx art kg_data st []
            - pre_clamp _has_nx art kg_data st bias_note <= 0.18.
Proof.
  intros art kg_data st bias_note.
  pose proof (bias_penalty_range bias_note) as Hb.
  split; [apply py_round_unit, clamp_unit|]. split.
  - unfold score. apply py_round_mono, clamp_mono.
    unfold pre_clamp. rewrite bias_penalty_empty. lra.
  - unfold pre_clamp. rewrite bias_penalty_empty. lra.
Qed.

(** X9: the credibility score never decreases when the support of the
    stance increases, everything else unchanged. *)
Theorem score_grows_with_support :
  forall (art : article) (kg_data : option kg) (bias_note : pystr)
         (s1 s2 : R),
    s1 <= s2 ->
    score _has_nx art kg_data (Some (stance_with s1)) bias_note
    <= score _has_nx art kg_data (Some (stance_with s2)) bias_note.
Proof.
  intros art kg_data bias_note s1 s2 H.
  unfold score. apply py_round_mono, clamp_mono.
  unfold pre_clamp, raw. simpl. lra.
Qed.

(** X10: the url and the bias note are read without regard to letter
    case: two urls, or two notes, that differ only in case get the same
    domain score, the same penalty. *)
Theorem scores_ignore_case :
  forall u u' : pystr,
    lower u = lower u' ->
    _domain_reliability_score u = _domain_reliability_score u'
    /\ _bias_penalty u = _bias_penalty u'.
Proof.
  intros u u' H.
  assert (Hn : nonempty u = nonempty u').
  { rewrite <- (nonempty_lower u), <- (nonempty_lower u'), H. reflexivity. }
  unfold _domain_reliability_score, _bias_penalty. rewrite Hn, H.
  split; reflexivity.
Qed.

End CredibilityMore.

Lemma score_grows_with_support_witness :
  (CredibilityEngine.score true sample_article None
     (Some (stance_with 0.2)) []
   <= CredibilityEngine.score true sample_article None
        (Some (stance_with 0.9)) [])%R.
Proof.
  apply (@score_grows_with_support true sample_article None [] 0.2 0.9)%R.
  lra.
Defined.

Lemma scores_ignore_case_witness :
  CredibilityEngine._domain_reliability_score (str "HTTPS://WWW.BBC.COM/News")
  = CredibilityEngine._domain_reliability_score (str "https://www.bbc.com/news")
  /\ CredibilityEngine._bias_penalty (str "HTTPS://WWW.BBC.COM/News")
     = CredibilityEngine._bias_penalty (str "https://www.bbc.com/news").
Proof.
  apply (@scores_ignore_case (str "HTTPS://WWW.BBC.COM/News")
           (str "https://www.bbc.com/news")).
  reflexivity.
Defined.

(** *** The centrality score *)

Section CentralityMore.

#[local] Open Scope R_scope.

Import CredibilityEngine.

Lemma add_node_edges (x : pystr) (G : Nx.Graph) :
  Nx.g_edges (Nx.add_node x G) = Nx.g_edges G.
Proof. unfold Nx.add_node. destruct (Nx.has_node x G); reflexivity. Qed.

Lemma add_node_nodes (x : pystr) (G : Nx.Graph) :
  In x (Nx.g_nodes (Nx.add_node x G))
  /\ (forall y, In y (Nx.g_nodes G) -> In y (Nx.g_nodes (Nx.add_node x G))).
Proof.
  unfold Nx.add_node, Nx.has_node.
  destruct (existsb (PyStr.eqb x) (Nx.g_nodes G)) eqn:E; simpl.
  - split; [|tauto]. apply existsb_exists in E as (y & Hy & Hxy).
    apply eqb_eq in Hxy. subst y. exact Hy.
  - split; [apply in_or_app; right; left; reflexivity|].
    intros y Hy. apply in_or_app. left. exact Hy.
Qed.

Lemma add_nodes_result (ns : list kg_node) :
  forall G G',
    add_nodes ns G = Ok G' ->
    Nx.g_edges G' = Nx.g_edges G
    /\ (forall y, In y (Nx.g_nodes G) -> In y (Nx.g_nodes G'))
    /\ (forall n x, In n ns -> node_name n = Some x -> In x (Nx.g_nodes G')).
Proof.
  induction ns as [|n ns IH]; intros G G'; simpl.
  - intros H. injection H as <-. split; [reflexivity|]. split; [tauto|].
    intros n x [].
  - fold (node_name n). destruct (node_name n) as [nid|] eqn:En; [|discriminate].
    intros H. destruct (IH _ _ H) as (He & Hold & Hnew).
    destruct (add_node_nodes nid G) as [Hin Hkeep].
    split; [rewrite He; apply add_node_edges|]. split.
    + intros y Hy. apply Hold, Hkeep, Hy.
    + intros m x [<- | Hm] Hx.
      * rewrite En in Hx. injection Hx as <-. apply Hold, Hin.
      * apply (Hnew m x Hm Hx).
Qed.

Lemma add_nodes_unnamed (ns : list kg_node) :
  Exists (fun n => node_name n = None) ns ->
  forall G, add_nodes ns G = Raise ValueError.
Proof.
  induction 1 as [n ns Hn | n ns _ IH]; intros G; simpl; fold (node_name n).
  - rewrite Hn. reflexivity.
  - destruct (node_name n); [apply IH | reflexivity].
Qed.

Lemma two_members {A : Type} (a b : A) (l : list A) :
  a <> b -> In a l -> In b l -> (2 <= List.length l)%nat.
Proof.
  intros Hab Ha Hb. destruct l as [|x [|y l]]; simpl in *; try lia; try tauto.
  destruct Ha as [<- | []], Hb as [<- | []]. contradiction.
Qed.

Lemma sum_zero (l : list R) : Forall (fun x => x = 0) l -> sum l = 0.
Proof. induction 1 as [|x l Hx _ IH]; simpl; [reflexivity|]. lra. Qed.

(** X11: the edge cases of the centrality score.  Without networkx every
    graph scores 0.5; so does, whatever else it holds, a graph with a node
    that has no id, label or text, because adding it fails; a graph
    without nodes and links (what [build_graph] gives for a text without
    entities) scores 0.45, less than no graph at all; and a graph of two or
    more distinct named nodes without links scores 0. *)
Theorem centrality_edge_cases :
  forall g : kg,
    _kg_centrality_score false (Some g) = 0.5
    /\ (Exists (fun n => node_name n = None) (nodes g) ->
        _kg_centrality_score true (Some g) = 0.5)
    /\ (nodes g = [] -> links g = [] ->
        _kg_centrality_score true (Some g) = 0.45)
    /\ (forall n1 n2 a b,
          Forall (fun n => node_name n <> None) (nodes g) ->
          links g = [] ->
          In n1 (nodes g) -> In n2 (nodes g) ->
          node_name n1 = Some a -> node_name n2 = Some b -> a <> b ->
          _kg_centrality_score true (Some g) = 0).
Proof.
  intros g. split; [reflexivity|]. split; [|split].
  - intros H. unfold _kg_centrality_score, centrality_of. cbn [negb].
    rewrite (add_nodes_unnamed H). reflexivity.
  - intros Hn Hl. unfold _kg_centrality_score, centrality_of.
    rewrite Hn, Hl. reflexivity.
  - intros n1 n2 a b Hall Hl H1 H2 Ha Hb Hab.
    unfold _kg_centrality_score, centrality_of. cbn [negb]. rewrite Hl.
    destruct (add_nodes (nodes g) Nx.empty) as [G0|e] eqn:E.
    2:{ exfalso. revert E. generalize Nx.empty. clear - Hall.
        induction Hall as [|n ns Hn _ IH]; intros G; simpl; [discriminate|].
        fold (node_name n). destruct (node_name n) as [x|];
          [apply IH | exfalso; apply Hn; reflexivity]. }
    cbn [bind add_links].
    destruct (add_nodes_result _ _ E) as (He & _ & Hnew).
    assert (Hlen : (2 <= Nx.number_of_nodes G0)%nat).
    { apply (@two_members _ a b); [exact Hab | |].
      - apply (Hnew n1 a H1 Ha).
      - apply (Hnew n2 b H2 Hb). }
    assert (E1 : (Nx.number_of_nodes G0 <? 2)%nat = false)
      by (apply Nat.ltb_ge; exact Hlen).
    rewrite E1.
    assert (Hz : Forall (fun x => x = 0) (Nx.degree_centrality G0)).
    { unfold Nx.degree_centrality.
      assert (E2 : (Nx.number_of_nodes G0 <=? 1)%nat = false)
        by (apply Nat.leb_gt; lia).
      rewrite E2. apply Forall_forall. intros x Hx.
      apply in_map_iff in Hx as (n & <- & _).
      unfold Nx.degree. rewrite He. simpl. lra. }
    rewrite (sum_zero Hz).
    replace (Rmin 0.95 (0 / INR (List.length (Nx.degree_centrality G0)) * 1.5))
      with 0.
    + apply py_round_0.
    + unfold Rdiv. rewrite Rmult_0_l, Rmult_0_l. symmetry.
      apply Rmin_right. lra.
Qed.

End CentralityMore.

Lemma centrality_edge_cases_witness :
  CredibilityEngine._kg_centrality_score true
    (Some (mkKg [mkNode (Some (str "n0")) (Some (str "Paris")) None;
                 mkNode (Some (str "n1")) (Some (str "Rome")) None] []))
  = 0%R.
Proof.
  destruct (centrality_edge_cases
              (mkKg [mkNode (Some (str "n0")) (Some (str "Paris")) None;
                     mkNode (Some (str "n1")) (Some (str "Rome")) None] []))
    as (_ & _ & _ & H).
  apply (H (mkNode (Some (str "n0")) (Some (str "Paris")) None)
           (mkNode (Some (str "n1")) (Some (str "Rome")) None)
           (str "n0") (str "n1")).
  - repeat constructor; discriminate.
  - reflexivity.
  - left. reflexivity.
  - right. left. reflexivity.
  - reflexivity.
  - reflexivity.
  - discriminate.
Defined.

(** ** Further properties: the model wrapper, the scraper, the endpoints *)

Lemma _safe_truncate_length (text : pystr) (n : nat) :
  List.length (LLM._safe_truncate text n) <= n + 3.
Proof.
  unfold LLM._safe_truncate. destruct (negb (nonempty text)); [simpl; lia|].
  destruct (List.length text <=? n) eqn:E.
  - apply Nat.leb_le in E. lia.
  - rewrite length_app.
    pose proof (rsplit1_head_length " " (firstn n text)) as H.
    rewrite length_firstn in H.
    change (List.length (str "...")) with 3. lia.
Qed.

(** X12: [summarize] never raises.  An empty text, a missing model and a
    failing model call each give a mock summary of bounded length: at most
    [max_tokens + 10] characters without a model, at most [max_tokens + 36]
    when the call fails (31 for an empty text); otherwise the reply of the
    model is returned as it is. *)
Theorem summarize_never_raises :
  forall (available : bool) (call : pystr -> pystr -> nat -> result pystr)
         (text : pystr) (max_tokens : nat) (lang : option pystr),
    exists out : pystr,
      LLM.summarize available call text max_tokens lang = Ok out
      /\ (strip text = [] -> out = str "(mock) No content to summarize.")
      /\ (available = false ->
          List.length out <= Nat.max 31 (max_tokens + 10))
      /\ ((forall s u n, raised (call s u n) = true) ->
          List.length out <= Nat.max 31 (max_tokens + 36))
      /\ (available = false ->
          forall call' lang',
            LLM.summarize available call' text max_tokens lang' = Ok out)
      /\ (available = true -> strip text <> [] ->
          forall reply,
            (forall u, call LLM.summarize_system u max_tokens = Ok reply) ->
            out = reply).
Proof.
  intros available call text max_tokens lang.
  unfold LLM.summarize.
  pose proof (_safe_truncate_length (strip text) max_tokens) as Ht.
  destruct (strip text) as [|c t] eqn:Es.
  - exists (str "(mock) No content to summarize."). cbn [nonempty negb].
    assert (Hl : List.length (str "(mock) No content to summarize.") = 31)
      by reflexivity.
    split; [reflexivity|]. split; [reflexivity|].
    split; [intros _; rewrite Hl; lia|].
    split; [intros _; rewrite Hl; lia|].
    split; [intros _ call' lang'; reflexivity|].
    intros _ Hne. congruence.
  - cbn [nonempty negb]. destruct available; cbn [negb].
    + set (user := match lang with Some (a :: l) => _ | _ => _ end).
      destruct (call LLM.summarize_system user max_tokens) as [reply|e] eqn:Ec;
        cbn [try_except].
      * exists reply. split; [reflexivity|]. split; [discriminate|].
        split; [discriminate|]. split.
        -- intros Hall. specialize (Hall LLM.summarize_system user max_tokens).
           rewrite Ec in Hall. discriminate.
        -- split; [discriminate|]. intros _ _ r Hall. specialize (Hall user).
           congruence.
      * eexists. split; [reflexivity|]. split; [discriminate|].
        split; [discriminate|]. split.
        -- intros _. rewrite length_app.
           change (List.length (str "(mock fallback due to LLM error) ")) with 33.
           lia.
        -- split; [discriminate|]. intros _ _ r Hall. specialize (Hall user).
           congruence.
    + eexists. split; [reflexivity|]. split; [discriminate|]. split.
      * intros _. rewrite length_app.
        change (List.length (str "(mock) ")) with 7. lia.
      * split.
        -- intros _. rewrite length_app.
           change (List.length (str "(mock) ")) with 7. lia.
        -- split; [|discriminate].
           intros _ call' lang'. reflexivity.
Qed.

Lemma summarize_never_raises_witness :
  exists out : pystr,
    LLM.summarize true (failing_model ValueError) (str "  Rain fell all day.  ")
                  300 None = Ok out
    /\ List.length out <= 336.
Proof.
  destruct (summarize_never_raises true (failing_model ValueError)
              (str "  Rain fell all day.  ") 300 None)
    as (out & E & _ & _ & H & _).
  exists out. split; [exact E|].
  apply (H (fun s u n => eq_refl)).
Defined.

Section HeuristicFacts.

#[local] Open Scope R_scope.

Lemma py_round_hundredths (z : Z) (x : R) :
  x = IZR z / 100 -> py_round (Rmax 0 (Rmin 1 x)) 2 = x /\ 0 <= x <= 1
  \/ x < 0 \/ 1 < x.
Proof.
  intros H. destruct (Rle_dec 0 x) as [H0|H0]; [|right; left; lra].
  destruct (Rle_dec x 1) as [H1|H1]; [|right; right; lra].
  left. split; [|lra].
  rewrite Rmin_right, Rmax_right by lra.
  rewrite H. replace 100 with (10 ^ 2) by (simpl; lra).
  apply py_round_exact.
Qed.

(** X13: the heuristic that stands in for [analyze_claims] without a
    model does not look at the claim; its support is 0.3, 0.5 or 0.7 and
    its label is "contradicts", "mixed" or "supports" accordingly; and
    snippets that say "no evidence" are never read as a contradiction,
    because the phrase contains the supporting word "evidence": the verdict
    is "mixed". *)
Theorem heuristic_stance :
  forall (claim claim' : pystr) (snippets : list pystr),
    let st := LLM.analyze_claims_heuristic claim snippets in
    LLM.analyze_claims_heuristic claim' snippets = st
    /\ ((support st = Some 0.7 /\ stance_label st = str "supports")
        \/ (support st = Some 0.5 /\ stance_label st = str "mixed")
        \/ (support st = Some 0.3 /\ stance_label st = str "contradicts"))
    /\ (contains (str "no evidence") (lower (join (str " ") snippets)) = true ->
        support st = Some 0.5 /\ stance_label st = str "mixed").
Proof.
  intros claim claim' snippets st. split; [reflexivity|].
  assert (H7 : py_round (Rmax 0 (Rmin 1 (0.5 + 0.2))) 2 = 0.7).
  { destruct (@py_round_hundredths 70 (0.5 + 0.2)) as [[H _]|[H|H]]; lra. }
  assert (H5 : py_round (Rmax 0 (Rmin 1 0.5)) 2 = 0.5).
  { destruct (@py_round_hundredths 50 0.5) as [[H _]|[H|H]]; lra. }
  assert (H5' : py_round (Rmax 0 (Rmin 1 (0.5 + 0.2 - 0.2))) 2 = 0.5).
  { destruct (@py_round_hundredths 50 (0.5 + 0.2 - 0.2)) as [[H _]|[H|H]]; lra. }
  assert (H3 : py_round (Rmax 0 (Rmin 1 (0.5 - 0.2))) 2 = 0.3).
  { destruct (@py_round_hundredths 30 (0.5 - 0.2)) as [[H _]|[H|H]]; lra. }
  unfold st, LLM.analyze_claims_heuristic.
  set (lc := lower (join (str " ") snippets)).
  split.
  - destruct (existsb (fun w => contains w lc) LLM.supporting_words);
      destruct (existsb (fun w => contains w lc) LLM.contradicting_words);
      cbv zeta; cbn [support stance_label];
      repeat (destruct (Rle_dec _ _); try lra).
    + right. left. rewrite H5'. split; reflexivity.
    + left. rewrite H7. split; reflexivity.
    + right. right. rewrite H3. split; reflexivity.
    + right. left. rewrite H5. split; reflexivity.
  - intros Hne.
    assert (Hs : existsb (fun w => contains w lc) LLM.supporting_words = true).
    { apply existsb_exists. exists (str "evidence"). split.
      - right. left. reflexivity.
      - apply contains_split in Hne as (a & b & ->).
        change (str "no evidence") with (str "no " ++ str "evidence").
        rewrite <- app_assoc, app_assoc. apply contains_app. }
    assert (Hc : existsb (fun w => contains w lc) LLM.contradicting_words = true).
    { apply existsb_exists. exists (str "no evidence").
      split; [left; reflexivity | exact Hne]. }
    rewrite Hs, Hc. cbv zeta. cbn [support stance_label].
    repeat (destruct (Rle_dec _ _); try lra).
    rewrite H5'. split; reflexivity.
Qed.

End HeuristicFacts.

Lemma heuristic_stance_witness :
  support (LLM.analyze_claims_heuristic (str "Vaccines are safe")
             [str "There is no evidence of harm."]) = Some 0.5%R
  /\ stance_label (LLM.analyze_claims_heuristic (str "Vaccines are safe")
                     [str "There is no evidence of harm."]) = str "mixed".
Proof.
  destruct (heuristic_stance (str "Vaccines are safe") []
              [str "There is no evidence of harm."]) as (_ & _ & H).
  apply H. reflexivity.
Defined.

(** ** The planner behind a failing model *)

Lemma In_is_char (c : ascii) (s : pystr) :
  In c s -> existsb (is_char c) s = true.
Proof.
  intros H. apply existsb_exists. exists c. split; [exact H|].
  unfold is_char. apply Ascii.eqb_refl.
Qed.

Lemma from_first_absent (c : ascii) (s : pystr) :
  ~ In c s -> from_first c s = None.
Proof.
  induction s as [|x s IH]; simpl; [reflexivity|].
  intros H. destruct (Ascii.eqb x c) eqn:E.
  - apply Ascii.eqb_eq in E. exfalso. apply H. left. exact E.
  - apply IH. intros Hin. apply H. right. exact Hin.
Qed.

Lemma through_last_absent (c : ascii) (s : pystr) :
  ~ In c s -> through_last c s = None.
Proof.
  induction s as [|x s IH]; simpl; [reflexivity|].
  intros H. rewrite IH by (intros Hin; apply H; right; exact Hin).
  destruct (Ascii.eqb x c) eqn:E; [|reflexivity].
  apply Ascii.eqb_eq in E. exfalso. apply H. left. exact E.
Qed.

Lemma from_first_suffix (c : ascii) (s t : pystr) :
  from_first c s = Some t -> exists p, s = p ++ t.
Proof.
  induction s as [|x s IH]; simpl; [discriminate|].
  destruct (Ascii.eqb x c).
  - intros H. injection H as <-. exists []. reflexivity.
  - intros H. destruct (IH H) as [p ->]. exists (x :: p). reflexivity.
Qed.

Lemma from_first_head (c : ascii) (s t : pystr) :
  from_first c s = Some t -> exists r, t = c :: r.
Proof.
  induction s as [|x s IH]; simpl; [discriminate|].
  destruct (Ascii.eqb x c) eqn:E; [|exact IH].
  intros H. injection H as <-. apply Ascii.eqb_eq in E. subst.
  exists s. reflexivity.
Qed.

Lemma from_first_app_absent (c : ascii) (a s : pystr) :
  ~ In c a -> from_first c (a ++ s) = from_first c s.
Proof.
  induction a as [|x a IH]; simpl; [reflexivity|].
  intros H. destruct (Ascii.eqb x c) eqn:E.
  - apply Ascii.eqb_eq in E. exfalso. apply H. left. exact E.
  - apply IH. intros Hin. apply H. right. exact Hin.
Qed.

Lemma from_first_app (c : ascii) (s b : pystr) :
  ~ In c b ->
  from_first c (s ++ b)
  = match from_first c s with Some t => Some (t ++ b) | None => None end.
Proof.
  intros Hb. induction s as [|x s IH]; simpl.
  - apply from_first_absent. exact Hb.
  - destruct (Ascii.eqb x c); [reflexivity | exact IH].
Qed.

Lemma through_last_app_absent (c : ascii) (r b : pystr) :
  ~ In c b -> through_last c (r ++ b) = through_last c r.
Proof.
  intros Hb. induction r as [|x r IH]; simpl.
  - apply through_last_absent. exact Hb.
  - rewrite IH. reflexivity.
Qed.

Lemma re_search_array_absent (raw : pystr) :
  ~ In "["%char raw \/ ~ In "]"%char raw -> re_search_array raw = None.
Proof.
  intros [H | H]; unfold re_search_array.
  - rewrite from_first_absent by exact H. reflexivity.
  - destruct (from_first "[" raw) as [[|o rest]|] eqn:E; try reflexivity.
    apply from_first_suffix in E as [p ->].
    rewrite through_last_absent; [reflexivity|].
    intros Hin. apply H. apply in_or_app. right. right. exact Hin.
Qed.

(** Text without brackets around [q] does not change what the search for
    an array finds. *)
Lemma re_search_array_context (a q b : pystr) :
  ~ In "["%char a -> ~ In "]"%char b ->  ~ In "["%char b ->
  re_search_array (a ++ q ++ b) = re_search_array q.
Proof.
  intros Ha Hb Hb'. unfold re_search_array.
  rewrite from_first_app_absent by exact Ha.
  rewrite from_first_app by exact Hb'.
  destruct (from_first "[" q) as [[|o rest]|] eqn:E; try reflexivity.
  - apply from_first_head in E as [r E]. discriminate E.
  - cbn [app]. rewrite through_last_app_absent by exact Hb. reflexivity.
Qed.

Lemma lstrip_word (c : ascii) (s : pystr) :
  isspace c = false -> lstrip (c :: s) = c :: s.
Proof. intros H. simpl. rewrite H. reflexivity. Qed.

Lemma strip_between (c d : ascii) (s : pystr) :
  isspace c = false -> isspace d = false ->
  strip (c :: s ++ [d]) = c :: s ++ [d].
Proof.
  intros Hc Hd. unfold strip, rstrip. rewrite lstrip_word by exact Hc.
  change (c :: s ++ [d]) with ((c :: s) ++ [d]).
  rewrite rev_app_distr. change (rev [d] ++ rev (c :: s)) with (d :: rev (c :: s)).
  rewrite lstrip_word by exact Hd.
  change (d :: rev (c :: s)) with (rev [d] ++ rev (c :: s)).
  rewrite <- rev_app_distr. apply rev_involutive.
Qed.

Lemma _safe_truncate_chars (c : ascii) (text : pystr) (n : nat) :
  c <> "."%char -> In c (LLM._safe_truncate text n) -> In c text.
Proof.
  intros Hc. unfold LLM._safe_truncate.
  destruct (negb (nonempty text)); [intros []|].
  destruct (List.length text <=? n); [tauto|].
  intros H. apply in_app_or in H as [H | H].
  - destruct (rsplit1_head_prefix " " (firstn n text)) as [rest E].
    rewrite <- (firstn_skipn n text), E.
    apply in_or_app. left. apply in_or_app. left. exact H.
  - simpl in H. destruct H as [H | [H | [H | []]]]; congruence.
Qed.

Lemma _safe_truncate_short (text : pystr) (n : nat) :
  List.length text <= n -> LLM._safe_truncate text n = text.
Proof.
  intros H. unfold LLM._safe_truncate. destruct text as [|c t]; [reflexivity|].
  cbn [nonempty negb]. apply Nat.leb_le in H. rewrite H. reflexivity.
Qed.

Lemma not_In_is_char (c : ascii) (s : pystr) :
  existsb (is_char c) s = false -> ~ In c s.
Proof.
  intros H Hin. apply In_is_char in Hin. congruence.
Qed.

(** The prompt of the planner, around the query. *)
Lemma planner_prompt_parts (query : pystr) :
  exists a b : pystr,
    planner_prompt query = "Y"%char :: (a ++ query ++ b) ++ ["."%char]
    /\ existsb (is_char "[") ("Y"%char :: a) = false
    /\ existsb (is_char "]") ("Y"%char :: a) = false
    /\ existsb (is_char "[") (b ++ ["."%char]) = false
    /\ existsb (is_char "]") (b ++ ["."%char]) = false
    /\ List.length a + List.length b = 234.
Proof.
  exists (tl planner_system ++ [newline; newline] ++ str "Query: "),
         ([newline; newline] ++ str "Return JSON only").
  split.
  - unfold planner_prompt.
    change planner_system with ("Y"%char :: tl planner_system).
    change (str "Return JSON only.")
      with (str "Return JSON only" ++ ["."%char]).
    cbv zeta. rewrite <- ?app_assoc. simpl. rewrite <- ?app_assoc. reflexivity.
  - repeat split; vm_compute; reflexivity.
Qed.

(** The summary a failing model leaves to the planner. *)
Lemma summarize_failing (e : exn) (prompt : pystr) (n : nat) :
  strip prompt = prompt -> prompt <> [] ->
  LLM.summarize true (failing_model e) prompt n None
  = Ok (str "(mock fallback due to LLM error) " ++ LLM._safe_truncate prompt n).
Proof.
  intros Hs Hne. unfold LLM.summarize. rewrite Hs.
  destruct prompt as [|c p]; [congruence|]. reflexivity.
Qed.

(** X14: when the model is configured but every call to it fails,
    [summarize] hands the planner its own prompt back, so the plan is read
    off the query.  A query without an opening or without a closing bracket
    gets the three-task fallback plan; a query of at most 64 characters
    gets the plan the planner would make of a model that answers with the
    query itself. *)
Theorem plan_from_echoed_prompt :
  forall (client : option (pystr -> result pystr)) (e : exn)
         (claims : pystr -> list pystr -> result stance) (query : pystr),
    let llm := LLM.agent true client (failing_model e) claims in
    (~ In "["%char query \/ ~ In "]"%char query ->
     plan_tasks llm query = Ok (JArr (fallback_plan query)))
    /\ (List.length query <= 64 ->
        plan_tasks llm query = plan_tasks (llm_answering query) query).
Proof.
  intros client e claims query llm.
  destruct (planner_prompt_parts query)
    as (a & b & Hp & Ha1 & Ha2 & Hb1 & Hb2 & Hlen).
  assert (Hraw : summarize llm (planner_prompt query) 300
                 = Ok (str "(mock fallback due to LLM error) "
                       ++ LLM._safe_truncate (planner_prompt query) 300)).
  { unfold llm, LLM.agent. cbn [summarize].
    apply summarize_failing.
    - rewrite Hp. apply strip_between; reflexivity.
    - rewrite Hp. discriminate. }
  assert (Hpre : forall c, existsb (is_char c)
                             (str "(mock fallback due to LLM error) ") = false ->
                 c <> "."%char ->
                 ~ In c ("Y"%char :: a) -> ~ In c (b ++ ["."%char]) ->
                 ~ In c query ->
                 ~ In c (str "(mock fallback due to LLM error) "
                         ++ LLM._safe_truncate (planner_prompt query) 300)).
  { intros c Hc Hdot Hca Hcb Hq Hin. apply in_app_or in Hin as [Hin | Hin].
    - apply In_is_char in Hin. congruence.
    - apply _safe_truncate_chars in Hin; [|exact Hdot].
      rewrite Hp in Hin.
      change ("Y"%char :: (a ++ query ++ b) ++ ["."%char])
        with (("Y"%char :: a ++ query ++ b) ++ ["."%char]) in Hin.
      apply in_app_or in Hin as [Hin | Hin].
      + change ("Y"%char :: a ++ query ++ b)
          with (("Y"%char :: a) ++ query ++ b) in Hin.
        apply in_app_or in Hin as [Hin | Hin]; [tauto|].
        apply in_app_or in Hin as [Hin | Hin]; [tauto|].
        apply Hcb. apply in_or_app. left. exact Hin.
      + apply Hcb. apply in_or_app. right. exact Hin. }
  split.
  - intros Hq. unfold plan_tasks.
    change (available llm) with true. cbn [negb].
    unfold planner_try. rewrite Hraw. cbn [bind].
    rewrite re_search_array_absent; [reflexivity|].
    destruct Hq as [Hq | Hq]; [left | right].
    + apply Hpre; try assumption; try reflexivity; try discriminate;
        apply not_In_is_char; assumption.
    + apply Hpre; try assumption; try reflexivity; try discriminate;
        apply not_In_is_char; assumption.
  - intros Hq. unfold plan_tasks.
    change (available llm) with true.
    change (available (llm_answering query)) with true. cbn [negb].
    unfold planner_try. rewrite Hraw.
    change (summarize (llm_answering query) (planner_prompt query) 300)
      with (@Ok pystr query).
    cbn [bind].
    rewrite _safe_truncate_short.
    2:{ rewrite Hp. cbn [List.length]. rewrite !length_app. cbn [List.length].
        lia. }
    rewrite Hp.
    replace (str "(mock fallback due to LLM error) "
             ++ "Y"%char :: (a ++ query ++ b) ++ ["."%char])
      with ((str "(mock fallback due to LLM error) " ++ "Y"%char :: a)
            ++ query ++ (b ++ ["."%char])).
    2:{ rewrite <- ?app_assoc. simpl. rewrite <- ?app_assoc. reflexivity. }
    rewrite re_search_array_context; [reflexivity| | |].
    + intros Hin. apply in_app_or in Hin as [Hin | Hin].
      * apply In_is_char in Hin. discriminate Hin.
      * apply In_is_char in Hin. congruence.
    + apply not_In_is_char. exact Hb2.
    + apply not_In_is_char. exact Hb1.
Qed.

Lemma plan_from_echoed_prompt_witness :
  plan_tasks (LLM.agent true None (failing_model ValueError)
                        (fun _ _ => Raise ValueError))
             (str "climate change")
  = Ok (JArr (fallback_plan (str "climate change")))
  /\ plan_tasks (LLM.agent true None (failing_model ValueError)
                           (fun _ _ => Raise ValueError))
                (str "[]")
     = Ok (JArr []).
Proof.
  split.
  - apply (proj1 (plan_from_echoed_prompt None ValueError
                    (fun _ _ => Raise ValueError) (str "climate change"))).
    left. apply not_In_is_char. reflexivity.
  - rewrite (proj2 (plan_from_echoed_prompt None ValueError
                      (fun _ _ => Raise ValueError) (str "[]"))).
    + vm_compute. reflexivity.
    + simpl. lia.
Defined.

(** ** The scraper and the two endpoints *)

Lemma scrape_page_returns (fetch : pystr -> result soup) (u : pystr) :
  exists pg, scrape_page fetch u = Ok pg
             /\ (raised (fetch u) = true -> pg = mkPage u []).
Proof.
  unfold scrape_page. destruct (fetch u) as [s|e]; simpl.
  - eexists. split; [reflexivity | discriminate].
  - eexists. split; reflexivity.
Qed.

Lemma filter_all {A : Type} (f : A -> bool) (l : list A) :
  (forall x, f x = true) -> filter f l = l.
Proof.
  intros H. induction l as [|x l IH]; simpl; [reflexivity|].
  rewrite H, IH. reflexivity.
Qed.

(** X15: [Scraper.scrape] never raises: a page that cannot be fetched or
    parsed comes back with the url as its title and an empty text.  Hence
    the collector, run with this scraper, skips no hit for a failed scrape:
    it returns one item for each hit with a url not met before, and the
    item of an unreachable page has an empty text and a title. *)
Theorem scraper_never_fails :
  forall (fetch : pystr -> result soup),
    (forall u, exists pg,
        scrape_page fetch u = Ok pg
        /\ (raised (fetch u) = true -> pg = mkPage u []))
    /\ (forall (results : list hit) (out : list evidence),
          run_task_search_and_scrape (scrape_page fetch) (Ok results) = Ok out ->
          map url out = map h_url (first_occurrences results [])
          /\ Forall (fun item =>
                       raised (fetch (url item)) = true ->
                       text item = [] /\ (title item = [] -> url item = []))
                    out).
Proof.
  intros fetch. split; [apply scrape_page_returns|].
  intros results out Hrun.
  unfold run_task_search_and_scrape in Hrun. cbn [bind] in Hrun.
  split.
  - rewrite (collect_urls _ _ _ _ Hrun). cbn [map app].
    rewrite filter_all; [reflexivity|].
    intros r. unfold scraped.
    destruct (scrape_page_returns fetch (h_url r)) as (pg & -> & _).
    reflexivity.
  - apply (@collect_Forall (scrape_page fetch) _ results) with (seen := [])
                                                               (out := []);
      [|constructor | exact Hrun].
    intros r pg item _ Hs He Hf.
    rewrite (evidence_of_hit_url _ _ _ He) in Hf.
    destruct (scrape_page_returns fetch (h_url r)) as (pg' & Hs' & Hpg).
    rewrite Hs in Hs'. injection Hs' as <-. rewrite (Hpg Hf) in He.
    unfold evidence_of_hit in He.
    destruct (hit_domain r (h_url r)); cbn [bind] in He; [|discriminate].
    injection He as <-. cbn [text title url p_text p_title]. split; [reflexivity|].
    unfold py_or. destruct (nonempty (h_title r)) eqn:Et; [|tauto].
    intros H. rewrite H in Et. discriminate.
Qed.

Lemma scraper_never_fails_witness :
  exists out,
    run_task_search_and_scrape (scrape_page (unreachable ValueError))
      (Ok [mkHit [] [] (str "http://a.org/x") (str "a snippet") [] None;
           mkHit [] [] (str "http://a.org/x") [] [] None;
           mkHit [] [] (str "http://b.org/y") [] [] None]) = Ok out
    /\ map url out = [str "http://a.org/x"; str "http://b.org/y"]
    /\ Forall (fun item => text item = []) out.
Proof.
  eexists. split; [vm_compute; reflexivity|].
  destruct (scraper_never_fails (unreachable ValueError)) as [_ H].
  destruct (H [mkHit [] [] (str "http://a.org/x") (str "a snippet") [] None;
               mkHit [] [] (str "http://a.org/x") [] [] None;
               mkHit [] [] (str "http://b.org/y") [] [] None] _ eq_refl)
    as [Hu Hf].
  split; [exact Hu|].
  eapply Forall_impl; [|exact Hf]. intros item Hi. apply Hi. reflexivity.
Defined.

Section EndpointFacts.

Variable run_output : Type.
Variable run : pystr -> result run_output.
Variable scrape : pystr -> result page.
Variable llm : LLMAgent.
Variable build_graph : pystr -> result kg.
Variable _has_nx : bool.
Variable exn_text : exn -> pystr.

(** The dict [analyze] returns, entry by entry. *)
Lemma analyze_shape (a : article) (short : Dict.dict pyval) :
  ResearchAgent.analyze llm build_graph a = Ok short ->
  exists summary evidence contradictions c g st note,
    short = [(str "summary", VStr summary);
             (str "evidence", VStrList evidence);
             (str "contradictions", VStrList contradictions);
             (str "credibility_score", VFloat c);
             (str "knowledge_graph", VGraph g);
             (str "stance", VStance st);
             (str "bias_note", VStr note)].
Proof.
  unfold ResearchAgent.analyze.
  destruct (if nonempty (strip (a_text a)) then _ else _) as [summary|e];
    simpl; [|discriminate].
  destruct (if nonempty _ then _ else _) as [stance_result|e];
    simpl; [|discriminate].
  destruct (build_graph _) as [g|e]; simpl; [|discriminate].
  intros H. injection H as <-. repeat eexists.
Qed.

(** X16: given a url, [/agentic_detect] does what [/detect] does with it:
    the two fail together and, when they answer, report the same title,
    summary, evidence, stance, bias note, graph and credibility score; the
    query of the request is not looked at.  Neither endpoint ever answers
    with a status other than 200 and 500. *)
Theorem url_mode_is_detect :
  forall (query : option pystr) (u : pystr),
    nonempty u = true ->
    result_map (@view_of_response run_output)
               (agentic_detect_try run scrape llm build_graph _has_nx
                                   (mkRequest query (Some u)))
    = result_map (fun d => Some (view_of_detection d))
                 (detect_try scrape llm build_graph _has_nx u)
    /\ http_status (agentic_detect run scrape llm build_graph _has_nx exn_text
                                   (mkRequest query (Some u)))
       = status_of (detect scrape llm build_graph _has_nx exn_text u)
    /\ (status_of (detect scrape llm build_graph _has_nx exn_text u) = 200
        \/ status_of (detect scrape llm build_graph _has_nx exn_text u) = 500).
Proof.
  intros query u Hu.
  unfold agentic_detect, detect, agentic_detect_try, detect_try.
  cbn [req_url req_query given]. rewrite Hu.
  destruct (scrape u) as [pg|e]; cbn [bind try_except result_map];
    [|repeat split; try reflexivity; right; reflexivity].
  destruct (ResearchAgent.analyze llm build_graph
              (mkArticle u (p_title pg) (p_text pg))) as [short|e] eqn:Ea;
    cbn [bind try_except result_map];
    [|repeat split; try reflexivity; right; reflexivity].
  destruct (analyze_shape _ Ea)
    as (summary & evidence & contradictions & c & g & st & note & ->).
  change (Dict.get (str "knowledge_graph") _) with (Some (VGraph g)).
  change (Dict.get (str "stance") _) with (Some (VStance st)).
  change (Dict.get (str "bias_note") _) with (Some (VStr note)).
  change (Dict.get (str "summary") _) with (Some (VStr summary)).
  change (Dict.get (str "evidence") _) with (Some (VStrList evidence)).
  cbn [bind try_except result_map].
  repeat split; try reflexivity. left. reflexivity.
Qed.

End EndpointFacts.

Lemma url_mode_is_detect_witness :
  http_status (agentic_detect (fun _ => @Ok unit tt) blank_scraper offline_llm
                              empty_graph true (fun _ => [])
                              (mkRequest (Some (str "ignored"))
                                         (Some (str "http://a.org/x"))))
  = status_of (detect blank_scraper offline_llm empty_graph true (fun _ => [])
                      (str "http://a.org/x")).
Proof.
  apply (@url_mode_is_detect unit (fun _ => Ok tt) blank_scraper offline_llm
           empty_graph true (fun _ => []) (Some (str "ignored"))
           (str "http://a.org/x") eq_refl).
Defined.

(** *** The service without a model *)

Lemma summarize_unavailable (call : pystr -> pystr -> nat -> result pystr)
      (text : pystr) (n : nat) (lang : option pystr) :
  exists out, LLM.summarize false call text n lang = Ok out.
Proof.
  unfold LLM.summarize.
  destruct (negb (nonempty (strip text))); eexists; reflexivity.
Qed.

Lemma analyze_unavailable_returns (g : pystr -> kg) (a : article) :
  exists short,
    ResearchAgent.analyze LLM.unavailable_agent (graph_of g) a = Ok short.
Proof.
  unfold ResearchAgent.analyze, LLM.unavailable_agent, LLM.agent, graph_of.
  cbn [summarize analyze_claims client].
  destruct (summarize_unavailable
              (fun _ _ _ => Raise (RuntimeError (str "LLM client not available")))
              (strip (a_text a)) 300 None) as [out Hout].
  rewrite Hout.
  destruct (nonempty (strip (a_text a))); cbn [bind];
    destruct (nonempty _); cbn [bind]; eexists; reflexivity.
Qed.

Section OfflineFacts.

#[local] Open Scope R_scope.

Lemma heuristic_without_snippets (claim : pystr) :
  LLM.analyze_claims_heuristic claim []
  = mkStance (Some 0.5) (str "mixed") (str "(heuristic fallback)").
Proof.
  unfold LLM.analyze_claims_heuristic.
  change (lower (join (str " ") [])) with (@nil ascii).
  change (existsb (fun w => contains w []) LLM.supporting_words) with false.
  change (existsb (fun w => contains w []) LLM.contradicting_words) with false.
  cbv zeta. cbv iota.
  destruct (Rle_dec 0.55 0.5) as [H|_]; [lra|].
  destruct (Rle_dec 0.5 0.45) as [H|_]; [lra|].
  f_equal. f_equal.
  rewrite Rmin_right, Rmax_right by lra.
  replace 0.5 with (IZR 50 / 10 ^ 2) by (simpl; lra).
  apply py_round_exact.
Qed.

(** What the research agent without a model says of an article without
    text. *)
Lemma analyze_no_text (g : pystr -> kg) (u t : pystr) :
  exists c st,
    ResearchAgent.analyze LLM.unavailable_agent (graph_of g) (mkArticle u t [])
    = Ok [(str "summary", VStr (str "(no text to summarize)"));
          (str "evidence",
           VStrList [str "Article length: 0"; str "Title: " ++ t]);
          (str "contradictions", VStrList []);
          (str "credibility_score", VFloat c);
          (str "knowledge_graph", VGraph (g []));
          (str "stance", VStance st);
          (str "bias_note", VStr (str "neutral"))]
    /\ support st = Some 0.5 /\ stance_label st = str "mixed".
Proof.
  unfold ResearchAgent.analyze, LLM.unavailable_agent, LLM.agent, graph_of.
  cbn [summarize analyze_claims client a_text a_title a_url].
  change (strip []) with (@nil ascii).
  cbn [nonempty bind ResearchAgent._make_evidence_snippets negb firstn
       ResearchAgent.snippet_lines app List.length].
  change (lower []) with (@nil ascii).
  change (existsb (fun ex => contains ex []) ResearchAgent.excited) with false.
  cbv iota.
  unfold py_or. destruct (nonempty t) eqn:Et; cbn [nonempty bind].
  - rewrite Et. cbn [bind]. rewrite heuristic_without_snippets.
    cbn [support stance_label]. change (PyStr.eqb (str "mixed") (str "contradicts")) with false.
    cbv iota. do 2 eexists. split; [reflexivity|]. split; reflexivity.
  - cbn [support stance_label]. change (PyStr.eqb (str "mixed") (str "contradicts")) with false.
    cbv iota. do 2 eexists. split; [reflexivity|]. split; reflexivity.
Qed.

(** X17: with the scraper of the repository, no model configured and a
    graph builder that returns, [/detect] answers every request: the
    status is 200 and the credibility score lies in [0,1].  For a page
    that cannot be fetched the answer has the url as title, no text, the
    summary "(no text to summarize)", the two-line evidence list, a
    "mixed" stance of support 0.5 and the bias note "neutral". *)
Theorem offline_detect_answers :
  forall (fetch : pystr -> result soup) (g : pystr -> kg) (_has_nx : bool)
         (exn_text : exn -> pystr) (u : pystr),
    exists d : detection,
      detect (scrape_page fetch) LLM.unavailable_agent (graph_of g) _has_nx
             exn_text u = Ok d
      /\ 0 <= d_credibility_score d <= 1
      /\ (raised (fetch u) = true ->
          d_title d = u /\ d_text d = []
          /\ d_summary d = Some (VStr (str "(no text to summarize)"))
          /\ d_evidence d
             = VStrList [str "Article length: 0"; str "Title: " ++ u]
          /\ d_contradictions d = VStrList []
          /\ d_bias_note d = VStr (str "neutral")
          /\ exists st, d_stance d = VStance st
                        /\ support st = Some 0.5
                        /\ stance_label st = str "mixed").
Proof.
  intros fetch g _has_nx exn_text u.
  unfold detect, detect_try.
  destruct (scrape_page_returns fetch u) as (pg & -> & Hpg). cbn [bind].
  destruct (raised (fetch u)) eqn:Hf.
  - rewrite (Hpg eq_refl). cbn [p_title p_text].
    destruct (analyze_no_text g u u) as (c & st & -> & Hsup & Hlab).
    cbn [bind].
    change (Dict.get (str "knowledge_graph") _) with (Some (VGraph (g []))).
    change (Dict.get (str "stance") _) with (Some (VStance st)).
    change (Dict.get (str "bias_note") _) with (Some (VStr (str "neutral"))).
    cbn [bind try_except]. eexists. split; [reflexivity|].
    cbn [d_credibility_score d_title d_text d_summary d_evidence
         d_contradictions d_bias_note d_stance].
    split; [apply py_round_unit, clamp_unit|]. intros _.
    repeat (split; [reflexivity|]).
    exists st. split; [reflexivity|]. split; assumption.
  - destruct (analyze_unavailable_returns g
                (mkArticle u (p_title pg) (p_text pg))) as [short Hs].
    rewrite Hs. cbn [bind].
    destruct (analyze_shape _ _ _ Hs)
      as (summary & evidence & contradictions & c & g' & st & note & ->).
    change (Dict.get (str "knowledge_graph") _) with (Some (VGraph g')).
    cbn [bind try_except]. eexists. split; [reflexivity|].
    cbn [d_credibility_score].
    split; [apply py_round_unit, clamp_unit | discriminate].
Qed.

End OfflineFacts.

Lemma offline_detect_answers_witness :
  exists d : detection,
    detect (scrape_page (unreachable ValueError)) LLM.unavailable_agent
           (graph_of (fun _ => mkKg [] [])) true (fun _ => [])
           (str "http://a.org/x") = Ok d
    /\ d_title d = str "http://a.org/x".
Proof.
  destruct (offline_detect_answers (unreachable ValueError)
              (fun _ => mkKg [] []) true (fun _ => []) (str "http://a.org/x"))
    as (d & E & _ & H).
  exists d. split; [exact E|]. apply (H eq_refl).
Defined.

(** ** The research agent *)

Lemma lstrip_suffix (s : pystr) : exists a, s = a ++ lstrip s.
Proof.
  induction s as [|c s [a IH]]; simpl.
  - exists []. reflexivity.
  - destruct (isspace c).
    + exists (c :: a). simpl. congruence.
    + exists []. reflexivity.
Qed.

Lemma rstrip_prefix (s : pystr) : exists b, s = rstrip s ++ b.
Proof.
  unfold rstrip. destruct (lstrip_suffix (rev s)) as [a E].
  exists (rev a). rewrite <- rev_app_distr, <- E, rev_involutive. reflexivity.
Qed.

Lemma strip_inside (s : pystr) : exists a b, s = a ++ strip s ++ b.
Proof.
  unfold strip. destruct (lstrip_suffix s) as [a Ea].
  destruct (rstrip_prefix (lstrip s)) as [b Eb].
  exists a, b. rewrite <- Eb. exact Ea.
Qed.

Lemma inside_trans (p s t : pystr) :
  (exists a b, s = a ++ p ++ b) -> (exists a b, t = a ++ s ++ b) ->
  exists a b, t = a ++ p ++ b.
Proof.
  intros (a & b & ->) (a' & b' & ->). exists (a' ++ a), (b ++ b').
  rewrite <- !app_assoc. reflexivity.
Qed.

Lemma contains_inside (p t : pystr) :
  (exists a b, t = a ++ p ++ b) -> contains p t = true.
Proof. intros (a & b & ->). apply contains_app. Qed.

(** Every piece the sentence splitter returns is a piece of the text. *)
Lemma sent_split_from_inside (t : pystr) :
  forall cur prev_end skipping p,
    (skipping = true -> cur = []) ->
    In p (ResearchAgent.sent_split_from cur prev_end skipping t) ->
    exists a b, rev cur ++ t = a ++ p ++ b.
Proof.
  induction t as [|c t IH]; intros cur pe sk p Hsk; simpl.
  - intros [<- | []]. exists [], []. rewrite !app_nil_r. reflexivity.
  - assert (Hcons : rev (c :: cur) ++ t = rev cur ++ c :: t).
    { simpl. rewrite <- app_assoc. reflexivity. }
    destruct (isspace c).
    + destruct sk.
      * rewrite (Hsk eq_refl). intros H.
        destruct (IH [] false true p (fun _ => eq_refl) H) as (a & b & E).
        simpl in E. exists (c :: a), b. simpl. congruence.
      * destruct pe.
        -- intros [<- | H].
           ++ exists [], (c :: t). reflexivity.
           ++ destruct (IH [] false true p (fun _ => eq_refl) H) as (a & b & E).
              simpl in E. exists (rev cur ++ c :: a), b.
              rewrite <- app_assoc. simpl. congruence.
        -- intros H. rewrite <- Hcons.
           apply (IH (c :: cur) false false p); [discriminate | exact H].
    + intros H. rewrite <- Hcons.
      apply (IH (c :: cur) (ResearchAgent.is_end_punct c) false p);
        [discriminate | exact H].
Qed.

Lemma sent_split_inside (t p : pystr) :
  In p (ResearchAgent.sent_split t) -> exists a b, t = a ++ p ++ b.
Proof.
  intros H.
  apply (@sent_split_from_inside t [] false false p); [discriminate | exact H].
Qed.

Lemma firstn_inside (n : nat) (s : pystr) : exists a b, s = a ++ firstn n s ++ b.
Proof.
  exists [], (skipn n s). simpl. symmetry. apply firstn_skipn.
Qed.

(** X18: the evidence snippets of a text.  There is none for the empty
    text and at least one otherwise, and never more than [max_snips]
    (one, when [max_snips] is 0).  Every snippet is a piece of the text;
    either all are sentences of more than 30 characters, or there is just
    one, the first 300 characters of the text. *)
Theorem evidence_snippets_facts :
  forall (text : pystr) (max_snips : nat),
    let snips := ResearchAgent._make_evidence_snippets text max_snips in
    (text = [] -> snips = [])
    /\ (text <> [] ->
        snips <> [] /\ List.length snips <= Nat.max 1 max_snips)
    /\ Forall (fun s => contains s text = true) snips
    /\ (Forall (fun s => 30 < List.length (strip s)) snips
        \/ snips = [firstn 300 (strip text)]).
Proof.
  intros text max_snips snips. unfold snips, ResearchAgent._make_evidence_snippets.
  destruct text as [|c text]; cbn [nonempty negb].
  { split; [reflexivity|]. split; [congruence|]. split; [constructor|].
    left. constructor. }
  set (t := c :: text).
  set (sents := ResearchAgent.sent_split (strip t)).
  set (long := filter (fun s => 30 <? List.length (strip s)) sents).
  assert (Hlong : Forall (fun s => 30 < List.length (strip s)
                                   /\ contains s t = true) long).
  { apply Forall_forall. intros s Hs. apply filter_In in Hs as [Hin Hlen].
    apply Nat.ltb_lt in Hlen. split; [exact Hlen|].
    apply contains_inside.
    apply (@inside_trans _ _ _ (sent_split_inside _ _ Hin) (strip_inside t)). }
  assert (Hfirst : Forall (fun s => 30 < List.length (strip s)
                                    /\ contains s t = true)
                          (firstn max_snips long)).
  { apply Forall_forall. intros s Hs.
    rewrite Forall_forall in Hlong. apply Hlong.
    rewrite <- (firstn_skipn max_snips long). apply in_or_app. left. exact Hs. }
  split; [discriminate|].
  destruct (firstn max_snips long) as [|s rest] eqn:E.
  - split; [split; [discriminate | cbn [List.length]; lia]|]. split.
    + constructor; [|constructor].
      apply contains_inside.
      apply (@inside_trans _ _ _ (firstn_inside 300 (strip t))
               (strip_inside t)).
    + right. reflexivity.
  - split.
    + split; [discriminate|]. rewrite <- E. rewrite length_firstn. lia.
    + split.
      * eapply Forall_impl; [|exact Hfirst]. intros x [_ H]. exact H.
      * left. eapply Forall_impl; [|exact Hfirst]. intros x [H _]. exact H.
Qed.

Lemma evidence_snippets_facts_witness :
  ResearchAgent._make_evidence_snippets (str "Short text.") 8 <> []
  /\ List.length (ResearchAgent._make_evidence_snippets (str "Short text.") 8)
     <= Nat.max 1 8.
Proof.
  destruct (evidence_snippets_facts (str "Short text.") 8) as (_ & H & _).
  apply H. discriminate.
Defined.

Section AnalyzeFacts.

#[local] Open Scope R_scope.

Variable llm : LLMAgent.
Variable build_graph : pystr -> result kg.

Lemma py_round_again (x : R) (n : nat) :
  py_round (py_round x n * 1) n = py_round x n.
Proof.
  rewrite Rmult_1_r. unfold py_round at 2 3. apply py_round_exact.
Qed.

Lemma snippet_lines_length (snips : list pystr) :
  forall i, List.length (ResearchAgent.snippet_lines i snips) = List.length snips.
Proof.
  induction snips as [|s rest IH]; intros i; simpl; [reflexivity|].
  rewrite IH. reflexivity.
Qed.

Lemma research_domain_bounds (u : pystr) :
  0.5 <= ResearchAgent._domain_reliability_score u <= 0.9.
Proof.
  unfold ResearchAgent._domain_reliability_score.
  destruct (negb (nonempty u)); [lra|].
  repeat (destruct (existsb _ _); [lra|]). lra.
Qed.

Lemma length_score_bounds (n : nat) : 0.1 <= Rmin 0.95 (INR n / 5000 + 0.1) <= 0.95.
Proof.
  pose proof (pos_INR n) as Hn.
  split; [|apply Rmin_l].
  apply Rmin_glb; [lra|].
  assert (0 <= INR n / 5000) by (apply Rmult_le_pos; lra). lra.
Qed.

(** X19: what [ResearchAgent.analyze] reports whenever it returns.  Its
    credibility score lies in [0,1], and in [0.2, 0.945] when the support
    of the stance is missing or lies in [0,1]; rounding it a second time
    changes nothing.  The evidence list has between two and eight lines.
    A contradiction is reported exactly when the stance is "contradicts". *)
Theorem analyze_report :
  forall (a : article) (short : Dict.dict pyval),
    ResearchAgent.analyze llm build_graph a = Ok short ->
    exists (c : R) (ev contra : list pystr) (st : stance),
      Dict.get (str "credibility_score") short = Some (VFloat c)
      /\ Dict.get (str "evidence") short = Some (VStrList ev)
      /\ Dict.get (str "contradictions") short = Some (VStrList contra)
      /\ Dict.get (str "stance") short = Some (VStance st)
      /\ 0 <= c <= 1
      /\ (match support st with
          | Some s => 0 <= s <= 1
          | None => True
          end -> 0.2 <= c <= 0.945)
      /\ (2 <= List.length ev <= 8)%nat
      /\ (contra <> [] <-> stance_label st = str "contradicts").
Proof.
  intros a short. unfold ResearchAgent.analyze.
  destruct (if nonempty (strip (a_text a)) then _ else _) as [summary|e];
    cbn [bind]; [|discriminate].
  destruct (if nonempty _ then _ else _) as [st|e]; cbn [bind]; [|discriminate].
  destruct (build_graph _) as [g|e]; cbn [bind]; [|discriminate].
  intros H. injection H as <-.
  set (length_score := if nonempty (strip (a_text a)) then _ else 0.3).
  set (dom := ResearchAgent._domain_reliability_score (a_url a)).
  set (sup := match support st with Some s => s | None => 0.5 end).
  set (combined := 0.5 * length_score + 0.3 * dom + 0.2 * sup).
  assert (Hl : 0.1 <= length_score <= 0.95).
  { unfold length_score. destruct (nonempty _); [apply length_score_bounds | lra]. }
  pose proof (research_domain_bounds (a_url a)) as Hd. fold dom in Hd.
  do 3 eexists. exists st.
  split; [reflexivity|]. split; [reflexivity|]. split; [reflexivity|].
  split; [reflexivity|].
  rewrite py_round_again.
  split; [apply py_round_unit, clamp_unit|]. split.
  - intros Hs.
    assert (Hsup : 0 <= sup <= 1).
    { unfold sup. destruct (support st); lra. }
    assert (Hc : 0.2 <= combined <= 0.945) by (unfold combined; lra).
    rewrite Rmin_right, Rmax_right by lra.
    assert (E2 : py_round 0.2 3 = 0.2).
    { replace 0.2 with (IZR 200 / 10 ^ 3) by (simpl; lra). apply py_round_exact. }
    assert (E9 : py_round 0.945 3 = 0.945).
    { replace 0.945 with (IZR 945 / 10 ^ 3) by (simpl; lra).
      apply py_round_exact. }
    split.
    + rewrite <- E2. apply py_round_mono. lra.
    + rewrite <- E9. apply py_round_mono. lra.
  - split.
    + change (2 <= S (S (List.length
                (ResearchAgent.snippet_lines 0
                   (firstn 6 (ResearchAgent._make_evidence_snippets
                                (strip (a_text a)) 8))))) <= 8)%nat.
      rewrite snippet_lines_length, length_firstn. lia.
    + destruct (PyStr.eqb (stance_label st) _) eqn:E.
      * apply eqb_eq in E. split; [intros _; exact E | intros _; discriminate].
      * apply eqb_neq in E. split; [congruence | intros H; contradiction].
Qed.

(** X20: for an article without text and without title the research
    agent calls neither [summarize] nor [analyze_claims]: two models with
    the same chat client give the same analysis, whose summary is
    "(no text to summarize)" and whose stance is "mixed" with support 0.5
    and the note "no claim". *)
Theorem analyze_without_text_or_title :
  forall (llm' : LLMAgent) (a : article),
    strip (a_text a) = [] -> a_title a = [] -> client llm = client llm' ->
    ResearchAgent.analyze llm build_graph a
    = ResearchAgent.analyze llm' build_graph a
    /\ forall short,
         ResearchAgent.analyze llm build_graph a = Ok short ->
         Dict.get (str "summary") short
         = Some (VStr (str "(no text to summarize)"))
         /\ Dict.get (str "stance") short
            = Some (VStance (mkStance (Some 0.5) (str "mixed") (str "no claim"))).
Proof.
  intros llm' a Ht Hti Hc. unfold ResearchAgent.analyze.
  rewrite Ht, Hti, Hc. cbn [nonempty py_or bind]. split; [reflexivity|].
  intros short. destruct (build_graph []) as [g|e]; cbn [bind]; [|discriminate].
  intros H. injection H as <-. split; reflexivity.
Qed.

(** X21: the two domain heuristics, of the research agent and of the
    credibility engine.  For a non-empty url the engine never rates below
    the research agent, and at most 0.45 above; for the empty url the
    engine says 0.45 and the research agent 0.5. *)
Theorem domain_heuristics_compared :
  forall u : pystr,
    (nonempty u = true ->
     ResearchAgent._domain_reliability_score u
     <= CredibilityEngine._domain_reliability_score u
     <= ResearchAgent._domain_reliability_score u + 0.45)
    /\ ResearchAgent._domain_reliability_score [] = 0.5
    /\ CredibilityEngine._domain_reliability_score [] = 0.45.
Proof.
  intros u. split; [|split; reflexivity].
  intros Hu.
  unfold ResearchAgent._domain_reliability_score,
         CredibilityEngine._domain_reliability_score.
  rewrite Hu. cbn [negb].
  change CredibilityEngine.trusted
    with (ResearchAgent.trusted ++ [str "apnews."]).
  change CredibilityEngine.academic
    with (ResearchAgent.academic ++ [str "nih.gov"]).
  rewrite !existsb_app.
  destruct (existsb (fun t => contains t (lower u)) ResearchAgent.trusted);
    cbn [orb]; [lra|].
  destruct (existsb _ [str "apnews."]);
    destruct (existsb (fun t => contains t (lower u)) ResearchAgent.academic);
    cbn [orb]; try lra;
    destruct (existsb _ [str "nih.gov"]); try lra;
    destruct (existsb _ CredibilityEngine.local); lra.
Qed.

End AnalyzeFacts.

Lemma analyze_report_witness :
  exists (short : Dict.dict pyval) (c : R),
    ResearchAgent.analyze offline_llm empty_graph sample_article = Ok short
    /\ Dict.get (str "credibility_score") short = Some (VFloat c)
    /\ (0 <= c <= 1)%R.
Proof.
  destruct (analyze_offline sample_article) as [short E].
  destruct (@analyze_report _ _ _ _ E) as (c & ev & contra & st & Hc & _ & _ & _ & Hr & _).
  exists short, c. split; [exact E|]. split; [exact Hc | exact Hr].
Defined.

Lemma analyze_without_text_or_title_witness :
  ResearchAgent.analyze offline_llm empty_graph (mkArticle [] [] (str "  "))
  = ResearchAgent.analyze (llm_answering []) empty_graph
                          (mkArticle [] [] (str "  ")).
Proof.
  apply (@analyze_without_text_or_title offline_llm empty_graph
           (llm_answering []) (mkArticle [] [] (str "  "))
           eq_refl eq_refl eq_refl).
Defined.

Lemma domain_heuristics_compared_witness :
  (ResearchAgent._domain_reliability_score (str "https://apnews.com/a")
   <= CredibilityEngine._domain_reliability_score (str "https://apnews.com/a")
   <= ResearchAgent._domain_reliability_score (str "https://apnews.com/a")
      + 0.45)%R.
Proof.
  apply (proj1 (domain_heuristics_compared (str "https://apnews.com/a"))).
  reflexivity.
Defined.

(** ** The planner and the array of the model *)

Lemma get_setdefault (k k' : pystr) (v : json) (f : Dict.dict json) :
  Dict.get k' (Dict.setdefault k v f)
  = match Dict.get k' f with
    | Some x => Some x
    | None => if PyStr.eqb k' k then Some v else None
    end.
Proof.
  unfold Dict.setdefault. destruct (Dict.get k f) eqn:E.
  - destruct (Dict.get k' f) eqn:E'; [reflexivity|].
    destruct (PyStr.eqb k' k) eqn:Ek; [|reflexivity].
    apply eqb_eq in Ek. subst. congruence.
  - destruct (PyStr.eqb k' k) eqn:Ek.
    + apply eqb_eq in Ek. subst. rewrite get_set_same, E. reflexivity.
    + apply eqb_neq in Ek. rewrite get_set_other by exact Ek.
      destruct (Dict.get k' f); reflexivity.
Qed.

Lemma backfill_fields (query : pystr) (i : nat) (f : Dict.dict json) :
  exists f',
    backfill query i (JObj f) = Ok (JObj f')
    /\ forall k, Dict.get k f'
                 = match Dict.get k f with
                   | Some v => Some v
                   | None => task_default query i k
                   end.
Proof.
  eexists. split; [reflexivity|]. intros k.
  rewrite !get_setdefault. unfold task_default.
  destruct (Dict.get k f) as [v|] eqn:E; [reflexivity|].
  destruct (PyStr.eqb k (str "id")) eqn:E1; [reflexivity|].
  destruct (PyStr.eqb k (str "role")) eqn:E2; [reflexivity|].
  destruct (PyStr.eqb k (str "prompt")) eqn:E3.
  - apply eqb_eq in E3. subst k. unfold Dict.get_default.
    rewrite !get_setdefault, E. reflexivity.
  - destruct (PyStr.eqb k (str "requires_search")) eqn:E4; [|reflexivity].
    apply eqb_eq in E4. subst k. unfold Dict.get_default.
    rewrite !get_setdefault, E. reflexivity.
Qed.

Lemma backfill_all_filled (query : pystr) (plan : list json) :
  forall i,
    forallb is_object plan = true ->
    exists tasks,
      backfill_all query i plan = Ok tasks /\ filled query i plan tasks.
Proof.
  induction plan as [|t plan IH]; intros i Hall.
  - exists []. split; [reflexivity | exact I].
  - cbn [forallb] in Hall. apply andb_prop in Hall as [Ht Hall].
    destruct t as [| | | | | |f]; try discriminate Ht.
    destruct (backfill_fields query i f) as (f' & Hf & Hk).
    destruct (IH (S i) Hall) as (tasks & Hb & Hfill).
    exists (JObj f' :: tasks). cbn [backfill_all]. rewrite Hf, Hb.
    split; [reflexivity|]. cbn [filled fields_of]. repeat split; assumption.
Qed.

Lemma backfill_all_raises (query : pystr) (plan : list json) :
  forall i,
    forallb is_object plan = false ->
    backfill_all query i plan = Raise AttributeError.
Proof.
  induction plan as [|t plan IH]; intros i Hall; [discriminate|].
  cbn [forallb] in Hall. cbn [backfill_all].
  destruct t as [| | | | | |f]; try reflexivity.
  cbn [is_object andb] in Hall.
  destruct (backfill_fields query i f) as (f' & -> & _). cbn [bind].
  rewrite (IH (S i) Hall). reflexivity.
Qed.

(** X22: what the planner makes of the array the model gave.  When every
    element is an object the plan is that array with, in each task, the
    fields of the model kept as they are, whatever their values, and the
    missing ones among id, role, prompt and requires_search set to
    "t<index+1>", "evidence", "Investigate: <query>" and true.  When one
    element is not an object the whole array is given up for the
    three-task fallback plan. *)
Theorem plan_from_model_array :
  forall (llm : LLMAgent) (query raw m : pystr) (parsed : list json),
    available llm = true ->
    summarize llm (planner_prompt query) 300 = Ok raw ->
    re_search_array raw = Some m ->
    Json.loads m = Ok (JArr parsed) ->
    (forallb is_object parsed = true ->
     exists tasks, plan_tasks llm query = Ok (JArr tasks)
                   /\ filled query 0 parsed tasks)
    /\ (forallb is_object parsed = false ->
        plan_tasks llm query = Ok (JArr (fallback_plan query))).
Proof.
  intros llm query raw m parsed Hav Hs Hm Hl.
  unfold plan_tasks, planner_try. rewrite Hav, Hs. cbn [negb bind].
  rewrite Hm, Hl. cbn [bind ensure_fields]. split; intros Hall.
  - destruct (backfill_all_filled query parsed 0 Hall) as (tasks & -> & Hfill).
    cbn [bind try_except]. exists tasks. split; [reflexivity | exact Hfill].
  - rewrite (backfill_all_raises query parsed 0 Hall). reflexivity.
Qed.

Lemma plan_from_model_array_witness :
  plan_tasks (llm_answering (str "[{}, 7]")) (str "rain")
  = Ok (JArr (fallback_plan (str "rain"))).
Proof.
  apply (proj2 (@plan_from_model_array (llm_answering (str "[{}, 7]"))
                  (str "rain") (str "[{}, 7]") (str "[{}, 7]")
                  [JObj []; JInt 7] eq_refl eq_refl eq_refl eq_refl)).
  reflexivity.
Defined.

(** X23: before the array the planner looks for, and after it, the model
    may write anything that has no bracket: two models whose answers
    differ only by such text get the same plan. *)
Theorem plan_ignores_prose :
  forall (llm llm' : LLMAgent) (query a raw b : pystr),
    available llm = true -> available llm' = true ->
    summarize llm (planner_prompt query) 300 = Ok (a ++ raw ++ b) ->
    summarize llm' (planner_prompt query) 300 = Ok raw ->
    ~ In "["%char a -> ~ In "["%char b -> ~ In "]"%char b ->
    plan_tasks llm query = plan_tasks llm' query.
Proof.
  intros llm llm' query a raw b Hav Hav' Hs Hs' Ha Hb Hb'.
  unfold plan_tasks, planner_try. rewrite Hav, Hav', Hs, Hs'. cbn [negb bind].
  rewrite re_search_array_context by assumption. reflexivity.
Qed.

Lemma plan_ignores_prose_witness :
  plan_tasks (llm_answering (str "Here is the plan: [{}] I hope it helps."))
             (str "rain")
  = plan_tasks (llm_answering (str "[{}]")) (str "rain").
Proof.
  apply (@plan_ignores_prose
           (llm_answering (str "Here is the plan: [{}] I hope it helps."))
           (llm_answering (str "[{}]")) (str "rain")
           (str "Here is the plan: ") (str "[{}]") (str " I hope it helps.")
           eq_refl eq_refl eq_refl eq_refl);
    apply not_In_is_char; reflexivity.
Defined.

(** ** The knowledge graph *)


Lemma existsb_eqb_In (x : pystr) (l : list pystr) :
  existsb (PyStr.eqb x) l = true <-> In x l.
Proof.
  rewrite existsb_exists. split.
  - intros (y & Hy & E). apply eqb_eq in E. subst. exact Hy.
  - intros H. exists x. split; [exact H | apply eqb_refl].
Qed.

Lemma existsb_eqb_not_In (x : pystr) (l : list pystr) :
  existsb (PyStr.eqb x) l = false <-> ~ In x l.
Proof.
  rewrite <- existsb_eqb_In. destruct (existsb _ _); split; congruence.
Qed.

Lemma NoDup_snoc {A : Type} (l : list A) (x : A) :
  NoDup l -> ~ In x l -> NoDup (l ++ [x]).
Proof.
  intros Hl Hx. apply NoDup_app; [exact Hl | repeat constructor; intros [] |].
  intros y Hy [<- | []]. contradiction.
Qed.

Lemma entities_ok_snoc (max_entities : nat) (ents : list entity) (e : entity) :
  entities_ok max_entities ents ->
  (ents = [] \/ List.length ents < max_entities) ->
  ~ In (e_text e) (map e_text ents) -> e_text e <> [] ->
  entities_ok max_entities (ents ++ [e]).
Proof.
  intros (Hnd & Hne & Hlen) Hroom Hnew Htxt. repeat split.
  - rewrite map_app. apply NoDup_snoc; assumption.
  - apply Forall_app. split; [exact Hne | repeat constructor; exact Htxt].
  - rewrite length_app. cbn [List.length].
    destruct Hroom as [-> | Hroom]; cbn [List.length]; lia.
Qed.

Lemma spacy_loop_ok (max_entities : nat) (doc_ents : list (pystr * pystr)) :
  forall ents seen,
    entities_ok max_entities ents ->
    (ents = [] \/ List.length ents < max_entities) ->
    (forall x, In x seen <-> In x (map e_text ents)) ->
    entities_ok max_entities (spacy_loop max_entities doc_ents ents seen).
Proof.
  induction doc_ents as [|[t label_] rest IH]; intros ents seen Hok Hroom Hseen;
    cbn [spacy_loop]; [exact Hok|].
  destruct (nonempty (strip t) && negb (existsb (PyStr.eqb (strip t)) seen))
    eqn:Hfresh.
  - apply andb_prop in Hfresh as [Hne Hnew].
    apply negb_true_iff, existsb_eqb_not_In in Hnew.
    assert (Hok' : entities_ok max_entities (ents ++ [mkEntity (strip t) label_])).
    { apply entities_ok_snoc; try assumption.
      - cbn [e_text]. rewrite <- Hseen. exact Hnew.
      - cbn [e_text]. intros E. rewrite E in Hne. discriminate. }
    destruct (max_entities <=? _) eqn:Hmax; [exact Hok'|].
    apply Nat.leb_gt in Hmax. apply IH; [exact Hok' | right; exact Hmax |].
    intros x. rewrite map_app, in_app_iff. cbn [map e_text In].
    rewrite <- Hseen. tauto.
  - destruct (max_entities <=? _) eqn:Hmax; [exact Hok|].
    apply Nat.leb_gt in Hmax. apply IH; [exact Hok | right; exact Hmax | exact Hseen].
Qed.

Lemma istitle_nonempty (t : pystr) : istitle t = true -> t <> [].
Proof. intros H E. subst. discriminate H. Qed.

Lemma heuristic_loop_ok (max_entities : nat) (tokens : list pystr) :
  forall ents,
    entities_ok max_entities ents ->
    (ents = [] \/ List.length ents < max_entities) ->
    entities_ok max_entities (heuristic_loop max_entities tokens ents).
Proof.
  induction tokens as [|t rest IH]; intros ents Hok Hroom;
    cbn [heuristic_loop]; [exact Hok|].
  destruct rest as [|t' rest']; [exact Hok|].
  set (ents' := if istitle t then _ else ents).
  assert (Hok' : entities_ok max_entities ents').
  { unfold ents'. destruct (istitle t) eqn:Ht; [|exact Hok].
    destruct (existsb _ _) eqn:Hin; [exact Hok|].
    apply existsb_eqb_not_In in Hin.
    apply entities_ok_snoc; try assumption.
    cbn [e_text]. apply istitle_nonempty in Ht.
    destruct (istitle t'); [|exact Ht].
    destruct t; [congruence | discriminate]. }
  destruct (max_entities <=? _) eqn:Hmax; [exact Hok'|].
  apply Nat.leb_gt in Hmax. apply IH; [exact Hok' | right; exact Hmax].
Qed.

Lemma heuristic_loop_labels (max_entities : nat) (tokens : list pystr) :
  forall ents,
    Forall (fun e => e_label e = str "PROB") ents ->
    Forall (fun e => e_label e = str "PROB")
           (heuristic_loop max_entities tokens ents).
Proof.
  induction tokens as [|t rest IH]; intros ents Hl;
    cbn [heuristic_loop]; [exact Hl|].
  destruct rest as [|t' rest']; [exact Hl|].
  set (ents' := if istitle t then _ else ents).
  assert (Hl' : Forall (fun e => e_label e = str "PROB") ents').
  { unfold ents'. destruct (istitle t); [|exact Hl].
    destruct (existsb _ _); [exact Hl|].
    apply Forall_app. split; [exact Hl | repeat constructor]. }
  destruct (max_entities <=? _); [exact Hl'|]. apply IH. exact Hl'.
Qed.

Lemma entities_ok_nil (max_entities : nat) : entities_ok max_entities [].
Proof. repeat split; [constructor | constructor | cbn [List.length]; lia]. Qed.

Lemma extract_entities_ok
      (nlp : option (pystr -> result (list (pystr * pystr))))
      (text : pystr) (max_entities : nat) :
  entities_ok max_entities (extract_entities nlp text max_entities).
Proof.
  unfold extract_entities.
  destruct (negb (nonempty text)); [apply entities_ok_nil|].
  assert (Hh : entities_ok max_entities
                 (heuristic_loop max_entities (split_ws text) [])).
  { apply heuristic_loop_ok; [apply entities_ok_nil | left; reflexivity]. }
  destruct nlp as [pipeline|]; [|exact Hh].
  destruct (pipeline _) as [doc_ents|e]; [|exact Hh].
  apply spacy_loop_ok; [apply entities_ok_nil | left; reflexivity |].
  intros x. reflexivity.
Qed.

(** X24: the entities [extract_entities] returns have pairwise distinct,
    non-empty texts, whether they come from spaCy or from the fallback on
    capitalised words, and there are at most [max_entities] of them (one,
    when [max_entities] is 0); the empty text has none.  Without spaCy, or
    when spaCy fails, every entity is labelled "PROB" and a text of fewer
    than two words has no entity. *)
Theorem entities_distinct :
  forall (nlp : option (pystr -> result (list (pystr * pystr))))
         (text : pystr) (max_entities : nat),
    let ents := extract_entities nlp text max_entities in
    NoDup (map e_text ents)
    /\ Forall (fun e => e_text e <> []) ents
    /\ List.length ents <= Nat.max 1 max_entities
    /\ (text = [] -> ents = [])
    /\ ((forall pipeline, nlp = Some pipeline ->
                          raised (pipeline (firstn (200 * 100) text)) = true) ->
        Forall (fun e => e_label e = str "PROB") ents
        /\ (List.length (split_ws text) < 2 -> ents = [])).
Proof.
  intros nlp text max_entities ents.
  destruct (extract_entities_ok nlp text max_entities) as (H1 & H2 & H3).
  split; [exact H1|]. split; [exact H2|]. split; [exact H3|]. split.
  - intros ->. reflexivity.
  - intros Hnlp. unfold ents, extract_entities.
    destruct (negb (nonempty text)); [split; [constructor | reflexivity]|].
    assert (Hh : Forall (fun e => e_label e = str "PROB")
                        (heuristic_loop max_entities (split_ws text) [])
                 /\ (List.length (split_ws text) < 2 ->
                     heuristic_loop max_entities (split_ws text) [] = [])).
    { split; [apply heuristic_loop_labels; constructor|].
      destruct (split_ws text) as [|t [|t' rest]]; cbn [List.length];
        [reflexivity | reflexivity | lia]. }
    destruct nlp as [pipeline|]; [|exact Hh].
    specialize (Hnlp pipeline eq_refl).
    destruct (pipeline _) as [doc_ents|e]; [discriminate Hnlp | exact Hh].
Qed.

Lemma entities_distinct_witness :
  Forall (fun e => e_label e = str "PROB")
         (extract_entities None (str "Ada Lovelace met Charles Babbage.") 60)
  /\ extract_entities None (str "Ada Lovelace met Charles Babbage.") 60
     = [mkEntity (str "Ada Lovelace") (str "PROB");
        mkEntity (str "Lovelace") (str "PROB");
        mkEntity (str "Charles Babbage.") (str "PROB")].
Proof.
  split; [|vm_compute; reflexivity].
  destruct (entities_distinct None (str "Ada Lovelace met Charles Babbage.") 60)
    as (_ & _ & _ & _ & H).
  apply H. intros pipeline E. discriminate E.
Defined.

(** *** The graph builder *)

Lemma of_nat_inj (n m : nat) : of_nat n = of_nat m -> n = m.
Proof.
  unfold of_nat, str. intros H.
  apply (f_equal string_of_list_ascii) in H.
  rewrite !string_of_list_ascii_of_string in H.
  apply (f_equal NilEmpty.uint_of_string) in H. rewrite !NilEmpty.usu in H.
  injection H as H. apply DecimalNat.Unsigned.to_uint_inj. exact H.
Qed.

Lemma id_of_index_inj (i j : nat) : id_of_index i = id_of_index j -> i = j.
Proof.
  unfold id_of_index. intros H. apply app_inv_head in H.
  apply of_nat_inj. exact H.
Qed.

Lemma id_of_index_NoDup (i n : nat) : NoDup (map id_of_index (seq i n)).
Proof.
  apply NoDup_map_NoDup_ForallPairs; [|apply seq_NoDup].
  intros x y _ _. apply id_of_index_inj.
Qed.

Lemma number_nodes_ids (ents : list entity) :
  forall i d nodes,
    map node_id (snd (number_nodes i ents d nodes))
    = map node_id nodes ++ map id_of_index (seq i (List.length ents)).
Proof.
  induction ents as [|e rest IH]; intros i d nodes; cbn [number_nodes].
  - cbn [snd List.length seq map]. rewrite app_nil_r. reflexivity.
  - rewrite IH, map_app. cbn [map node_id List.length seq].
    rewrite <- app_assoc. reflexivity.
Qed.

Lemma number_nodes_labels (ents : list entity) :
  forall i d nodes,
    map node_label (snd (number_nodes i ents d nodes))
    = map node_label nodes ++ map e_text ents
    /\ map node_group (snd (number_nodes i ents d nodes))
       = map node_group nodes ++ map e_label ents.
Proof.
  induction ents as [|e rest IH]; intros i d nodes; cbn [number_nodes].
  - cbn [snd map]. rewrite !app_nil_r. split; reflexivity.
  - destruct (IH (S i) (Dict.set (e_text e) (str "n" ++ of_nat i) d)
                (nodes ++ [mkGraphNode (str "n" ++ of_nat i) (e_text e)
                                       (e_label e) None])) as [H1 H2].
    rewrite H1, H2, !map_app. cbn [map node_label node_group].
    rewrite <- !app_assoc. split; reflexivity.
Qed.

(** Where [id_for] sends the text of an entity. *)
Lemma number_nodes_lookup (ents : list entity) :
  forall i d nodes,
    NoDup (map e_text ents) ->
    (forall t, In t (map e_text ents) ->
               exists j, j < List.length ents
                         /\ nth_error (map e_text ents) j = Some t
                         /\ Dict.get t (fst (number_nodes i ents d nodes))
                            = Some (id_of_index (i + j)))
    /\ (forall t, ~ In t (map e_text ents) ->
                  Dict.get t (fst (number_nodes i ents d nodes)) = Dict.get t d).
Proof.
  induction ents as [|e rest IH]; intros i d nodes Hnd; cbn [number_nodes].
  - split; [intros t [] | intros t _; reflexivity].
  - cbn [map] in Hnd. inversion Hnd as [|? ? Hnotin Hnd']; subst.
    destruct (IH (S i) (Dict.set (e_text e) (str "n" ++ of_nat i) d)
                (nodes ++ [mkGraphNode (str "n" ++ of_nat i) (e_text e)
                                       (e_label e) None]) Hnd') as [Hin Hout].
    split.
    + intros t [<- | Ht].
      * exists 0. split; [cbn [List.length]; lia|]. split; [reflexivity|].
        rewrite (Hout _ Hnotin), get_set_same, Nat.add_0_r. reflexivity.
      * destruct (Hin t Ht) as (j & Hj & Hnth & Hget).
        exists (S j). split; [cbn [List.length]; lia|]. split; [exact Hnth|].
        rewrite Hget. f_equal. f_equal. lia.
    + intros t Ht. cbn [map In] in Ht.
      rewrite Hout by tauto. apply get_set_other. intros E. apply Ht. left.
      symmetry. exact E.
Qed.

Lemma key_eqb_eq (p q : pystr * pystr) : key_eqb p q = true <-> p = q.
Proof.
  destruct p as [a b], q as [c d]. unfold key_eqb. cbn [fst snd].
  rewrite andb_true_iff, !eqb_eq. split.
  - intros [-> ->]. reflexivity.
  - intros H. injection H as -> ->. split; reflexivity.
Qed.

Lemma co_get_None (k : pystr * pystr) (co : counts) :
  co_get k co = None -> ~ In k (map fst co).
Proof.
  induction co as [|[k' w] co IH]; cbn [co_get map fst In]; [tauto|].
  destruct (key_eqb k k') eqn:E; [discriminate|].
  intros H [Hk | Hk]; [|exact (IH H Hk)].
  subst k'. assert (key_eqb k k = true) by (apply key_eqb_eq; reflexivity).
  congruence.
Qed.

Lemma co_set_present (k : pystr * pystr) (w w0 : nat) (co : counts) :
  co_get k co = Some w0 ->
  map fst (co_set k w co) = map fst co
  /\ forall P : (pystr * pystr) * nat -> Prop,
       P (k, w) -> Forall P co -> Forall P (co_set k w co).
Proof.
  induction co as [|[k' w'] co IH]; cbn [co_get co_set]; [discriminate|].
  destruct (key_eqb k k') eqn:E.
  - intros _. apply key_eqb_eq in E. subst k'. split; [reflexivity|].
    intros P Hk Hco. inversion Hco; subst. constructor; assumption.
  - intros H. destruct (IH H) as [Hk HP]. split.
    + cbn [map fst]. rewrite Hk. reflexivity.
    + intros P Hkw Hco. inversion Hco; subst.
      constructor; [assumption | apply HP; assumption].
Qed.

Lemma co_set_absent (k : pystr * pystr) (w : nat) (co : counts) :
  co_get k co = None -> co_set k w co = co ++ [(k, w)].
Proof.
  induction co as [|[k' w'] co IH]; cbn [co_get co_set app]; [reflexivity|].
  destruct (key_eqb k k'); [discriminate|].
  intros H. rewrite (IH H). reflexivity.
Qed.

Lemma co_ok_set (ids : list pystr) (k : pystr * pystr) (co : counts) :
  co_ok ids co -> ordered_pair ids k ->
  co_ok ids (co_set k (match co_get k co with Some w => w | None => 0 end + 1) co).
Proof.
  intros [Hnd Hall] Hk. destruct (co_get k co) as [w0|] eqn:E.
  - destruct (@co_set_present k (w0 + 1) w0 co E) as [Hkeys HP]. split.
    + rewrite Hkeys. exact Hnd.
    + apply HP; [|exact Hall]. cbn [fst snd]. split; [exact Hk | lia].
  - rewrite (@co_set_absent k (0 + 1) co E). split.
    + rewrite map_app. apply NoDup_snoc; [exact Hnd|].
      apply co_get_None. exact E.
    + apply Forall_app. split; [exact Hall|]. constructor; [|constructor].
      split; [exact Hk | cbn [snd]; lia].
Qed.

Lemma str_lt_irrefl (a : pystr) : str_lt a a = false.
Proof.
  induction a as [|x a IH]; cbn [str_lt]; [reflexivity|].
  rewrite Nat.ltb_irrefl, Nat.eqb_refl, IH. reflexivity.
Qed.

Lemma str_lt_asym (a b : pystr) : str_lt a b = true -> str_lt b a = false.
Proof.
  revert b. induction a as [|x a IH]; intros [|y b]; cbn [str_lt];
    try discriminate; try reflexivity.
  intros H. apply orb_prop in H as [H | H].
  - apply Nat.ltb_lt in H.
    assert (E1 : (nat_of_ascii y <? nat_of_ascii x) = false)
      by (apply Nat.ltb_ge; lia).
    assert (E2 : (nat_of_ascii y =? nat_of_ascii x) = false)
      by (apply Nat.eqb_neq; lia).
    rewrite E1, E2. reflexivity.
  - apply andb_prop in H as [He Hl]. apply Nat.eqb_eq in He.
    rewrite <- He, Nat.ltb_irrefl, Nat.eqb_refl, (IH _ Hl). reflexivity.
Qed.

Section PairFacts.

Variable id_for : Dict.dict pystr.
Variable texts ids : list pystr.

Hypothesis id_for_total :
  forall t, In t texts -> exists a, item t id_for = Ok a /\ In a ids.
Hypothesis id_for_inj :
  forall t t' a, In t texts -> In t' texts ->
                 item t id_for = Ok a -> item t' id_for = Ok a -> t = t'.

Lemma pair_row_ok (x : pystr) (later : list pystr) :
  forall co,
    In x texts -> ~ In x later -> (forall y, In y later -> In y texts) ->
    co_ok ids co ->
    exists co', pair_row id_for x later co = Ok co' /\ co_ok ids co'.
Proof.
  induction later as [|y rest IH]; intros co Hx Hnot Hsub Hco;
    cbn [pair_row].
  - exists co. split; [reflexivity | exact Hco].
  - destruct (id_for_total _ Hx) as (a & Ha & Hain).
    assert (Hy : In y texts) by (apply Hsub; left; reflexivity).
    destruct (id_for_total _ Hy) as (b & Hb & Hbin).
    rewrite Ha, Hb. cbn [bind].
    assert (Hab : a <> b).
    { intros E. subst b. apply Hnot. left.
      symmetry. apply id_for_inj with (a := a); assumption. }
    apply IH; [exact Hx | | |].
    + intros H. apply Hnot. right. exact H.
    + intros z Hz. apply Hsub. right. exact Hz.
    + apply co_ok_set; [exact Hco|].
      destruct (str_lt b a) eqn:E; unfold ordered_pair; cbn [fst snd].
      * repeat split; try assumption; [congruence|].
        apply str_lt_asym. exact E.
      * repeat split; assumption.
Qed.

Lemma pair_rows_ok (found : list pystr) :
  forall co,
    NoDup found -> (forall y, In y found -> In y texts) -> co_ok ids co ->
    exists co', pair_rows id_for found co = Ok co' /\ co_ok ids co'.
Proof.
  induction found as [|x rest IH]; intros co Hnd Hsub Hco; cbn [pair_rows].
  - exists co. split; [reflexivity | exact Hco].
  - inversion Hnd as [|? ? Hnot Hnd']; subst.
    destruct (@pair_row_ok x rest co) as (co1 & -> & Hco1);
      [apply Hsub; left; reflexivity | exact Hnot
       | intros y Hy; apply Hsub; right; exact Hy | exact Hco |].
    cbn [bind]. apply IH; [exact Hnd' | | exact Hco1].
    intros y Hy. apply Hsub. right. exact Hy.
Qed.

Lemma sentences_ok (sent_sep : list pystr) :
  forall co,
    NoDup texts -> co_ok ids co ->
    exists co', sentences id_for texts sent_sep co = Ok co' /\ co_ok ids co'.
Proof.
  induction sent_sep as [|s rest IH]; intros co Hnd Hco; cbn [sentences].
  - exists co. split; [reflexivity | exact Hco].
  - destruct (@pair_rows_ok (filter (fun t => contains t s) texts) co)
      as (co1 & -> & Hco1);
      [apply NoDup_filter; exact Hnd
       | intros y Hy; apply filter_In in Hy; tauto | exact Hco |].
    cbn [bind]. apply IH; assumption.
Qed.

End PairFacts.

Section BuilderFacts.

Variable nlp : option (pystr -> result (list (pystr * pystr))).
Variable nx : bool.

Lemma simple_links_of_counts (ids : list pystr) (co : counts) :
  co_ok ids co ->
  simple_links ids
    (map (fun kw => mkGraphLink (fst (fst kw)) (snd (fst kw)) (snd kw)) co).
Proof.
  intros [Hnd Hall]. split.
  - rewrite map_map.
    rewrite (map_ext _ fst); [exact Hnd|]. intros [[a b] w]. reflexivity.
  - apply Forall_map. eapply Forall_impl; [|exact Hall].
    intros [[a b] w] H. exact H.
Qed.

Lemma build_graph_built (text : pystr) :
  exists g,
    build_graph nlp nx text = Ok g
    /\ map node_id (graph_nodes g)
       = map id_of_index (seq 0 (List.length (extract_entities nlp text 60)))
    /\ map node_label (graph_nodes g)
       = map e_text (extract_entities nlp text 60)
    /\ map node_group (graph_nodes g)
       = map e_label (extract_entities nlp text 60)
    /\ simple_links (map node_id (graph_nodes g)) (graph_links g).
Proof.
  unfold build_graph.
  destruct (extract_entities_ok nlp text 60) as (Hnd & _ & _).
  remember (extract_entities nlp text 60) as ents eqn:Eents.
  destruct ents as [|e0 rest0] eqn:Ee.
  { exists (mkBuilt [] []). do 4 (split; [reflexivity|]).
    split; constructor. }
  rewrite <- Ee in *. clear Ee e0 rest0.
  pose proof (@number_nodes_ids ents 0 [] []) as Hids.
  destruct (@number_nodes_labels ents 0 [] []) as [Hlab Hgrp].
  destruct (@number_nodes_lookup ents 0 [] [] Hnd) as [Hlook _].
  destruct (number_nodes 0 ents [] []) as [id_for nodes].
  cbn [fst snd map app] in Hids, Hlab, Hgrp, Hlook.
  set (ids := map id_of_index (seq 0 (List.length ents))) in *.
  assert (Htotal : forall t, In t (map e_text ents) ->
                             exists a, item t id_for = Ok a /\ In a ids).
  { intros t Ht. destruct (Hlook t Ht) as (j & Hj & _ & Hget).
    exists (id_of_index j). unfold item. rewrite Hget. split; [reflexivity|].
    unfold ids. apply in_map, in_seq. lia. }
  assert (Hinj : forall t t' a,
             In t (map e_text ents) -> In t' (map e_text ents) ->
             item t id_for = Ok a -> item t' id_for = Ok a -> t = t').
  { intros t t' a Ht Ht'. unfold item.
    destruct (Hlook t Ht) as (j & _ & Hn & ->).
    destruct (Hlook t' Ht') as (j' & _ & Hn' & ->).
    intros H H'. injection H as <-. injection H' as H'.
    apply of_nat_inj in H'. subst j'. congruence. }
  destruct (@sentences_ok id_for (map e_text ents) ids Htotal Hinj
              (filter nonempty (map strip (split_on "." text))) [] Hnd)
    as (co & -> & Hco).
  { split; constructor. }
  cbn [bind]. eexists. split; [reflexivity|].
  cbn [graph_nodes graph_links].
  assert (Hsame : forall f : node -> node,
             (forall n, node_id (f n) = node_id n
                        /\ node_label (f n) = node_label n
                        /\ node_group (f n) = node_group n) ->
             map node_id (map f nodes) = ids
             /\ map node_label (map f nodes) = map e_text ents
             /\ map node_group (map f nodes) = map e_label ents).
  { intros f Hf. rewrite !map_map.
    rewrite (map_ext (fun n => node_id (f n)) node_id) by (intros n; apply Hf).
    rewrite (map_ext (fun n => node_label (f n)) node_label)
      by (intros n; apply Hf).
    rewrite (map_ext (fun n => node_group (f n)) node_group)
      by (intros n; apply Hf).
    repeat split; assumption. }
  destruct (nx && _).
  - match goal with
    | |- context [map node_id (map ?f nodes)] =>
        destruct (Hsame f (fun n => conj eq_refl (conj eq_refl eq_refl)))
          as (H1 & H2 & H3)
    end.
    rewrite H1, H2, H3. do 3 (split; [reflexivity|]).
    apply simple_links_of_counts; exact Hco.
  - rewrite Hids, Hlab, Hgrp. do 3 (split; [reflexivity|]).
    apply simple_links_of_counts; exact Hco.
Qed.

(** X25: [build_graph] never raises, and what it returns is a simple
    undirected graph on the entities of the text: the nodes are the
    entities in their order, with the ids n0, n1, ... (pairwise distinct),
    their texts as labels and their labels as groups; every link joins two
    different nodes of the graph, the smaller id first as strings are
    ordered, has a weight of at least one, and no two links join the same
    pair.  A text with fewer than two entities gives no link. *)
Theorem build_graph_well_formed :
  forall text : pystr,
    let ents := extract_entities nlp text 60 in
    exists g : graph,
      build_graph nlp nx text = Ok g
      /\ map node_id (graph_nodes g)
         = map id_of_index (seq 0 (List.length ents))
      /\ NoDup (map node_id (graph_nodes g))
      /\ map node_label (graph_nodes g) = map e_text ents
      /\ map node_group (graph_nodes g) = map e_label ents
      /\ simple_links (map node_id (graph_nodes g)) (graph_links g)
      /\ (List.length ents < 2 -> graph_links g = []).
Proof.
  intros text ents.
  destruct (build_graph_built text) as (g & Hg & Hids & Hlab & Hgrp & Hl).
  exists g. fold ents in Hids, Hlab, Hgrp.
  split; [exact Hg|]. split; [exact Hids|]. split.
  { rewrite Hids. apply id_of_index_NoDup. }
  split; [exact Hlab|]. split; [exact Hgrp|]. split; [exact Hl|].
  intros Hlen. destruct Hl as [_ Hall]. rewrite Hids in Hall.
  destruct (graph_links g) as [|l rest]; [reflexivity|]. exfalso.
  inversion Hall as [|? ? [(Ha & Hb & Hne & _) _] _]; subst.
  destruct (List.length ents) as [|[|n]]; [destruct Ha | | lia].
  cbn [seq map In] in Ha, Hb. destruct Ha as [Ha | []], Hb as [Hb | []].
  congruence.
Qed.

End BuilderFacts.

Lemma build_graph_well_formed_witness :
  exists g : graph,
    build_graph None false (str "Alice met Bob. Bob met Carol and Alice. x")
    = Ok g
    /\ map ends (graph_links g)
       = [(str "n0", str "n2"); (str "n0", str "n3"); (str "n2", str "n3")].
Proof.
  destruct (build_graph_well_formed None false
              (str "Alice met Bob. Bob met Carol and Alice. x"))
    as (g & Hg & _).
  exists g. split; [exact Hg|].
  vm_compute in Hg. injection Hg as <-. reflexivity.
Defined.

(** ** The centrality score of a built graph *)

Section Density.

#[local] Open Scope R_scope.

Import CredibilityEngine.









Variable nlp : option (pystr -> result (list (pystr * pystr))).
Variable nx : bool.


End Density.


(** ** The contradiction detector *)

Section DetectorFacts.

#[local] Open Scope R_scope.

Variable vector : Type.
Variable cosine_similarity : vector -> vector -> R.

Lemma detect_from_spec (main : vector) (threshold : R) (evs : list vector) :
  forall idx i s,
    In (i, s) (ContradictionDetector.detect_from cosine_similarity idx main evs
                                                 threshold)
    <-> (idx <= i)%nat
        /\ exists ev, nth_error evs (i - idx) = Some ev
                      /\ s = cosine_similarity main ev /\ s < threshold.
Proof.
  induction evs as [|ev rest IH]; intros idx i s;
    cbn [ContradictionDetector.detect_from].
  - split; [intros [] | intros (_ & ev & H & _)].
    destruct (i - idx)%nat; discriminate H.
  - assert (Hrest : In (i, s) (ContradictionDetector.detect_from
                                 cosine_similarity (S idx) main rest threshold)
                    <-> (idx < i)%nat
                        /\ exists ev', nth_error (ev :: rest) (i - idx) = Some ev'
                                       /\ s = cosine_similarity main ev'
                                       /\ s < threshold).
    { rewrite IH. split.
      - intros (Hle & ev' & Hn & Hs). split; [lia|]. exists ev'.
        replace (i - idx)%nat with (S (i - S idx)) by lia. split; assumption.
      - intros (Hlt & ev' & Hn & Hs). split; [lia|]. exists ev'.
        replace (i - idx)%nat with (S (i - S idx)) in Hn by lia.
        split; assumption. }
    assert (Hhead : forall P : Prop,
               (P <-> (idx < i)%nat
                      /\ exists ev', nth_error (ev :: rest) (i - idx) = Some ev'
                                     /\ s = cosine_similarity main ev'
                                     /\ s < threshold) ->
               ~ cosine_similarity main ev < threshold ->
               (P <-> (idx <= i)%nat
                      /\ exists ev', nth_error (ev :: rest) (i - idx) = Some ev'
                                     /\ s = cosine_similarity main ev'
                                     /\ s < threshold)).
    { intros P HP Hno. rewrite HP. split.
      - intros (Hlt & H). split; [lia | exact H].
      - intros (Hle & ev' & Hn & Hs & Hlt). split; [|exists ev'; tauto].
        destruct (Nat.eq_dec i idx) as [-> | Hne]; [|lia].
        rewrite Nat.sub_diag in Hn. injection Hn as <-. subst s. contradiction. }
    destruct (Rlt_dec (cosine_similarity main ev) threshold) as [Hlt | Hno].
    + cbn [In]. rewrite Hrest. split.
      * intros [H | (Hi & H)].
        -- injection H as <- <-. split; [lia|]. exists ev.
           rewrite Nat.sub_diag. repeat split. exact Hlt.
        -- split; [lia | exact H].
      * intros (Hle & ev' & Hn & Hs & Hlt').
        destruct (Nat.eq_dec i idx) as [-> | Hne].
        -- left. rewrite Nat.sub_diag in Hn. injection Hn as <-. subst s.
           reflexivity.
        -- right. split; [lia|]. exists ev'. tauto.
    + apply Hhead; assumption.
Qed.

Lemma detect_from_indices (main : vector) (threshold : R) (evs : list vector) :
  forall idx,
    StronglySorted lt
      (map fst (ContradictionDetector.detect_from cosine_similarity idx main evs
                                                   threshold)).
Proof.
  induction evs as [|ev rest IH]; intros idx;
    cbn [ContradictionDetector.detect_from]; [constructor|].
  destruct (Rlt_dec _ _); [|apply IH].
  cbn [map fst]. constructor; [apply IH|].
  apply Forall_forall. intros j Hj. apply in_map_iff in Hj as ([i s] & <- & Hin).
  apply detect_from_spec in Hin as [Hle _]. cbn [fst]. lia.
Qed.

Lemma detect_from_length (main : vector) (threshold : R) (evs : list vector) :
  forall idx,
    (List.length (ContradictionDetector.detect_from cosine_similarity idx main
                                                    evs threshold)
     <= List.length evs)%nat.
Proof.
  induction evs as [|ev rest IH]; intros idx;
    cbn [ContradictionDetector.detect_from List.length]; [lia|].
  destruct (Rlt_dec _ _); cbn [List.length]; specialize (IH (S idx)); lia.
Qed.

(** X27: the contradiction detector reports exactly the evidence vectors
    whose similarity to the main text is below the threshold, each with
    its index and that similarity, in increasing order of index; a report
    made with a threshold is part of the report made with any greater
    threshold, and there are at most as many entries as vectors. *)
Theorem contradictions_reported :
  forall (main : vector) (evs : list vector) (threshold : R),
    let found := ContradictionDetector.detect cosine_similarity main evs
                                              threshold in
    (forall i s,
        In (i, s) found
        <-> exists ev, nth_error evs i = Some ev
                       /\ s = cosine_similarity main ev /\ s < threshold)
    /\ StronglySorted lt (map fst found)
    /\ (List.length found <= List.length evs)%nat
    /\ (forall threshold', threshold <= threshold' ->
          incl found (ContradictionDetector.detect cosine_similarity main evs
                                                   threshold')).
Proof.
  intros main evs threshold found. unfold found, ContradictionDetector.detect.
  assert (Hspec : forall th i s,
             In (i, s) (ContradictionDetector.detect_from cosine_similarity 0
                                                          main evs th)
             <-> exists ev, nth_error evs i = Some ev
                            /\ s = cosine_similarity main ev /\ s < th).
  { intros th i s. rewrite detect_from_spec, Nat.sub_0_r. split.
    - intros [_ H]. exact H.
    - intros H. split; [lia | exact H]. }
  split; [apply Hspec|]. split; [apply detect_from_indices|]. split.
  - apply detect_from_length.
  - intros th' Hth [i s] Hin. apply Hspec. apply Hspec in Hin.
    destruct Hin as (ev & Hn & Hs & Hlt). exists ev.
    split; [exact Hn|]. split; [exact Hs | lra].
Qed.

End DetectorFacts.

Lemma contradictions_reported_witness :
  exists s : R,
    In (2%nat, s)
       (ContradictionDetector.detect (fun a b : R => (a * b)%R) 1%R
                                     [0.2; 0.9; 0.1]%R 0.35%R).
Proof.
  exists (1 * 0.1)%R.
  apply (proj1 (contradictions_reported (fun a b : R => (a * b)%R) 1%R
                  [0.2; 0.9; 0.1]%R 0.35%R)).
  exists 0.1%R. split; [reflexivity|]. split; [reflexivity | lra].
Defined.

(** ** The brief and the run of the controller *)

Lemma task_get_task (id role prompt : pystr) (rs : bool) (d : json) :
  task_get (str "requires_search") d (task id role prompt rs) = Ok (JBool rs)
  /\ task_get (str "prompt") d (task id role prompt rs) = Ok (JStr prompt)
  /\ task_get (str "role") d (task id role prompt rs) = Ok (JStr role)
  /\ task_get (str "id") d (task id role prompt rs) = Ok (JStr id).
Proof. repeat split; reflexivity. Qed.

Lemma task_get_object (k : pystr) (d : json) (t : json) (v : json) :
  task_get k d t = Ok v -> is_object t = true.
Proof. destruct t; try discriminate. reflexivity. Qed.

Lemma plan_tasks_array (llm : LLMAgent) (query : pystr) :
  exists tasks, plan_tasks llm query = Ok (JArr tasks).
Proof.
  unfold plan_tasks. destruct (available llm); cbn [negb];
    [|eexists; reflexivity].
  unfold planner_try.
  destruct (summarize llm (planner_prompt query) 300) as [raw|e];
    cbn [bind try_except]; [|eexists; reflexivity].
  destruct (re_search_array raw) as [m|] eqn:Em; cbn [bind try_except];
    [|eexists; reflexivity].
  destruct (re_search_array_head _ Em) as [r ->].
  destruct (Json.loads ("["%char :: r)) as [v|e] eqn:El; cbn [bind try_except];
    [|eexists; reflexivity].
  destruct (loads_array _ El) as [parsed ->]. cbn [ensure_fields].
  destruct (backfill_all query 0 parsed) as [tasks|e]; cbn [bind try_except];
    eexists; reflexivity.
Qed.

Section ControllerFacts.

#[local] Open Scope R_scope.

Variable llm : LLMAgent.
Variable research_llm : LLMAgent.
Variable build_graph : pystr -> result kg.
Variable search : json -> nat -> result (list hit).
Variable scrape : pystr -> result page.
Variable format : json -> pystr.
Variable _has_nx : bool.
Variable max_search_results : nat.
Variable now : R.
Variable model_brief_credibility : Dict.dict json -> article -> result R.

Lemma sections_from_orders (trs : list task_result) :
  forall n secs,
    sections_from format n trs = Ok secs ->
    map order secs = seq n (List.length trs)
    /\ Forall (fun tr => is_object (tr_task tr) = true) trs.
Proof.
  induction trs as [|tr rest IH]; intros n secs; cbn [sections_from].
  - intros H. injection H as <-. split; [reflexivity | constructor].
  - destruct (task_get (str "role") _ (tr_task tr)) as [role|e] eqn:Er;
      cbn [bind]; [|discriminate].
    destruct (task_get (str "prompt") _ (tr_task tr)) as [prompt|e];
      cbn [bind]; [|discriminate].
    destruct (sections_from format (S n) rest) as [rest'|e] eqn:E;
      cbn [bind]; [|discriminate].
    intros H. injection H as <-. destruct (IH _ _ E) as [Ho Hall].
    cbn [map order List.length seq]. rewrite Ho.
    split; [reflexivity|]. constructor; [|exact Hall].
    apply (task_get_object _ _ _ Er).
Qed.

Lemma sections_from_returns (trs : list task_result) :
  Forall (fun tr => is_object (tr_task tr) = true) trs ->
  forall n, exists secs, sections_from format n trs = Ok secs.
Proof.
  induction 1 as [|tr rest Htr _ IH]; intros n; cbn [sections_from].
  - eexists. reflexivity.
  - destruct (tr_task tr); try discriminate Htr. cbn [task_get bind].
    destruct (IH (S n)) as [rest' ->]. cbn [bind]. eexists. reflexivity.
Qed.

(** X28: the brief.  Without a model [synthesize_brief] always makes the
    brief itself, and it returns whenever the graph builder does and every
    task is an object.  A brief made without the model has one section for
    each task result, numbered from 1 in their order, the conclusion
    "(auto) Brief conclusion for: <query>", no contradiction, and one
    citation for each evidence item of the task results, in their order,
    scored with the relevance of the item.  A brief written by the model
    comes from an object found in the answer of an available model. *)
Theorem brief_shape :
  forall (query : pystr) (trs : list task_result),
    let all := flat_map tr_evidence trs in
    (forall b,
        synthesize_brief llm build_graph format query trs = Ok b ->
        match b with
        | FallbackBrief sections conclusion contradictions citations _ =>
            map order sections = seq 1 (List.length trs)
            /\ conclusion = str "(auto) Brief conclusion for: " ++ query
            /\ contradictions = []
            /\ citations = map citation_of all
            /\ map c_score citations = map (get_relevance 0) all
        | ModelBrief out _ _ =>
            available llm = true
            /\ exists prompt raw m,
                 summarize llm prompt 700 = Ok raw
                 /\ re_search_object raw = Some m
                 /\ Json.loads m = Ok (JObj out)
        end)
    /\ (available llm = false ->
        (forall t, exists g, build_graph t = Ok g) ->
        Forall (fun tr => is_object (tr_task tr) = true) trs ->
        exists sections citations g,
          synthesize_brief llm build_graph format query trs
          = Ok (FallbackBrief sections
                              (str "(auto) Brief conclusion for: " ++ query)
                              [] citations g)).
Proof.
  intros query trs all. split.
  - intros b. unfold synthesize_brief. fold all.
    destruct (build_graph _) as [g|e]; cbn [bind]; [|discriminate].
    assert (Hfb : forall b',
               (sections <- sections_from format 1 trs ;;
                Ok (FallbackBrief sections
                      (str "(auto) Brief conclusion for: " ++ query) []
                      (map citation_of all) g)) = Ok b' ->
               match b' with
               | FallbackBrief sections conclusion contradictions citations _ =>
                   map order sections = seq 1 (List.length trs)
                   /\ conclusion = str "(auto) Brief conclusion for: " ++ query
                   /\ contradictions = []
                   /\ citations = map citation_of all
                   /\ map c_score citations = map (get_relevance 0) all
               | ModelBrief out _ _ =>
                   available llm = true
                   /\ exists prompt raw m,
                        summarize llm prompt 700 = Ok raw
                        /\ re_search_object raw = Some m
                        /\ Json.loads m = Ok (JObj out)
               end).
    { intros b'. destruct (sections_from format 1 trs) as [secs|e] eqn:E;
        cbn [bind]; [|discriminate].
      intros H. injection H as <-. destruct (sections_from_orders _ _ E) as [Ho _].
      repeat split; try reflexivity; [exact Ho|].
      rewrite map_map. reflexivity. }
    destruct (available llm) eqn:Hav; cbn [bind]; [|apply Hfb].
    unfold synthesis_try.
    destruct (summarize llm _ 700) as [raw|e] eqn:Es;
      cbn [bind try_except]; [|apply Hfb].
    destruct (re_search_object raw) as [m|] eqn:Em;
      cbn [bind try_except]; [|apply Hfb].
    destruct (Json.loads m) as [out|e] eqn:El;
      cbn [bind try_except]; [|apply Hfb].
    destruct out; cbn [bind try_except]; try apply Hfb.
    intros H. injection H as <-. split; [reflexivity|].
    eexists. exists raw, m. repeat split; eassumption.
  - intros Hav Hbg Hobj. unfold synthesize_brief. rewrite Hav.
    destruct (Hbg (join [newline; newline]
                     (flat_map (fun tr => map text (firstn 3 (tr_evidence tr)))
                               trs))) as [g ->].
    cbn [bind].
    destruct (sections_from_returns Hobj 1) as [secs ->]. cbn [bind].
    do 3 eexists. reflexivity.
Qed.

Lemma rate_items_spec (items : list evidence) :
  forall budget,
    map rated_item (fst (rate_items _has_nx budget items)) = items
    /\ map credibility (fst (rate_items _has_nx budget items))
       = map (fun s => Some (credibility_of _has_nx s)) (firstn budget items)
         ++ map (fun _ => None) (skipn budget items)
    /\ snd (rate_items _has_nx budget items)
       = (budget - List.length items)%nat.
Proof.
  induction items as [|s rest IH]; intros budget.
  - cbn [rate_items fst snd map List.length]. rewrite firstn_nil, skipn_nil.
    repeat split. lia.
  - cbn [rate_items]. destruct budget as [|b].
    + destruct (IH 0%nat) as (H1 & H2 & H3).
      destruct (rate_items _has_nx 0 rest) as [rest' b'].
      cbn [fst snd] in *. cbn [map rated_item credibility firstn skipn app].
      rewrite H1. cbn [firstn skipn map app] in H2.
      rewrite H2. repeat split. cbn [List.length]. lia.
    + destruct (IH b) as (H1 & H2 & H3).
      destruct (rate_items _has_nx b rest) as [rest' b'].
      cbn [fst snd] in *. cbn [map rated_item credibility firstn skipn app].
      rewrite H1, H2. repeat split. cbn [List.length]. lia.
Qed.

Lemma rate_results_spec (trs : list task_result) :
  forall budget,
    map rr_task (rate_results _has_nx budget trs) = map tr_task trs
    /\ rated_items (rate_results _has_nx budget trs) = flat_map tr_evidence trs
    /\ ratings (rate_results _has_nx budget trs)
       = map (fun s => Some (credibility_of _has_nx s))
             (firstn budget (flat_map tr_evidence trs))
         ++ map (fun _ => None) (skipn budget (flat_map tr_evidence trs)).
Proof.
  unfold rated_items, ratings.
  induction trs as [|tr rest IH]; intros budget.
  - cbn [rate_results map flat_map]. rewrite firstn_nil, skipn_nil.
    repeat split.
  - cbn [rate_results].
    destruct (rate_items_spec (tr_evidence tr) budget) as (H1 & H2 & H3).
    destruct (rate_items _has_nx budget (tr_evidence tr)) as [items b'].
    cbn [fst snd] in H1, H2, H3. subst b'.
    destruct (IH (budget - List.length (tr_evidence tr))%nat) as (I1 & I2 & I3).
    cbn [map rr_task flat_map rr_evidence]. rewrite !map_app, I1, H1, I2, H2, I3.
    split; [reflexivity|]. split; [reflexivity|].
    rewrite firstn_app, skipn_app, !map_app.
    destruct (le_lt_dec (List.length (tr_evidence tr)) budget) as [Hle | Hlt].
    + rewrite (skipn_all2 (tr_evidence tr)) by exact Hle.
      cbn [map app]. rewrite <- !app_assoc. reflexivity.
    + replace (budget - List.length (tr_evidence tr))%nat with 0%nat by lia.
      cbn [firstn map app]. rewrite app_nil_r, <- !app_assoc. reflexivity.
Qed.

Lemma run_tasks_tasks (query : pystr) (m n : nat) (tasks : list json) :
  forall trs,
    run_tasks research_llm build_graph search scrape format query m n tasks
    = Ok trs ->
    map tr_task trs = tasks /\ Forall (fun t => is_object t = true) tasks.
Proof.
  induction tasks as [|t rest IH]; intros trs; cbn [run_tasks].
  - intros H. injection H as <-. split; [reflexivity | constructor].
  - destruct (run_task _ _ _ _ _ _ _ _ t) as [tr|e] eqn:Et; cbn [bind];
      [|discriminate].
    destruct (run_tasks _ _ _ _ _ _ _ _ rest) as [rest'|e] eqn:Er; cbn [bind];
      [|discriminate].
    intros H. injection H as <-. destruct (IH _ eq_refl) as [Hm Hall].
    assert (Ht : tr_task tr = t /\ is_object t = true).
    { unfold run_task in Et.
      destruct (task_get (str "requires_search") (JBool true) t) as [rs|e] eqn:E;
        cbn [bind] in Et; [|discriminate].
      apply task_get_object in E. split; [|exact E].
      destruct (truthy rs).
      - destruct (task_get (str "prompt") JNull t); cbn [bind] in Et;
          [|discriminate].
        destruct (run_task_search_and_scrape _ _); cbn [bind] in Et;
          [|discriminate].
        injection Et as <-. reflexivity.
      - destruct (task_get (str "prompt") (JStr []) t); cbn [bind] in Et;
          [|discriminate].
        destruct (text_of _); cbn [bind] in Et; [|discriminate].
        destruct (ResearchAgent.analyze _ _ _); cbn [bind] in Et; [|discriminate].
        destruct (snippets_of _ _); cbn [bind] in Et; [|discriminate].
        destruct (task_get (str "id") JNull t); cbn [bind] in Et; [|discriminate].
        destruct (task_get (str "prompt") JNull t); cbn [bind] in Et;
          [|discriminate].
        injection Et as <-. reflexivity. }
    destruct Ht as [Ht Ho]. cbn [map]. rewrite Ht, Hm.
    split; [reflexivity | constructor; assumption].
Qed.

(** X29: what [run] returns whenever it returns.  The plan is a list of
    objects, and the task results are one for each task of the plan, in
    the order of the plan.  Of all their evidence items, task after task,
    the first twelve carry a credibility, a number of [0,1] that the
    engine computes from the item alone, and the others none.  The query
    and the time are reported as they are. *)
Theorem run_report :
  forall (query : pystr) (max_task_results : nat) (search_per_task : option nat)
         (out : run_result),
    run llm research_llm build_graph search scrape format _has_nx
        max_search_results now model_brief_credibility
        query max_task_results search_per_task = Ok out ->
    exists tasks : list json,
      plan_tasks llm query = Ok (JArr tasks)
      /\ run_plan out = JArr tasks
      /\ Forall (fun t => is_object t = true) tasks
      /\ map rr_task (run_task_results out) = tasks
      /\ ratings (run_task_results out)
         = map (fun s => Some (credibility_of _has_nx s))
               (firstn 12 (rated_items (run_task_results out)))
           ++ map (fun _ => None)
                  (skipn 12 (rated_items (run_task_results out)))
      /\ Forall (fun c => match c with
                          | Some x => 0 <= x <= 1
                          | None => True
                          end) (ratings (run_task_results out))
      /\ run_query out = query /\ timestamp out = now.
Proof.
  intros query mtr spt out. unfold run.
  destruct (plan_tasks_array llm query) as [tasks Hplan]. rewrite Hplan.
  cbn [bind iter_plan].
  destruct (run_tasks _ _ _ _ _ _ _ _ tasks) as [trs|e] eqn:Et; cbn [bind];
    [|discriminate].
  destruct (synthesize_brief _ _ _ _ _) as [final|e]; cbn [bind];
    [|discriminate].
  destruct (top_credibility _ _ _ _) as [top|e]; cbn [bind]; [|discriminate].
  intros H. injection H as <-. cbn [run_plan run_task_results run_query timestamp].
  destruct (run_tasks_tasks _ _ _ _ Et) as [Hm Hobj].
  destruct (rate_results_spec trs 12) as (R1 & R2 & R3).
  exists tasks. split; [reflexivity|]. split; [reflexivity|].
  split; [exact Hobj|]. split; [rewrite R1; exact Hm|].
  split; [rewrite R2; exact R3|]. split; [|split; reflexivity].
  rewrite R3. apply Forall_app. split; apply Forall_forall; intros c Hc;
    apply in_map_iff in Hc as (s & <- & _); [|exact I].
  apply py_round_unit, clamp_unit.
Qed.

End ControllerFacts.

(** *** The controller without a model and without a search tool *)

Lemma analyze_unavailable_total (bg : pystr -> result kg) (a : article) :
  (exists k, bg (strip (a_text a)) = Ok k) ->
  exists short, ResearchAgent.analyze LLM.unavailable_agent bg a = Ok short.
Proof.
  intros [k Hk].
  unfold ResearchAgent.analyze, LLM.unavailable_agent, LLM.agent.
  cbn [summarize analyze_claims client].
  destruct (summarize_unavailable
              (fun _ _ _ => Raise (RuntimeError (str "LLM client not available")))
              (strip (a_text a)) 300 None) as [out Hout].
  rewrite Hout, Hk.
  destruct (nonempty (strip (a_text a))); cbn [bind];
    destruct (nonempty _); cbn [bind]; eexists; reflexivity.
Qed.

Lemma graph_builder_total
      (nlp : option (pystr -> result (list (pystr * pystr)))) (nx : bool)
      (t : pystr) :
  exists k, graph_builder nlp nx t = Ok k.
Proof.
  unfold graph_builder.
  destruct (build_graph_built nlp nx t) as (g & -> & _).
  eexists. reflexivity.
Qed.

Section OfflineRun.

#[local] Open Scope R_scope.

Lemma py_round_tie_402 : py_round 0.4025 3 = 0.402.
Proof.
  unfold py_round, round_half_even.
  assert (E : 0.4025 * 10 ^ 3 = IZR 402 + 1 / 2) by (simpl; lra).
  rewrite E.
  assert (F : Zfloor (IZR 402 + 1 / 2) = 402%Z) by (apply Zfloor_eq; lra).
  rewrite F.
  destruct (Rlt_dec _ _) as [H|_]; [lra|].
  destruct (Rlt_dec _ _) as [H|_]; [lra|].
  change (Z.even 402) with true. cbv iota. simpl. lra.
Qed.

Lemma empty_research_score (_has_nx : bool) (query : pystr) :
  CredibilityEngine.score _has_nx (mkArticle [] query []) (Some (mkKg [] []))
                          (Some (mkStance (Some 0.5) [] [])) []
  = if _has_nx then 0.402 else 0.41.
Proof.
  unfold CredibilityEngine.score, CredibilityEngine.pre_clamp,
         CredibilityEngine.raw.
  cbn [a_url a_text support].
  change (strip []) with (@nil ascii).
  change (CredibilityEngine._domain_reliability_score []) with 0.45.
  change (CredibilityEngine._content_score []) with 0.2.
  change (CredibilityEngine._bias_penalty []) with 0.
  destruct _has_nx.
  - change (CredibilityEngine._kg_centrality_score true (Some (mkKg [] [])))
      with 0.45.
    rewrite <- py_round_tie_402. f_equal.
    rewrite Rmin_right, Rmax_right; lra.
  - change (CredibilityEngine._kg_centrality_score false (Some (mkKg [] [])))
      with 0.5.
    transitivity (py_round (IZR 410 / 10 ^ 3) 3);
      [|rewrite py_round_exact; simpl; lra].
    f_equal. rewrite Rmin_right, Rmax_right; simpl; lra.
Qed.

Variable nlp : option (pystr -> result (list (pystr * pystr))).
Variable nx : bool.
Variable scrape : pystr -> result page.
Variable format : json -> pystr.
Variable _has_nx : bool.
Variable max_search_results : nat.
Variable now : R.
Variable model_brief_credibility : Dict.dict json -> article -> result R.

Hypothesis format_str : forall s, format (JStr s) = s.

Lemma run_task_without_hits (query id role prompt : pystr) (m n : nat) :
  run_task LLM.unavailable_agent (graph_builder nlp nx) default_search scrape
           format query m n (task id role prompt true)
  = Ok (mkTaskResult (task id role prompt true) []).
Proof. reflexivity. Qed.

Lemma run_task_without_search (query id role prompt : pystr) (m n : nat) :
  nonempty prompt = true ->
  run_task LLM.unavailable_agent (graph_builder nlp nx) default_search scrape
           format query m n (task id role prompt false)
  = Ok (mkTaskResult (task id role prompt false) []).
Proof.
  intros Hp.
  rewrite (@run_task_no_search LLM.unavailable_agent (graph_builder nlp nx)
             default_search scrape format query m n
             (task id role prompt false) (JBool false) eq_refl eq_refl).
  change (task_get (str "prompt") (JStr []) (task id role prompt false))
    with (@Ok json (JStr prompt)).
  cbn [bind]. unfold text_of. cbn [truthy]. rewrite Hp. cbn [negb bind].
  destruct (@analyze_unavailable_total (graph_builder nlp nx)
              (mkArticle [] query prompt)) as [short ->];
    [apply graph_builder_total | reflexivity].
Qed.

Lemma offline_run (query : pystr) (m : nat) (spt : option nat) :
  run LLM.unavailable_agent LLM.unavailable_agent (graph_builder nlp nx)
      default_search scrape format _has_nx max_search_results now
      model_brief_credibility query m spt
  = Ok (mkRun query (JArr (unavailable_plan query))
              (map (fun t => mkRatedResult t []) (unavailable_plan query))
              (empty_brief query)
              (if _has_nx then 0.402 else 0.41) now).
Proof.
  unfold run.
  change (plan_tasks LLM.unavailable_agent query)
    with (@Ok json (JArr (unavailable_plan query))).
  cbn [bind iter_plan]. unfold unavailable_plan. cbn [run_tasks].
  rewrite !run_task_without_hits, run_task_without_search by reflexivity.
  cbn [bind]. unfold synthesize_brief.
  cbn [flat_map tr_evidence app map firstn].
  change (join [newline; newline] []) with (@nil ascii).
  change (graph_builder nlp nx []) with (@Ok kg (mkKg [] [])).
  change (available LLM.unavailable_agent) with false.
  cbn [bind sections_from tr_task tr_evidence firstn fold_left].
  rewrite !(proj1 (proj2 (proj2 (task_get_task _ _ _ _ _)))).
  rewrite !(proj1 (proj2 (task_get_task _ _ _ _ _))).
  cbn [bind]. rewrite !format_str.
  cbn [top_credibility bind]. rewrite empty_research_score.
  reflexivity.
Qed.

(** X30: the controller as it runs without a model and with the search
    tool it has by default, which finds nothing.  For every query [run]
    returns: the plan is the three-task template, no task has evidence,
    the brief has the three sections of the template without findings, no
    citation and an empty graph, and the top-level credibility is the same
    for every query: 0.402 with networkx and 0.41 without.  So
    [/agentic_detect] answers 200 to every request with a query and no
    url. *)
Theorem offline_research :
  forall (query : pystr) (max_task_results : nat) (search_per_task : option nat),
    let research :=
      run LLM.unavailable_agent LLM.unavailable_agent (graph_builder nlp nx)
          default_search scrape format _has_nx max_search_results now
          model_brief_credibility in
    exists out : run_result,
      research query max_task_results search_per_task = Ok out
      /\ run_plan out = JArr (unavailable_plan query)
      /\ run_task_results out
         = map (fun t => mkRatedResult t []) (unavailable_plan query)
      /\ run_brief out = empty_brief query
      /\ top_level_credibility out = (if _has_nx then 0.402 else 0.41)
      /\ (nonempty query = true ->
          forall (scrape' : pystr -> result page) (llm' : LLMAgent)
                 (build_graph' : pystr -> result kg) (nx' : bool)
                 (exn_text : exn -> pystr),
            http_status
              (agentic_detect (fun q => research q 4%nat None) scrape' llm'
                              build_graph' nx' exn_text
                              (mkRequest (Some query) None))
            = 200%nat).
Proof.
  intros query m spt research. unfold research.
  rewrite offline_run. eexists. split; [reflexivity|].
  cbn [run_plan run_task_results run_brief top_level_credibility].
  do 4 (split; [reflexivity|]).
  intros Hq scrape' llm' build_graph' nx' exn_text.
  unfold agentic_detect, agentic_detect_try.
  cbn [req_url req_query given]. rewrite Hq, offline_run. reflexivity.
Qed.

End OfflineRun.

Lemma offline_research_witness :
  exists out : run_result,
    run LLM.unavailable_agent LLM.unavailable_agent (graph_builder None false)
        default_search blank_scraper field_of false 6 0%R
        (fun _ _ => Raise ValueError) (str "vaccine safety") 4 None = Ok out
    /\ top_level_credibility out = 0.41%R.
Proof.
  destruct (@offline_research None false blank_scraper field_of false 6 0%R
              (fun _ _ => Raise ValueError) (fun s => eq_refl)
              (str "vaccine safety") 4 None) as (out & E & _ & _ & _ & H & _).
  exists out. split; [exact E | exact H].
Defined.

Lemma run_report_witness :
  exists tasks : list json,
    plan_tasks LLM.unavailable_agent (str "vaccine safety") = Ok (JArr tasks)
    /\ List.length tasks = 3.
Proof.
  destruct (@run_report LLM.unavailable_agent LLM.unavailable_agent
              (graph_builder None false) default_search blank_scraper field_of
              false 6 0%R (fun _ _ => Raise ValueError)
              (str "vaccine safety") 4 None _
              (@offline_run None false blank_scraper field_of false 6 0%R
                 (fun _ _ => Raise ValueError) (fun s => eq_refl)
                 (str "vaccine safety") 4 None))
    as (tasks & Hp & Hplan & _).
  exists tasks. split; [exact Hp|].
  cbn [run_plan] in Hplan. injection Hplan as <-. reflexivity.
Defined.

Lemma brief_shape_witness :
  exists sections citations g,
    synthesize_brief LLM.unavailable_agent (graph_builder None false) field_of
                     (str "rain") [mkTaskResult (JObj []) []]
    = Ok (FallbackBrief sections (str "(auto) Brief conclusion for: rain") []
                        citations g).
Proof.
  apply (proj2 (@brief_shape LLM.unavailable_agent (graph_builder None false)
                  field_of (str "rain") [mkTaskResult (JObj []) []])).
  - reflexivity.
  - apply graph_builder_total.
  - repeat constructor.
Defined.
